(** * Lathe predictive-maintenance backend: aggregation and health-score model

    A shallow embedding of [fastapi_backend.py] (the four read endpoints),
    of [enrich], the timestamps and the upload of
    [mongodb_data_generator.py], and of the pure parts of
    [streamlit_frontend.py], followed by the properties claimed for them.

    Numbers.  Python and numpy floats are modelled by [pyfloat]: a rational,
    one of the two infinities, or NaN.  NaN matters here because pandas
    represents a key that a document lacks by NaN; the infinities only arise
    from numpy's division by zero.  Sums and means are those of the
    rationals: the order in which pandas and numpy add doubles, and so the
    rounding error they accumulate, is the library's and not the
    repository's.  A statement that compares a reported mean with the exact
    mean therefore leaves a margin ([slack]) and bounds the values, so that
    it holds of the doubles as well.  The product analysis is modelled in
    binary64 ([b64]) wherever the source alone fixes the double: the failure
    rate, whose sum of flags is exact in any order, and numpy's rounding of
    its results; there a tie of the last decimal is decided by the doubles,
    not by the exact value.

    Documents.  A MongoDB document is a Python dict.  [Doc] keeps the keys
    the code reads, each optional, [None] meaning that the key is absent. *)

From Stdlib Require Import QArith Qround Qabs Qpower ZArith List Lia Lqa
  Permutation Sorted.
From stdpp Require Import gmap strings list fin_maps pretty.

Local Open Scope Z_scope.

(** ** Python values, exceptions *)

Inductive pyfloat : Type :=
  | Num (q : Q)
  | PInf
  | NInf
  | NaN.

Inductive exn : Type :=
  | HTTPException (status_code : Z) (detail : string)
  | KeyError (key : string)
  | ValueError (msg : string)
  | ZeroDivisionError
  | OverflowError.

Inductive result (A : Type) : Type :=
  | Ok (a : A)
  | Raise (e : exn).
Arguments Ok {A} a.
Arguments Raise {A} e.

Definition bind {A B} (r : result A) (k : A -> result B) : result B :=
  match r with
  | Ok a => k a
  | Raise e => Raise e
  end.

Notation "'let*' x ':=' r 'in' k" := (bind r (fun x => k))
  (at level 10, x name, r at level 100, k at level 200).

(** [for x in l: acc = body(acc, x)], an exception leaving the loop. *)
Fixpoint for_each {A S} (l : list A) (body : S -> A -> result S) (acc : S)
  : result S :=
  match l with
  | [] => Ok acc
  | x :: l' => let* acc' := body acc x in for_each l' body acc'
  end.

(** *** Comparisons: every comparison with NaN is false *)

Definition f_lt (a b : pyfloat) : bool :=
  match a, b with
  | NaN, _ | _, NaN => false
  | Num x, Num y => match (x ?= y)%Q with Lt => true | _ => false end
  | NInf, NInf => false
  | NInf, _ => true
  | _, NInf => false
  | PInf, _ => false
  | Num _, PInf => true
  end.

Definition f_gt (a b : pyfloat) : bool := f_lt b a.

Definition f_ge (a b : pyfloat) : bool :=
  match a, b with
  | NaN, _ | _, NaN => false
  | Num x, Num y => match (x ?= y)%Q with Lt => false | _ => true end
  | PInf, _ => true
  | _, NInf => true
  | NInf, _ => false
  | Num _, PInf => false
  end.

(** *** Arithmetic (IEEE special values, exact on finite ones) *)

Definition f_neg (a : pyfloat) : pyfloat :=
  match a with
  | Num x => Num (- x)
  | PInf => NInf
  | NInf => PInf
  | NaN => NaN
  end.

Definition f_add (a b : pyfloat) : pyfloat :=
  match a, b with
  | NaN, _ | _, NaN => NaN
  | Num x, Num y => Num (x + y)
  | PInf, NInf | NInf, PInf => NaN
  | PInf, _ | _, PInf => PInf
  | NInf, _ | _, NInf => NInf
  end.

Definition f_sub (a b : pyfloat) : pyfloat := f_add a (f_neg b).

Definition f_abs (a : pyfloat) : pyfloat :=
  match a with
  | Num x => Num (Qabs x)
  | PInf | NInf => PInf
  | NaN => NaN
  end.

(** Sign of a finite value or of an infinity. *)
Definition f_sign (a : pyfloat) : comparison :=
  match a with
  | Num x => (x ?= 0)%Q
  | PInf => Gt
  | NInf => Lt
  | NaN => Eq
  end.

Definition inf_of_sign (s : comparison) : pyfloat :=
  match s with
  | Gt => PInf
  | Lt => NInf
  | Eq => NaN
  end.

Definition sign_mul (s t : comparison) : comparison :=
  match s, t with
  | Eq, _ | _, Eq => Eq
  | Gt, c => c
  | Lt, c => CompOpp c
  end.

Definition f_mul (a b : pyfloat) : pyfloat :=
  match a, b with
  | NaN, _ | _, NaN => NaN
  | Num x, Num y => Num (x * y)
  | _, _ => inf_of_sign (sign_mul (f_sign a) (f_sign b))
  end.

(** numpy true division: [x / 0] is an infinity of the sign of [x], and
    [0 / 0] is NaN; nothing is raised. *)
Definition np_div (a b : pyfloat) : pyfloat :=
  match a, b with
  | NaN, _ | _, NaN => NaN
  | Num x, Num y =>
      match (y ?= 0)%Q with
      | Eq => inf_of_sign (x ?= 0)%Q
      | _ => Num (x / y)
      end
  | Num _, _ => Num 0
  | _, Num y =>
      match (y ?= 0)%Q with
      | Lt => f_neg a
      | _ => a
      end
  | _, _ => NaN
  end.

(** [Series.clip(lower, upper)]: NaN stays NaN. *)
Definition clip (a : pyfloat) (lower upper : Q) : pyfloat :=
  if f_lt a (Num lower) then Num lower
  else if f_gt a (Num upper) then Num upper
  else a.

(** Python [x / n] for a float [x] and a length [n]. *)
Definition py_truediv (x : pyfloat) (n : nat) : result pyfloat :=
  match n with
  | O => Raise ZeroDivisionError
  | S _ => Ok (np_div x (Num (inject_Z (Z.of_nat n))))
  end.

(** Builtin [sum(values)]: left to right from 0; a NaN poisons it. *)
Definition py_sum (values : list pyfloat) : pyfloat :=
  fold_left f_add values (Num 0).

(** Builtin [min(values)]: keeps the first item unless a later one compares
    strictly smaller; raises ValueError on an empty list. *)
Definition py_min (values : list pyfloat) : result pyfloat :=
  match values with
  | [] => Raise (ValueError "min() arg is an empty sequence")
  | x :: rest => Ok (fold_left (fun cur item => if f_lt item cur then item else cur) rest x)
  end.

Definition py_max (values : list pyfloat) : result pyfloat :=
  match values with
  | [] => Raise (ValueError "max() arg is an empty sequence")
  | x :: rest => Ok (fold_left (fun cur item => if f_gt item cur then item else cur) rest x)
  end.

(** *** Rounding: [round(x, ndigits)], ties to even *)

Fixpoint pow10 (ndigits : nat) : positive :=
  match ndigits with
  | O => 1%positive
  | S n => (10 * pow10 n)%positive
  end.

(** Nearest integer, a tie going to the even neighbour. *)
Definition rint (q : Q) : Z :=
  let f := Qfloor q in
  match (q - inject_Z f ?= 1 # 2)%Q with
  | Lt => f
  | Gt => f + 1
  | Eq => if Z.even f then f else f + 1
  end.

Definition round_q (q : Q) (ndigits : nat) : Q :=
  rint (q * inject_Z (Zpos (pow10 ndigits))) # pow10 ndigits.

Definition py_round (x : pyfloat) (ndigits : nat) : pyfloat :=
  match x with
  | Num q => Num (round_q q ndigits)
  | _ => x
  end.

(** Truncation toward zero. *)
Definition q_trunc (q : Q) : Z :=
  if Qle_bool 0 q then Qfloor q else Qceiling q.

(** [int(x)]: truncation toward zero; NaN and the infinities raise. *)
Definition py_int (x : pyfloat) : result Z :=
  match x with
  | Num q => Ok (q_trunc q)
  | NaN => Raise (ValueError "cannot convert float NaN to integer")
  | _ => Raise OverflowError
  end.

(** *** Binary64: doubles as the rationals they are

    A double is a rational [m * 2^e] with [|m| < 2^53] and
    [-1074 <= e <= 971]; [b64] rounds a rational to the nearest double, a
    tie going to the even mantissa. *)

Definition pow2 (e : Z) : Q := (2 ^ e)%Q.

(** [floor (log2 q)] for a positive [q]. *)
Definition ilog2 (q : Q) : Z :=
  let k := Z.log2 (Qnum q) - Z.log2 (Zpos (Qden q)) in
  if Qle_bool (pow2 k) q then k else k - 1.

(** The exponent of the unit in the last place; subnormal numbers share the
    least one. *)
Definition ulp_exponent (q : Q) : Z := Z.max (ilog2 (Qabs q) - 52) (-1074).

Definition b64 (q : Q) : Q :=
  if Qeq_bool q 0 then 0%Q
  else let e := ulp_exponent q in
       Qred (inject_Z (rint (q / pow2 e)) * pow2 e).

(** The greatest double. *)
Definition max_float : Q := inject_Z (2 ^ 53 - 1) * pow2 971.

(** The double an exact result is rounded to; it overflows to an
    infinity. *)
Definition fl (q : Q) : pyfloat :=
  let r := b64 q in
  if Qle_bool r max_float then
    if Qle_bool (- max_float) r then Num r else NInf
  else PInf.

Definition round64 (x : pyfloat) : pyfloat :=
  match x with
  | Num q => fl q
  | _ => x
  end.

(** [x * y] and [x / y] on numpy floats. *)
Definition fl_mul (a b : pyfloat) : pyfloat := round64 (f_mul a b).
Definition fl_div (a b : pyfloat) : pyfloat := round64 (np_div a b).

(** [np.rint]: the nearest integer as a float, ties to even. *)
Definition f_rint (x : pyfloat) : pyfloat :=
  match x with
  | Num q => Num (inject_Z (rint q))
  | _ => x
  end.

(** [round(x, ndigits)] for a numpy float [x] and [ndigits >= 0]: numpy
    multiplies by [10**ndigits], takes the nearest integer and divides,
    each step in double arithmetic. *)
Definition np_round (x : pyfloat) (ndigits : nat) : pyfloat :=
  let f := Num (inject_Z (Zpos (pow10 ndigits))) in
  fl_div (f_rint (fl_mul x f)) f.

(** ** Documents and data frames *)

(** A stored document, restricted to the keys the backend reads.  [Failure]
    is the integer flag written by the generator. *)
Record Doc : Type := {
  timestamp : option Z;
  Type_ : option string;
  Failure : option Z;
  Health_score : option Q;
  Uptime : option Q;
  Air_temperature : option Q;
  Process_temperature : option Q;
  Rotational_speed : option Q;
  Torque : option Q;
  Tool_wear : option Q;
  Vibration : option Q
}.

(** The numeric value a document holds under a key, if any. *)
Definition num_field (key : string) (d : Doc) : option Q :=
  if String.eqb key "Health score" then Health_score d
  else if String.eqb key "Uptime" then Uptime d
  else if String.eqb key "Air temperature" then Air_temperature d
  else if String.eqb key "Process temperature" then Process_temperature d
  else if String.eqb key "Rotational speed" then Rotational_speed d
  else if String.eqb key "Torque" then Torque d
  else if String.eqb key "Tool wear" then Tool_wear d
  else if String.eqb key "Vibration" then Vibration d
  else if String.eqb key "Failure" then inject_Z <$> Failure d
  else None.

Definition has_key (key : string) (d : Doc) : bool :=
  if String.eqb key "Type" then bool_decide (is_Some (Type_ d))
  else if String.eqb key "timestamp" then bool_decide (is_Some (timestamp d))
  else bool_decide (is_Some (num_field key d)).

(** [pd.DataFrame(data)]: the columns are the keys of any of the documents;
    filtering rows keeps the columns, so they are recorded apart. *)
Record DataFrame : Type := {
  columns : string -> bool;
  rows : list Doc
}.

Definition pd_DataFrame (data : list Doc) : DataFrame :=
  {| columns := fun key => existsb (has_key key) data; rows := data |}.

(** A cell a document has no value for is NaN. *)
Definition cell (o : option Q) : pyfloat :=
  match o with
  | Some q => Num q
  | None => NaN
  end.

(** The cells of a numeric column, row by row. *)
Definition cells (key : string) (data : list Doc) : list pyfloat :=
  map (fun d => cell (num_field key d)) data.

(** [df[key]] for a numeric column; KeyError when no document has the key. *)
Definition getitem (df : DataFrame) (key : string) : result (list pyfloat) :=
  if columns df key then Ok (cells key (rows df))
  else Raise (KeyError key).

(** [df["Type"]]: an object column, [None] standing for NaN. *)
Definition getitem_Type (df : DataFrame) : result (list (option string)) :=
  if columns df "Type" then Ok (map Type_ (rows df))
  else Raise (KeyError "Type").

Definition notna (x : pyfloat) : bool :=
  match x with
  | NaN => false
  | _ => true
  end.

(** [Series.sum()]: NaN cells are skipped. *)
Definition pd_sum (s : list pyfloat) : pyfloat :=
  fold_left f_add (filter (fun x => notna x = true) s) (Num 0).

(** [Series.mean()]: NaN cells are skipped; NaN when nothing is left. *)
Definition pd_mean (s : list pyfloat) : pyfloat :=
  match filter (fun x => notna x = true) s with
  | [] => NaN
  | present => np_div (fold_left f_add present (Num 0))
                      (Num (inject_Z (Z.of_nat (length present))))
  end.

(** [Series.value_counts().to_dict()]: occurrences of each value, NaN cells
    dropped. *)
Definition value_counts (s : list (option string)) : gmap string Z :=
  foldr (fun c m =>
           match c with
           | Some v => <[v := 1 + default 0 (m !! v)]> m
           | None => m
           end) ∅ s.

(** [==] on object cells: NaN equals nothing, itself included. *)
Definition cell_eqb (c v : option string) : bool :=
  match c, v with
  | Some a, Some b => String.eqb a b
  | _, _ => false
  end.

(** Sameness of values as [unique()] sees it: all NaN are one value. *)
Definition same_value (c v : option string) : bool :=
  match c, v with
  | Some a, Some b => String.eqb a b
  | None, None => true
  | _, _ => false
  end.

(** [Series.unique()]: the distinct values in order of first appearance. *)
Fixpoint unique (s : list (option string)) : list (option string) :=
  match s with
  | [] => []
  | c :: s' => c :: filter (fun v => same_value c v = false) (unique s')
  end.

(** [df[df["Type"] == product_type]] *)
Definition select_type (df : DataFrame) (product_type : option string) : DataFrame :=
  {| columns := columns df;
     rows := filter (fun d => cell_eqb (Type_ d) product_type = true) (rows df) |}.

(** [df[key].mean()] *)
Definition col_mean (df : DataFrame) (key : string) : result pyfloat :=
  let* col := getitem df key in Ok (pd_mean col).

(** [Series.mean()] as a double: the mean rounded once.  For a column of
    small integers, such as the failure flags, every partial sum is exact
    in double arithmetic whatever the order of the additions, and this is
    the double pandas returns.  For other columns the double pandas returns
    differs from it by the rounding errors of the additions. *)
Definition pd_mean64 (s : list pyfloat) : pyfloat := round64 (pd_mean s).

Definition col_mean64 (df : DataFrame) (key : string) : result pyfloat :=
  let* col := getitem df key in Ok (pd_mean64 col).

(** ** The document store *)

(** A database maps the names of its collections to their documents, in
    natural order.  A collection may exist and hold no document. *)
Abbreviation Database := (gmap string (list Doc)).

(** Order of the sort key: a missing timestamp sorts below every value. *)
Definition ts_le (a b : option Z) : bool :=
  match a, b with
  | None, _ => true
  | Some _, None => false
  | Some x, Some y => x <=? y
  end.

Fixpoint insert_desc (d : Doc) (l : list Doc) : list Doc :=
  match l with
  | [] => [d]
  | x :: l' =>
      if ts_le (timestamp x) (timestamp d) then d :: l
      else x :: insert_desc d l'
  end.

(** [.sort("timestamp", -1)] *)
Definition sort_desc (l : list Doc) : list Doc := foldr insert_desc [] l.

(** [list(collection.find().sort("timestamp", -1).limit(n))] *)
Definition find_recent (collection : list Doc) (n : nat) : list Doc :=
  take n (sort_desc collection).

(** [f"lathe_m{i}"] and [f"Lathe M{i}"] *)
Definition collection_name (i : Z) : string := "lathe_m" +:+ pretty i.
Definition display_name (i : Z) : string := "Lathe M" +:+ pretty i.

(** ** fastapi_backend.py *)

Module LatheSummary.
Record t : Type := {
  lathe_id : Z;
  name : string;
  health_score : pyfloat;
  uptime : pyfloat;
  status : string
}.
End LatheSummary.

Module LatheDetails.
Record t : Type := {
  lathe_id : Z;
  name : string;
  health_score : pyfloat;
  uptime : pyfloat;
  status : string;
  air_temperature : pyfloat;
  process_temperature : pyfloat;
  rotational_speed : pyfloat;
  torque : pyfloat;
  tool_wear : pyfloat;
  vibration : option pyfloat;
  failure_count : Z;
  product_types : gmap string Z
}.
End LatheDetails.

(** The status chain shared by [get_all_lathes] (lines 82-87) and
    [get_lathe_details] (lines 123-128). *)
Definition status_of (avg_health : pyfloat) : string :=
  if f_ge avg_health (Num 80) then "Operational"
  else if f_ge avg_health (Num 60) then "Warning"
  else "Failure".

(** [df["Uptime"].mean() if "Uptime" in df.columns else 0] *)
Definition avg_uptime_of (df : DataFrame) : result pyfloat :=
  if columns df "Uptime" then col_mean df "Uptime" else Ok (Num 0).

(** [df["Type"].value_counts().to_dict() if "Type" in df.columns else {}] *)
Definition product_types_of (df : DataFrame) : result (gmap string Z) :=
  if columns df "Type" then
    let* types := getitem_Type df in Ok (value_counts types)
  else Ok ∅.

(** [df["Failure"].sum() if "Failure" in df.columns else 0] *)
Definition failure_count_of (df : DataFrame) : result pyfloat :=
  if columns df "Failure" then
    let* f := getitem df "Failure" in Ok (pd_sum f)
  else Ok (Num 0).

(** [round(df["Vibration"].mean(), 1) if "Vibration" in df.columns else None] *)
Definition vibration_of (df : DataFrame) : result (option pyfloat) :=
  if columns df "Vibration" then
    let* v := col_mean df "Vibration" in Ok (Some (py_round v 1))
  else Ok None.

(** Lines 75-96: the summary of one machine from its non-empty window. *)
Definition summarize (i : Z) (data : list Doc) : result LatheSummary.t :=
  let df := pd_DataFrame data in
  let* avg_health := col_mean df "Health score" in
  let* avg_uptime := avg_uptime_of df in
  let status := status_of avg_health in
  Ok {| LatheSummary.lathe_id := i;
        LatheSummary.name := display_name i;
        LatheSummary.health_score := py_round avg_health 1;
        LatheSummary.uptime := py_round avg_uptime 1;
        LatheSummary.status := status |}.

(** Lines 68-97: one turn of the loop over the candidate machines. *)
Definition lathes_step (db : Database) (lathes : list LatheSummary.t) (i : Z)
  : result (list LatheSummary.t) :=
  match db !! collection_name i with
  | Some collection =>
      let data := find_recent collection 50 in
      match data with
      | [] => Ok lathes
      | _ :: _ => let* s := summarize i data in Ok (lathes ++ [s])
      end
  | None => Ok lathes
  end.

(** [range(1, 5)] *)
Definition lathe_range : list Z := [1; 2; 3; 4].

Definition get_all_lathes (db : Database) : result (list LatheSummary.t) :=
  for_each lathe_range (lathes_step db) [].

(** Lines 116-150: the details of one machine from its non-empty window.
    The keyword arguments are evaluated in the order written. *)
Definition details (lathe_id : Z) (data : list Doc) : result LatheDetails.t :=
  let df := pd_DataFrame data in
  let* avg_health := col_mean df "Health score" in
  let* avg_uptime := avg_uptime_of df in
  let status := status_of avg_health in
  let* product_types := product_types_of df in
  let* failure_count := failure_count_of df in
  let* air := col_mean df "Air temperature" in
  let* proc := col_mean df "Process temperature" in
  let* speed := col_mean df "Rotational speed" in
  let* torque := col_mean df "Torque" in
  let* wear := col_mean df "Tool wear" in
  let* vibration := vibration_of df in
  let* failures := py_int failure_count in
  Ok {| LatheDetails.lathe_id := lathe_id;
        LatheDetails.name := display_name lathe_id;
        LatheDetails.health_score := py_round avg_health 1;
        LatheDetails.uptime := py_round avg_uptime 1;
        LatheDetails.status := status;
        LatheDetails.air_temperature := py_round air 1;
        LatheDetails.process_temperature := py_round proc 1;
        LatheDetails.rotational_speed := py_round speed 1;
        LatheDetails.torque := py_round torque 1;
        LatheDetails.tool_wear := py_round wear 1;
        LatheDetails.vibration := vibration;
        LatheDetails.failure_count := failures;
        LatheDetails.product_types := product_types |}.

Definition get_lathe_details (db : Database) (lathe_id : Z)
  : result LatheDetails.t :=
  match db !! collection_name lathe_id with
  | None => Raise (HTTPException 404 (display_name lathe_id +:+ " not found"))
  | Some collection =>
      let data := find_recent collection 100 in
      match data with
      | [] => Raise (HTTPException 404 ("No data found for " +:+ display_name lathe_id))
      | _ :: _ => details lathe_id data
      end
  end.

Module Stats.
Record t : Type := {
  min : pyfloat;
  max : pyfloat;
  avg : pyfloat
}.
End Stats.

Module SensorData.
Record t : Type := {
  lathe_id : Z;
  name : string;
  sensor_data : gmap string (list pyfloat);
  stats : gmap string Stats.t
}.
End SensorData.

(** The body of the loop of lines 183-188 for one key. *)
Definition stats_of (values : list pyfloat) : result Stats.t :=
  let* lo := py_min values in
  let* hi := py_max values in
  let* mean := py_truediv (py_sum values) (length values) in
  Ok {| Stats.min := py_round lo 2;
        Stats.max := py_round hi 2;
        Stats.avg := py_round mean 2 |}.

(** Lines 167-195.  [sensor_data] is iterated, so its items are kept in
    insertion order; the dicts that are only written are finite maps. *)
Definition sensor (lathe_id : Z) (data : list Doc) : result SensorData.t :=
  let df := pd_DataFrame data in
  let* air := getitem df "Air temperature" in
  let* proc := getitem df "Process temperature" in
  let* speed := getitem df "Rotational speed" in
  let* torque := getitem df "Torque" in
  let* wear := getitem df "Tool wear" in
  let sensor_data :=
    [("air_temperature", air); ("process_temperature", proc);
     ("rotational_speed", speed); ("torque", torque); ("tool_wear", wear)] in
  let* sensor_data :=
    (if columns df "Vibration" then
       let* v := getitem df "Vibration" in Ok (sensor_data ++ [("vibration", v)])
     else Ok sensor_data) in
  let* stats :=
    for_each sensor_data
      (fun (stats : gmap string Stats.t) (item : string * list pyfloat) =>
         let* st := stats_of item.2 in Ok (<[item.1 := st]> stats))
      ∅ in
  Ok {| SensorData.lathe_id := lathe_id;
        SensorData.name := display_name lathe_id;
        SensorData.sensor_data := list_to_map sensor_data;
        SensorData.stats := stats |}.

Definition get_lathe_sensor_data (db : Database) (lathe_id : Z)
  : result SensorData.t :=
  match db !! collection_name lathe_id with
  | None => Raise (HTTPException 404 (display_name lathe_id +:+ " not found"))
  | Some collection =>
      let data := find_recent collection 100 in
      match data with
      | [] => Raise (HTTPException 404 ("No data found for " +:+ display_name lathe_id))
      | _ :: _ => sensor lathe_id data
      end
  end.

Module Quality.
Record t : Type := {
  count : nat;
  failure_rate : pyfloat;
  avg_health_score : pyfloat
}.
End Quality.

Module Params.
Record t : Type := {
  air_temperature : pyfloat;
  process_temperature : pyfloat;
  rotational_speed : pyfloat;
  torque : pyfloat;
  tool_wear : pyfloat
}.
End Params.

(** The keys of the per-type dicts are the values of [unique()], so NaN
    ([None]) can be one of them. *)
Module ProductAnalysis.
Record t : Type := {
  lathe_id : Z;
  name : string;
  product_types : gmap string Z;
  product_quality : gmap (option string) Quality.t;
  params_by_type : gmap (option string) Params.t
}.
End ProductAnalysis.

(** Lines 220-227: the entry of one product type, in double arithmetic.
    The means are numpy floats, so [round] is numpy's. *)
Definition quality_of (df : DataFrame) (product_type : option string)
  : result Quality.t :=
  let type_df := select_type df product_type in
  let* failure_mean := col_mean64 type_df "Failure" in
  let failure_rate := fl_mul failure_mean (Num 100) in
  let* avg_health :=
    (if columns df "Health score" then
       let* h := col_mean64 type_df "Health score" in Ok (np_round h 2)
     else Ok (Num 0)) in
  Ok {| Quality.count := length (rows type_df);
        Quality.failure_rate := np_round failure_rate 2;
        Quality.avg_health_score := avg_health |}.

(** Lines 232-240: the entry of one product type. *)
Definition params_of (df : DataFrame) (product_type : option string)
  : result Params.t :=
  let type_df := select_type df product_type in
  let* air := col_mean64 type_df "Air temperature" in
  let* proc := col_mean64 type_df "Process temperature" in
  let* speed := col_mean64 type_df "Rotational speed" in
  let* torque := col_mean64 type_df "Torque" in
  let* wear := col_mean64 type_df "Tool wear" in
  Ok {| Params.air_temperature := np_round air 2;
        Params.process_temperature := np_round proc 2;
        Params.rotational_speed := np_round speed 2;
        Params.torque := np_round torque 2;
        Params.tool_wear := np_round wear 2 |}.

(** [for product_type in df["Type"].unique(): d[product_type] = entry] *)
Definition by_type {V} (df : DataFrame)
    (entry : DataFrame -> option string -> result V)
  : result (gmap (option string) V) :=
  let* types := getitem_Type df in
  for_each (unique types)
    (fun d product_type =>
       let* e := entry df product_type in Ok (<[product_type := e]> d))
    ∅.

(** Lines 212-248. *)
Definition product_analysis (lathe_id : Z) (data : list Doc)
  : result ProductAnalysis.t :=
  let df := pd_DataFrame data in
  let* product_types := product_types_of df in
  let* product_quality :=
    (if columns df "Type" && columns df "Failure" then by_type df quality_of
     else Ok ∅) in
  let* params_by_type :=
    (if columns df "Type" then by_type df params_of else Ok ∅) in
  Ok {| ProductAnalysis.lathe_id := lathe_id;
        ProductAnalysis.name := display_name lathe_id;
        ProductAnalysis.product_types := product_types;
        ProductAnalysis.product_quality := product_quality;
        ProductAnalysis.params_by_type := params_by_type |}.

Definition get_lathe_product_analysis (db : Database) (lathe_id : Z)
  : result ProductAnalysis.t :=
  match db !! collection_name lathe_id with
  | None => Raise (HTTPException 404 (display_name lathe_id +:+ " not found"))
  | Some collection =>
      match collection with
      | [] => Raise (HTTPException 404 ("No data found for " +:+ display_name lathe_id))
      | _ :: _ => product_analysis lathe_id collection
      end
  end.

(** ** mongodb_data_generator.py: the health score of [enrich] *)

Module Generator.

(** A row of the base data set: the feature columns the score reads. *)
Record Reading : Type := {
  Air_temperature : Q;
  Rotational_speed : Q;
  Torque : Q;
  Tool_wear : Q
}.

Record Nominal : Type := {
  speed : pyfloat;
  torque : pyfloat;
  wear_max : pyfloat;
  temp_shift : pyfloat
}.

Record Weights : Type := {
  temp : Q;
  w_speed : Q;
  w_torque : Q;
  wear : Q
}.

(** [{'temp': 0.2, 'speed': 0.25, 'torque': 0.25, 'wear': 0.3}] *)
Definition weights : Weights :=
  {| temp := 2 # 10; w_speed := 25 # 100; w_torque := 25 # 100; wear := 3 # 10 |}.

(** [Series.max()]: NaN cells are skipped. *)
Definition pd_max (s : list pyfloat) : pyfloat :=
  match filter (fun x => notna x = true) s with
  | [] => NaN
  | x :: rest => fold_left (fun cur item => if f_gt item cur then item else cur) rest x
  end.

(** Lines 46-51: the nominal values are taken from the base data set. *)
Definition nominal_of (df_base : list Reading) : Nominal :=
  {| speed := pd_mean (map (fun d => Num (Rotational_speed d)) df_base);
     torque := pd_mean (map (fun d => Num (Torque d)) df_base);
     wear_max := pd_max (map (fun d => Num (Tool_wear d)) df_base);
     temp_shift := Num 10 |}.

(** Lines 80-83, for one row. *)
Definition h_temp (nominal : Nominal) (d : Reading) : pyfloat :=
  f_sub (Num 1)
    (clip (np_div (f_abs (f_sub (Num (Air_temperature d)) (Num 300)))
                  (temp_shift nominal)) 0 1).

Definition h_speed (nominal : Nominal) (d : Reading) : pyfloat :=
  clip (np_div (Num (Rotational_speed d)) (speed nominal)) 0 1.

Definition h_torque (nominal : Nominal) (d : Reading) : pyfloat :=
  clip (np_div (Num (Torque d)) (torque nominal)) 0 1.

Definition h_wear (nominal : Nominal) (d : Reading) : pyfloat :=
  clip (f_sub (Num 1) (np_div (Num (Tool_wear d)) (wear_max nominal))) 0 1.

(** Lines 84-89, for one row. *)
Definition health_score (nominal : Nominal) (d : Reading) : pyfloat :=
  f_mul (Num 100)
    (f_add
       (f_add
          (f_add (f_mul (Num (temp weights)) (h_temp nominal d))
                 (f_mul (Num (w_speed weights)) (h_speed nominal d)))
          (f_mul (Num (w_torque weights)) (h_torque nominal d)))
       (f_mul (Num (wear weights)) (h_wear nominal d))).

(** The column [d['Health score']] that [enrich] adds. *)
Definition enrich_health (nominal : Nominal) (df : list Reading) : list pyfloat :=
  map (health_score nominal) df.

(** *** The score as the specification words it *)

Definition clip01 (q : Q) : Q :=
  if Qle_bool q 0 then 0%Q else if Qle_bool 1 q then 1%Q else q.

(** Temperature sub-score: one minus the deviation from 300, relative to
    the shift of 10 and clipped. *)
Definition sub_temp (d : Reading) : Q :=
  (1 - clip01 (Qabs (Air_temperature d - 300) / 10))%Q.

(** Ratio of the rotational speed to its nominal value, clipped. *)
Definition sub_speed (nominal_speed : Q) (d : Reading) : Q :=
  clip01 (Rotational_speed d / nominal_speed)%Q.

(** Ratio of the torque to its nominal value, clipped. *)
Definition sub_torque (nominal_torque : Q) (d : Reading) : Q :=
  clip01 (Torque d / nominal_torque)%Q.

(** Inverse tool-wear ratio, clipped. *)
Definition sub_wear (nominal_wear_max : Q) (d : Reading) : Q :=
  clip01 (1 - Tool_wear d / nominal_wear_max)%Q.

End Generator.

(** ** Vocabulary of the statements *)

(** The window an endpoint works on: the [n] most recent documents of the
    machine, nothing when it has no collection. *)
Definition window (db : Database) (lathe_id : Z) (n : nat) : list Doc :=
  match db !! collection_name lathe_id with
  | Some collection => find_recent collection n
  | None => []
  end.

(** The values the documents hold under a key, documents without it left out. *)
Definition values (key : string) (data : list Doc) : list Q :=
  omap (num_field key) data.

Definition q_sum (qs : list Q) : Q := fold_left Qplus qs 0%Q.

(** Arithmetic mean of a non-empty list. *)
Definition q_mean (qs : list Q) : Q :=
  (q_sum qs / inject_Z (Z.of_nat (length qs)))%Q.


(** The key is absent from every document. *)
Definition absent (key : string) (data : list Doc) : Prop :=
  Forall (fun d => has_key key d = false) data.

(** The documents of a product type. *)
Definition group (t : string) (data : list Doc) : list Doc :=
  filter (fun d => Type_ d = Some t) data.

(** The number of documents whose failure flag is set. *)
Definition failed_count (data : list Doc) : nat :=
  length (filter (fun d => Failure d = Some 1) data).

(** A document with every key of the specification's record: a product
    type, a failure flag that is 0 or 1, a health score and the five
    channels. *)
Definition complete (d : Doc) : Prop :=
  is_Some (Type_ d) /\
  (Failure d = Some 0 \/ Failure d = Some 1) /\
  is_Some (Health_score d) /\
  is_Some (Air_temperature d) /\
  is_Some (Process_temperature d) /\
  is_Some (Rotational_speed d) /\
  is_Some (Torque d) /\
  is_Some (Tool_wear d).

(** The keys [get_lathe_details] and [get_lathe_sensor_data] read without
    asking whether the column exists. *)
Definition channels : list string :=
  ["Air temperature"; "Process temperature"; "Rotational speed"; "Torque";
   "Tool wear"].

(** Least and greatest value of a non-empty list of rationals, scanned the
    way the builtins scan. *)
Definition q_min (x : Q) (rest : list Q) : Q :=
  fold_left (fun cur item => match (item ?= cur)%Q with Lt => item | _ => cur end)
            rest x.

Definition q_max (x : Q) (rest : list Q) : Q :=
  fold_left (fun cur item => match (cur ?= item)%Q with Lt => item | _ => cur end)
            rest x.

(** The keys a complete document holds a number under. *)
Definition numeric_keys : list string :=
  "Failure" :: "Health score" :: channels.

(** Some document of the window carries the key, for each of the keys. *)
Definition has_columns (keys : list string) (data : list Doc) : Prop :=
  Forall (fun key => columns (pd_DataFrame data) key = true) keys.

(** Every document of the summary windows carries a health score. *)
Definition scored (db : Database) : Prop :=
  Forall (fun i => Forall (fun d => is_Some (Health_score d)) (window db i 50))
         lathe_range.

Definition nonempty {A} (l : list A) : bool :=
  match l with
  | [] => false
  | _ :: _ => true
  end.

(** The summaries added by the loop: one per machine with a non-empty
    window, each the summary of that window. *)
Definition summaries_of (db : Database) (ids : list Z)
    (new : list LatheSummary.t) : Prop :=
  map LatheSummary.lathe_id new
  = filter (fun j => nonempty (window db j 50) = true) ids /\
  Forall (fun s => summarize (LatheSummary.lathe_id s)
                             (window db (LatheSummary.lathe_id s) 50) = Ok s)
         new.

(** The margin the statements about a reported mean leave around the exact
    mean: room for the rounding errors of the double arithmetic of pandas
    and numpy.  With at most 100000 values of magnitude at most 10000 those
    errors stay below it in whatever order the values are added. *)
Definition slack : Q := 1 # 1000000.



(** [x] is [m] to two decimals: the double nearest to a number of two
    decimals, [k/100], and within 0.005, and the margin, of [m]. *)
Definition two_decimals_near (x : pyfloat) (m : Q) : Prop :=
  exists k : Z,
    x = Num (b64 (inject_Z k / 100)) /\
    (Qabs (b64 (inject_Z k / 100) - m) <= (1 # 200) + slack)%Q.

(** Readings as the machines give them: a health score in [0,100] and
    channel values of magnitude at most 10000. *)
Definition plausible (d : Doc) : Prop :=
  (forall h, Health_score d = Some h -> (0 <= h)%Q /\ (h <= 100)%Q) /\
  (forall key q, In key channels -> num_field key d = Some q ->
                 (Qabs q <= 10000)%Q).

(** A database in which machine 1 has a collection that holds nothing. *)
Definition db_empty_collection : Database := {[ "lathe_m1" := [] ]}.

(** Sample documents: every key but those given is present with a fixed
    value. *)
Definition sample (ts : Z) (type : string) (failure : Z) (health : Q)
    (uptime vibration : option Q) : Doc :=
  {| timestamp := Some ts;
     Type_ := Some type;
     Failure := Some failure;
     Health_score := Some health;
     Uptime := uptime;
     Air_temperature := Some (3001 # 10);
     Process_temperature := Some (3102 # 10);
     Rotational_speed := Some 1500%Q;
     Torque := Some 40%Q;
     Tool_wear := Some 100%Q;
     Vibration := vibration |}.

(** A window of one document without vibration and without uptime. *)
Definition window_bare : list Doc := [sample 1 "L" 0 90 None None].

(** A window whose health scores 79.92 and 80 have the mean 79.96. *)
Definition window_7996 : list Doc :=
  [sample 2 "L" 0 (7992 # 100) (Some 95%Q) (Some 12%Q);
   sample 1 "M" 0 80 (Some 85%Q) (Some 14%Q)].

(** Nominal values and a row for the generator. *)
Definition sample_reading : Generator.Reading :=
  {| Generator.Air_temperature := 303;
     Generator.Rotational_speed := 1400;
     Generator.Torque := 50;
     Generator.Tool_wear := 100 |}.

(** A history of two complete documents. *)
Definition history_m2 : list Doc :=
  [sample 1 "L" 0 90 (Some 95%Q) (Some 12%Q);
   sample 2 "M" 1 70 (Some 85%Q) (Some 14%Q)].

(** Machine 2 has two documents, machine 3 an empty collection, the other
    machines none. *)
Definition db_fleet : Database :=
  {[ "lathe_m2" := history_m2; "lathe_m3" := [] ]}.

(** A window in which only the older document has a vibration value, and
    the same two documents the other way round. *)
Definition window_partial : list Doc :=
  [sample 2 "L" 0 90 (Some 95%Q) None;
   sample 1 "M" 0 70 (Some 85%Q) (Some 12%Q)].

Definition window_partial_swapped : list Doc :=
  [sample 1 "M" 0 70 (Some 85%Q) (Some 12%Q);
   sample 2 "L" 0 90 (Some 95%Q) None].

(** A collection holding these two documents, the older one first. *)
Definition db_partial : Database := {[ "lathe_m1" := window_partial_swapped ]}.

(** A collection whose only document has no health score. *)
Definition db_unscored : Database :=
  {[ "lathe_m1" :=
       [{| timestamp := Some 1; Type_ := Some "L"; Failure := Some 0;
           Health_score := None; Uptime := Some 90%Q;
           Air_temperature := Some 300%Q; Process_temperature := Some 310%Q;
           Rotational_speed := Some 1500%Q; Torque := Some 40%Q;
           Tool_wear := Some 100%Q; Vibration := None |}] ]}.

(** A history of 160 complete documents of one product type, 23 of them
    failed: the exact failure rate 14.375 is a tie of the third decimal. *)
Definition history_160 : list Doc :=
  replicate 23 (sample 1 "L" 1 50 (Some 80%Q) None)
  ++ replicate 137 (sample 2 "L" 0 90 (Some 95%Q) None).

Definition db_160 : Database := {[ "lathe_m1" := history_160 ]}.

(** ** Vocabulary of the further properties *)

(** The keys of the sensor response and the columns they are read from;
    "vibration" only when the window has the column. *)
Definition sensor_items (data : list Doc) : list (string * string) :=
  [("air_temperature", "Air temperature");
   ("process_temperature", "Process temperature");
   ("rotational_speed", "Rotational speed");
   ("torque", "Torque");
   ("tool_wear", "Tool wear")]
  ++ (if columns (pd_DataFrame data) "Vibration"
      then [("vibration", "Vibration")] else []).

(** [x] is at least as recent as [y]. *)
Definition at_least_as_recent (x y : Doc) : Prop :=
  ts_le (timestamp y) (timestamp x) = true.

(** The failure flag of a document, when it has one, is 0 or 1. *)
Definition flag01 (d : Doc) : Prop :=
  Failure d = None \/ Failure d = Some 0 \/ Failure d = Some 1.

(** The keys of [Doc]. *)
Definition doc_keys : list string :=
  ["timestamp"; "Type"; "Failure"; "Health score"; "Uptime";
   "Air temperature"; "Process temperature"; "Rotational speed"; "Torque";
   "Tool wear"; "Vibration"].

(** The documents are the records of a data frame: every key is held by
    all of them or by none. *)
Definition frame_records (rows : list Doc) : Prop :=
  Forall (fun key => absent key rows \/
                     Forall (fun d => has_key key d = true) rows) doc_keys.

(** ** mongodb_data_generator.py: the other columns of [enrich], the
    timestamps and the upload

    The random draws of the generator are arguments of the model. *)

Module GeneratorData.

(** [Series.min()]: NaN cells are skipped. *)
Definition pd_min (s : list pyfloat) : pyfloat :=
  match filter (fun x => notna x = true) s with
  | [] => NaN
  | x :: rest => fold_left (fun cur item => if f_lt item cur then item else cur) rest x
  end.

(** Line 78, for one row, [noise] being the normal draw of the row. *)
Definition vib_raw (d : Generator.Reading) (noise : Q) : Q :=
  ((6 # 10) * Generator.Torque d + (4 # 10) * Generator.Tool_wear d + noise)%Q.

(** Line 79: the raw values scaled by their range. *)
Definition scale_vibration (raw : list Q) : list pyfloat :=
  let lo := pd_min (map Num raw) in
  let hi := Generator.pd_max (map Num raw) in
  map (fun v => np_div (f_mul (Num 100) (f_sub (Num v) lo)) (f_sub hi lo)) raw.

(** Lines 78-79: the column [d['Vibration']]. *)
Definition vibration (df : list Generator.Reading) (noise : list Q)
  : list pyfloat :=
  scale_vibration (zip_with vib_raw df noise).

(** Line 92, for one row, [u] being the uniform draw of the row. *)
Definition uptime (failure : Z) (u : Q) : Q :=
  (100 - 10 * inject_Z failure - u * (inject_Z failure * (8 # 10) + (2 # 10)))%Q.

(** [timedelta(hours=1)], a time being counted in microseconds. *)
Definition hour : Z := 3600000000.

Definition set_timestamp (t : Z) (d : Doc) : Doc :=
  {| timestamp := Some t;
     Type_ := Type_ d;
     Failure := Failure d;
     Health_score := Health_score d;
     Uptime := Uptime d;
     Air_temperature := Air_temperature d;
     Process_temperature := Process_temperature d;
     Rotational_speed := Rotational_speed d;
     Torque := Torque d;
     Tool_wear := Tool_wear d;
     Vibration := Vibration d |}.

(** Lines 166-168: row [i] gets [now - timedelta(hours=i)]. *)
Fixpoint stamp_from (now : Z) (i : Z) (rows : list Doc) : list Doc :=
  match rows with
  | [] => []
  | d :: rows' => set_timestamp (now - i * hour) d :: stamp_from now (i + 1) rows'
  end.

Definition add_timestamps (now : Z) (rows : list Doc) : list Doc :=
  stamp_from now 0 rows.

(** Lines 119-124. *)
Definition lathe_ids : list (string * Z) :=
  [("very_good", 1); ("good", 3); ("ok", 2); ("very_bad", 4)].

(** [d[key]] on a dict of machine ids; [None] is KeyError. *)
Fixpoint dict_get (d : list (string * Z)) (key : string) : option Z :=
  match d with
  | [] => None
  | (k, v) :: d' => if String.eqb k key then Some v else dict_get d' key
  end.

Inductive upload_exn : Type :=
  | UploadKeyError (key : string)
  | UploadTypeError (msg : string).

(** Lines 186-198: one turn of the loop.  The collection is dropped before
    the insertion, and [insert_many] refuses an empty list of documents.
    A data set is given by the records of its frame, [df.to_dict("records")]:
    pandas gives every row every column, so these documents all hold the
    same keys ([frame_records]).  A frame with a missing cell would write
    NaN under that key, which [Doc] does not hold: such frames are outside
    the model. *)
Definition upload_step (lathe_ids : list (string * Z)) (db : Database)
    (item : string * list Doc) : Database * option upload_exn :=
  match dict_get lathe_ids item.1 with
  | None => (db, Some (UploadKeyError item.1))
  | Some lathe_id =>
      let dropped := delete (collection_name lathe_id) db in
      match item.2 with
      | [] => (dropped, Some (UploadTypeError "documents must be a non-empty list"))
      | _ :: _ => (<[collection_name lathe_id := item.2]> dropped, None)
      end
  end.

(** Lines 185-200, the connection being established: the database after
    the loop, and the exception that ended it, if any. *)
Fixpoint upload_to_mongodb (datasets : list (string * list Doc))
    (lathe_ids : list (string * Z)) (db : Database)
  : Database * option upload_exn :=
  match datasets with
  | [] => (db, None)
  | item :: datasets' =>
      match upload_step lathe_ids db item with
      | (db', None) => upload_to_mongodb datasets' lathe_ids db'
      | (db', Some e) => (db', Some e)
      end
  end.

End GeneratorData.

(** Two rows of base data, and the four data sets of a fleet. *)
Definition sample_base : list Generator.Reading :=
  [sample_reading;
   {| Generator.Air_temperature := 298;
      Generator.Rotational_speed := 1600;
      Generator.Torque := 35;
      Generator.Tool_wear := 20 |}].

Definition sample_datasets : list (string * list Doc) :=
  [("very_good", history_m2); ("good", window_7996);
   ("ok", window_bare);
   ("very_bad", [sample 1 "H" 1 40 (Some 70%Q) (Some 30%Q)])].

(** ** streamlit_frontend.py: the pure parts of the dashboard *)

Module Frontend.

(** Lines 118-124. *)
Definition render_status_badge (status : string) : string :=
  if String.eqb status "Operational" then
    "<span class='status-operational'>● " +:+ status +:+ "</span>"
  else if String.eqb status "Warning" then
    "<span class='status-warning'>● " +:+ status +:+ "</span>"
  else
    "<span class='status-failure'>● " +:+ status +:+ "</span>".

(** [str.lower()] on ASCII text, which the statuses of the backend are. *)
Definition lower_char (c : Ascii.ascii) : Ascii.ascii :=
  let n := Ascii.nat_of_ascii c in
  if (65 <=? n)%nat && (n <=? 90)%nat then Ascii.ascii_of_nat (n + 32) else c.

Fixpoint lower (s : string) : string :=
  match s with
  | EmptyString => EmptyString
  | String c s' => String (lower_char c) (lower s')
  end.

(** Lines 137 and 172: the class of a machine card. *)
Definition status_class (status : string) : string := lower status.

(** The status classes the style sheet defines (lines 53-61, 72-80). *)
Definition css_classes : list string := ["operational"; "warning"; "failure"].

(** Lines 423-431 and 437-444: a statistic of the radar chart. *)
Definition normalized (min_val max_val avg_val : Q) : Q :=
  if negb (Qeq_bool max_val min_val)
  then ((avg_val - min_val) / (max_val - min_val))%Q
  else (1 # 2)%Q.

(** Line 166: the number of columns of the dashboard. *)
Definition grid_columns (n : nat) : nat :=
  if (n <=? 4)%nat then n else 4%nat.

End Frontend.

(** ** Properties *)

Lemma f_ge_Num (h c : Q) : f_ge (Num h) (Num c) = true <-> (c <= h)%Q.
Proof.
  unfold f_ge. rewrite Qle_alt, <- (Qcompare_antisym h c).
  destruct (h ?= c)%Q; simpl; split; intros H; try congruence; try discriminate.
Qed.

Lemma f_ge_Num_false (h c : Q) : f_ge (Num h) (Num c) = false <-> (h < c)%Q.
Proof.
  rewrite Qlt_alt. unfold f_ge.
  destruct (h ?= c)%Q; split; intros H; congruence.
Qed.

(** *** Rounding respects the value of a fraction *)

Lemma rint_comp (x y : Q) : (x == y)%Q -> rint x = rint y.
Proof.
  intros E. unfold rint. rewrite (Qfloor_comp x y E).
  assert (Ec : (x - inject_Z (Qfloor y) ?= 1 # 2)%Q
               = (y - inject_Z (Qfloor y) ?= 1 # 2)%Q).
  { apply Qcompare_comp; [rewrite E |]; reflexivity. }
  rewrite Ec. reflexivity.
Qed.

(** *** Rounding to decimals *)

Lemma Qfloor_bounds (x : Q) :
  (inject_Z (Qfloor x) <= x)%Q /\ (x < inject_Z (Qfloor x) + 1)%Q.
Proof.
  split; [apply Qfloor_le |].
  pose proof (Qlt_floor x) as H. rewrite inject_Z_plus in H. exact H.
Qed.

(** The nearest integer is within one half. *)
Lemma rint_near (x : Q) :
  (inject_Z (rint x) - (1 # 2) <= x)%Q /\ (x <= inject_Z (rint x) + (1 # 2))%Q.
Proof.
  destruct (Qfloor_bounds x) as [Hl Hu]. unfold rint.
  destruct (x - inject_Z (Qfloor x) ?= 1 # 2)%Q eqn:E.
  - apply Qeq_alt in E.
    destruct (Z.even (Qfloor x));
      [| rewrite inject_Z_plus; change (inject_Z 1) with 1%Q]; split; lra.
  - apply Qlt_alt in E. split; lra.
  - apply Qgt_alt in E. rewrite inject_Z_plus.
    change (inject_Z 1) with 1%Q. split; lra.
Qed.

Lemma rint_mono (x y : Q) : (x <= y)%Q -> rint x <= rint y.
Proof.
  intros Hxy.
  pose proof (Qfloor_resp_le x y Hxy) as Hf.
  destruct (Qfloor_bounds x) as [Hxl Hxu], (Qfloor_bounds y) as [Hyl Hyu].
  unfold rint.
  destruct (Z.eq_dec (Qfloor x) (Qfloor y)) as [Ef | Nf].
  - rewrite Ef in *.
    destruct (x - inject_Z (Qfloor y) ?= 1 # 2)%Q eqn:Ex;
      destruct (y - inject_Z (Qfloor y) ?= 1 # 2)%Q eqn:Ey;
      first [apply Qeq_alt in Ex | apply Qlt_alt in Ex | apply Qgt_alt in Ex];
      first [apply Qeq_alt in Ey | apply Qlt_alt in Ey | apply Qgt_alt in Ey];
      try (exfalso; lra);
      destruct (Z.even (Qfloor y)); lia.
  - assert (Hlt : Qfloor x + 1 <= Qfloor y) by lia.
    destruct (x - inject_Z (Qfloor x) ?= 1 # 2)%Q;
      destruct (y - inject_Z (Qfloor y) ?= 1 # 2)%Q;
      try destruct (Z.even (Qfloor x)); try destruct (Z.even (Qfloor y)); lia.
Qed.

Lemma pow10_inject (ndigits : nat) : (0 < inject_Z (Zpos (pow10 ndigits)))%Q.
Proof. unfold Qlt. simpl. lia. Qed.


(** Rounding is monotone. *)
Lemma round_q_mono (x y : Q) (ndigits : nat) :
  (x <= y)%Q -> (round_q x ndigits <= round_q y ndigits)%Q.
Proof.
  intros H. unfold round_q, Qle. simpl.
  apply Z.mul_le_mono_nonneg_r; [lia |].
  apply rint_mono. apply Qmult_le_compat_r; [exact H |].
  apply Qlt_le_weak, pow10_inject.
Qed.

Lemma rint_inject_Z (z : Z) : rint (inject_Z z) = z.
Proof.
  unfold rint. rewrite Qfloor_Z.
  assert (E : (inject_Z z - inject_Z z ?= 1 # 2)%Q = Lt).
  { apply (proj1 (Qlt_alt _ _)). unfold Qminus. rewrite Qplus_opp_r.
    reflexivity. }
  rewrite E. reflexivity.
Qed.

(** An integer is its own rounding, to any number of decimals. *)
Lemma round_q_inject_Z (z : Z) (ndigits : nat) :
  (round_q (inject_Z z) ndigits == inject_Z z)%Q.
Proof.
  unfold round_q.
  assert (E : (inject_Z z * inject_Z (Zpos (pow10 ndigits))
               == inject_Z (z * Zpos (pow10 ndigits)))%Q)
    by (rewrite inject_Z_mult; reflexivity).
  rewrite (rint_comp _ _ E), rint_inject_Z.
  unfold Qeq, inject_Z. simpl. lia.
Qed.

Lemma round_q_between (a b : Z) (q : Q) (ndigits : nat) :
  (inject_Z a <= q)%Q -> (q <= inject_Z b)%Q ->
  (inject_Z a <= round_q q ndigits)%Q /\ (round_q q ndigits <= inject_Z b)%Q.
Proof.
  intros Ha Hb. split.
  - rewrite <- (round_q_inject_Z a ndigits). apply round_q_mono, Ha.
  - rewrite <- (round_q_inject_Z b ndigits). apply round_q_mono, Hb.
Qed.


(** *** Binary64 *)

Lemma pow2_pos (e : Z) : (0 < pow2 e)%Q.
Proof. apply Qpower_0_lt. reflexivity. Qed.

Lemma pow2_le (a b : Z) : a <= b -> (pow2 a <= pow2 b)%Q.
Proof. intros H. apply Qpower_le_compat_l; [exact H | discriminate]. Qed.

Lemma pow2_lt (a b : Z) : a < b -> (pow2 a < pow2 b)%Q.
Proof. intros H. apply Qpower_lt_compat_l; [exact H | reflexivity]. Qed.

Lemma pow2_lt_inv (a b : Z) : (pow2 a < pow2 b)%Q -> a < b.
Proof. intros H. apply (Qpower_lt_compat_l_inv 2); [exact H | reflexivity]. Qed.

Lemma pow2_plus (a b : Z) : (pow2 (a + b) == pow2 a * pow2 b)%Q.
Proof. apply Qpower_plus. discriminate. Qed.

Lemma pow2_succ (a : Z) : (pow2 (a + 1) == 2 * pow2 a)%Q.
Proof. rewrite pow2_plus. unfold pow2 at 2. rewrite Qpower_1_r. ring. Qed.

Lemma pow2_inject (n : Z) : 0 <= n -> (pow2 n == inject_Z (2 ^ n))%Q.
Proof. intros H. unfold pow2. rewrite Zpower_Qpower by exact H. reflexivity. Qed.

(** [2^(ilog2 q) <= q < 2^(ilog2 q + 1)] *)
Lemma ilog2_spec (q : Q) :
  (0 < q)%Q -> (pow2 (ilog2 q) <= q)%Q /\ (q < pow2 (ilog2 q + 1))%Q.
Proof.
  intros Hq. destruct q as [n d]. unfold ilog2. cbn [Qnum Qden].
  assert (Hn : 0 < n) by (unfold Qlt in Hq; simpl in Hq; lia).
  pose proof (Z.log2_spec n Hn) as [Hn1 Hn2].
  pose proof (Z.log2_spec (Zpos d) (Pos2Z.is_pos d)) as [Hd1 Hd2].
  pose proof (Z.log2_nonneg n) as Ha. pose proof (Z.log2_nonneg (Zpos d)) as Hb.
  set (a := Z.log2 n) in *. set (b := Z.log2 (Zpos d)) in *.
  assert (Eq : (n # d == inject_Z n / inject_Z (Zpos d))%Q).
  { rewrite Qmake_Qdiv. reflexivity. }
  assert (Hdpos : (0 < inject_Z (Zpos d))%Q) by (unfold Qlt; simpl; lia).
  assert (Hlow : (pow2 (a - b - 1) < n # d)%Q).
  { rewrite Eq. apply Qlt_shift_div_l; [exact Hdpos |].
    replace (a - b - 1) with (a + - (b + 1)) by lia.
    rewrite pow2_plus. unfold pow2 at 2. rewrite Qpower_opp.
    fold (pow2 (b + 1)).
    rewrite !pow2_inject by lia.
    assert (H1 : (inject_Z (2 ^ a) <= inject_Z n)%Q) by (rewrite <- Zle_Qle; exact Hn1).
    assert (H2 : (inject_Z (Zpos d) < inject_Z (2 ^ (b + 1)))%Q)
      by (rewrite <- Zlt_Qlt; replace (b + 1) with (Z.succ b) by lia; exact Hd2).
    assert (H3 : (0 < inject_Z (2 ^ a))%Q)
      by (rewrite <- (pow2_inject a) by lia; apply pow2_pos).
    set (A := inject_Z (2 ^ a)) in *. set (B := inject_Z (2 ^ (b + 1))) in *.
    set (N := inject_Z n) in *. set (D := inject_Z (Zpos d)) in *.
    assert (HB : (0 < B)%Q) by lra.
    apply Qlt_le_trans with (A * / B * B)%Q.
    - apply Qmult_lt_l; [| exact H2].
      apply Qmult_lt_0_compat; [exact H3 | apply Qinv_lt_0_compat, HB].
    - assert (E : (A * / B * B == A)%Q) by (field; lra). rewrite E. exact H1. }
  assert (Hup : (n # d < pow2 (a - b + 1))%Q).
  { rewrite Eq. apply Qlt_shift_div_r; [exact Hdpos |].
    replace (a - b + 1) with ((a + 1) + - b) by lia.
    rewrite pow2_plus. unfold pow2 at 2. rewrite Qpower_opp. fold (pow2 b).
    rewrite !pow2_inject by lia.
    assert (H1 : (inject_Z n < inject_Z (2 ^ (a + 1)))%Q)
      by (rewrite <- Zlt_Qlt; replace (a + 1) with (Z.succ a) by lia; exact Hn2).
    assert (H2 : (inject_Z (2 ^ b) <= inject_Z (Zpos d))%Q)
      by (rewrite <- Zle_Qle; exact Hd1).
    assert (H3 : (0 < inject_Z (2 ^ b))%Q)
      by (rewrite <- (pow2_inject b) by lia; apply pow2_pos).
    assert (H4 : (0 < inject_Z (2 ^ (a + 1)))%Q)
      by (rewrite <- (pow2_inject (a + 1)) by lia; apply pow2_pos).
    set (A := inject_Z (2 ^ (a + 1))) in *. set (B := inject_Z (2 ^ b)) in *.
    set (N := inject_Z n) in *. set (D := inject_Z (Zpos d)) in *.
    apply Qlt_le_trans with A; [exact H1 |].
    apply Qle_trans with (A * / B * B)%Q.
    - assert (E : (A * / B * B == A)%Q) by (field; lra). rewrite E. apply Qle_refl.
    - apply Qmult_le_l; [| exact H2].
      apply Qmult_lt_0_compat; [exact H4 | apply Qinv_lt_0_compat, H3]. }
  destruct (Qle_bool (pow2 (a - b)) (n # d)) eqn:E.
  - apply Qle_bool_iff in E. split; [exact E | exact Hup].
  - assert (Hlt : (n # d < pow2 (a - b))%Q).
    { apply Qnot_le_lt. intros H. apply Qle_bool_iff in H. congruence. }
    split; [apply Qlt_le_weak; exact Hlow |].
    replace (a - b - 1 + 1) with (a - b) by lia. exact Hlt.
Qed.

Lemma ilog2_le (q : Q) (K : Z) : (0 < q)%Q -> (q <= pow2 K)%Q -> ilog2 q <= K.
Proof.
  intros Hq H. destruct (ilog2_spec q Hq) as [Hl _].
  destruct (Z_le_gt_dec (ilog2 q) K) as [Hle | Hgt]; [exact Hle | exfalso].
  assert (Hlt : (pow2 K < pow2 (ilog2 q))%Q) by (apply pow2_lt; lia).
  lra.
Qed.

Lemma ilog2_mono (x y : Q) : (0 < x)%Q -> (x <= y)%Q -> ilog2 x <= ilog2 y.
Proof.
  intros Hx Hxy. assert (Hy : (0 < y)%Q) by lra.
  destruct (ilog2_spec x Hx) as [Hl _]. destruct (ilog2_spec y Hy) as [_ Hu].
  assert (H : ilog2 x < ilog2 y + 1) by (apply pow2_lt_inv; lra).
  lia.
Qed.

(** The value of [b64] before the fraction is reduced. *)
Lemma b64_eq (q : Q) :
  ~ (q == 0)%Q ->
  (b64 q == inject_Z (rint (q / pow2 (ulp_exponent q))) * pow2 (ulp_exponent q))%Q.
Proof.
  intros Hq. unfold b64.
  destruct (Qeq_bool q 0) eqn:E; [apply Qeq_bool_iff in E; contradiction |].
  cbv zeta. apply Qred_correct.
Qed.

Lemma b64_0 (q : Q) : (q == 0)%Q -> b64 q = 0%Q.
Proof.
  intros Hq. unfold b64. apply Qeq_bool_iff in Hq. rewrite Hq. reflexivity.
Qed.

(** Rounding to a double moves a value by at most half a unit in the last
    place. *)
Lemma b64_half_ulp (q : Q) :
  ~ (q == 0)%Q ->
  (Qabs (b64 q - q) <= pow2 (ulp_exponent q) * (1 # 2))%Q.
Proof.
  intros Hq. rewrite (b64_eq q Hq).
  set (e := ulp_exponent q). pose proof (pow2_pos e) as Hp.
  destruct (rint_near (q / pow2 e)) as [Hl Hu].
  set (r := inject_Z (rint (q / pow2 e))) in *.
  assert (E : (q == q / pow2 e * pow2 e)%Q) by (field; lra).
  set (y := (q / pow2 e)%Q) in *.
  assert (E2 : (r * pow2 e - q == (r - y) * pow2 e)%Q) by (rewrite E at 1; ring).
  rewrite E2, Qabs_Qmult, (Qabs_pos (pow2 e)) by lra.
  rewrite (Qmult_comm (pow2 e)).
  apply Qmult_le_compat_r; [| lra].
  apply Qabs_case; intros _; lra.
Qed.

Lemma ulp_exponent_le (q : Q) (K : Z) :
  ~ (q == 0)%Q -> -1022 <= K -> (Qabs q <= pow2 K)%Q -> ulp_exponent q <= K - 52.
Proof.
  intros Hq HK H. unfold ulp_exponent.
  assert (Hpos : (0 < Qabs q)%Q).
  { pose proof (Qabs_nonneg q) as H0. apply Qle_lteq in H0 as [H0 | H0]; [exact H0 |].
    exfalso. apply Hq. revert H0. apply Qabs_case; intros; lra. }
  pose proof (ilog2_le (Qabs q) K Hpos H). lia.
Qed.

Lemma b64_error (q : Q) (K : Z) :
  -1022 <= K -> (Qabs q <= pow2 K)%Q -> (Qabs (b64 q - q) <= pow2 (K - 53))%Q.
Proof.
  intros HK H. destruct (Qeq_dec q 0) as [E | Hq].
  - rewrite (b64_0 q E), E. vm_compute (Qabs (0 - 0)).
    apply Qlt_le_weak, pow2_pos.
  - eapply Qle_trans; [apply (b64_half_ulp q Hq) |].
    pose proof (ulp_exponent_le q K Hq HK H) as He.
    replace (K - 53) with ((K - 52) + -1) by lia. rewrite pow2_plus.
    change (pow2 (-1)) with (1 # 2)%Q.
    apply Qmult_le_compat_r; [apply pow2_le, He | discriminate].
Qed.

Lemma Qabs_pos_eq (x : Q) : (0 <= x)%Q -> Qabs x = x.
Proof.
  destruct x as [n d]. unfold Qle, Qabs. simpl. intros H.
  rewrite Z.abs_eq by lia. reflexivity.
Qed.

Lemma b64_nonneg (q : Q) : (0 <= q)%Q -> (0 <= b64 q)%Q.
Proof.
  intros H. destruct (Qeq_dec q 0) as [E | Hq].
  - rewrite (b64_0 q E). apply Qle_refl.
  - rewrite (b64_eq q Hq). pose proof (pow2_pos (ulp_exponent q)) as Hp.
    apply Qmult_le_0_compat; [| lra].
    change 0%Q with (inject_Z 0). rewrite <- Zle_Qle.
    rewrite <- (rint_inject_Z 0). apply rint_mono.
    apply Qle_shift_div_l; [exact Hp |]. change (inject_Z 0) with 0%Q. lra.
Qed.

(** Rounding to a double is monotone (stated for the values that are not
    negative). *)
Lemma b64_mono (x y : Q) : (0 <= x)%Q -> (x <= y)%Q -> (b64 x <= b64 y)%Q.
Proof.
  intros Hx Hxy. destruct (Qeq_dec x 0) as [E | Nx].
  - rewrite (b64_0 x E). apply b64_nonneg. lra.
  - assert (Hx0 : (0 < x)%Q) by (apply Qle_lteq in Hx as [H | H]; [exact H | exfalso; apply Nx; symmetry; exact H]).
    assert (Hy0 : (0 < y)%Q) by lra.
    assert (Ny : ~ (y == 0)%Q) by lra.
    rewrite (b64_eq x Nx), (b64_eq y Ny).
    unfold ulp_exponent. rewrite (Qabs_pos_eq x), (Qabs_pos_eq y) by lra.
    pose proof (ilog2_mono x y Hx0 Hxy) as Hl.
    destruct (ilog2_spec x Hx0) as [_ Hxu]. destruct (ilog2_spec y Hy0) as [Hyl _].
    set (ex := Z.max (ilog2 x - 52) (-1074)).
    set (ey := Z.max (ilog2 y - 52) (-1074)).
    pose proof (pow2_pos ex) as Hpx. pose proof (pow2_pos ey) as Hpy.
    destruct (Z.eq_dec ex ey) as [Ee | Ne].
    + rewrite Ee. apply Qmult_le_compat_r; [| lra].
      rewrite <- Zle_Qle. apply rint_mono.
      apply Qmult_le_compat_r; [exact Hxy |].
      apply Qlt_le_weak, Qinv_lt_0_compat, pow2_pos.
    + assert (Hlt : ex + 1 <= ey) by lia.
      assert (Eey : ey = ilog2 y - 52) by lia.
      apply Qle_trans with (pow2 (ex + 53)).
      * rewrite pow2_plus, (Qmult_comm (pow2 ex)).
        apply Qmult_le_compat_r; [| lra].
        rewrite (pow2_inject 53) by lia. rewrite <- Zle_Qle.
        rewrite <- (rint_inject_Z (2 ^ 53)). apply rint_mono.
        apply Qle_shift_div_r; [exact Hpx |].
        rewrite <- (pow2_inject 53) by lia. rewrite <- pow2_plus.
        apply Qlt_le_weak. eapply Qlt_le_trans; [exact Hxu |].
        apply pow2_le. lia.
      * apply Qle_trans with (pow2 (ey + 52)); [apply pow2_le; lia |].
        rewrite pow2_plus, (Qmult_comm (pow2 ey)).
        apply Qmult_le_compat_r; [| lra].
        rewrite (pow2_inject 52) by lia. rewrite <- Zle_Qle.
        rewrite <- (rint_inject_Z (2 ^ 52)). apply rint_mono.
        apply Qle_shift_div_l; [exact Hpy |].
        rewrite <- (pow2_inject 52) by lia. rewrite <- pow2_plus.
        replace (52 + ey) with (ilog2 y) by lia. exact Hyl.
Qed.

Lemma b64_abs_le (q : Q) (K : Z) :
  -1022 <= K -> (Qabs q <= pow2 K)%Q -> (Qabs (b64 q) <= pow2 (K + 1))%Q.
Proof.
  intros HK H. pose proof (b64_error q K HK H) as He.
  assert (Hp : (pow2 (K - 53) <= pow2 K)%Q) by (apply pow2_le; lia).
  rewrite pow2_succ.
  assert (E : (b64 q == (b64 q - q) + q)%Q) by ring.
  rewrite E. eapply Qle_trans; [apply Qabs_triangle |]. lra.
Qed.

Lemma max_float_large : (pow2 1001 <= max_float)%Q.
Proof. vm_compute. discriminate. Qed.

(** No overflow below [2^1000]. *)
Lemma fl_Num (q : Q) (K : Z) :
  -1022 <= K <= 1000 -> (Qabs q <= pow2 K)%Q -> fl q = Num (b64 q).
Proof.
  intros HK H.
  assert (Hb : (Qabs (b64 q) <= max_float)%Q).
  { eapply Qle_trans; [apply (b64_abs_le q K); [lia | exact H] |].
    eapply Qle_trans; [apply (pow2_le (K + 1) 1001); lia | apply max_float_large]. }
  apply Qabs_Qle_condition in Hb as [Hl Hu].
  unfold fl. cbv zeta.
  rewrite (proj2 (Qle_bool_iff _ _) Hu), (proj2 (Qle_bool_iff _ _) Hl).
  reflexivity.
Qed.

(** Numpy's rounding to two decimals of a double of magnitude at most
    [2^14]: the double nearest to a number [k/100], within 0.005 and the
    rounding errors of the product and the quotient of the argument. *)
Lemma np_round_2 (x : Q) :
  (Qabs x <= pow2 14)%Q ->
  exists k : Z,
    np_round (Num x) 2 = Num (b64 (inject_Z k / 100)) /\
    k = rint (b64 (x * 100)) /\
    (Qabs (b64 (inject_Z k / 100) - x) <= (1 # 200) + pow2 (-30))%Q.
Proof.
  intros Hx.
  assert (H100 : (Qabs (x * 100) <= pow2 21)%Q).
  { rewrite Qabs_Qmult. change (Qabs 100) with 100%Q.
    change (pow2 21) with (pow2 14 * 128)%Q in |- *.
    pose proof (Qabs_nonneg x). nra. }
  assert (E1 : fl_mul (Num x) (Num (inject_Z (Zpos (pow10 2))))
               = Num (b64 (x * 100))).
  { unfold fl_mul. cbn [f_mul round64 pow10].
    apply (fl_Num _ 21); [lia | exact H100]. }
  pose proof (b64_error (x * 100) 21 ltac:(lia) H100) as He.
  set (y := b64 (x * 100)) in *.
  set (k := rint y).
  destruct (rint_near y) as [Hl Hu]. fold k in Hl, Hu.
  assert (Hy : (Qabs y <= pow2 22)%Q)
    by (apply (b64_abs_le (x * 100) 21); [lia | exact H100]).
  assert (Hk : (Qabs (inject_Z k / 100) <= pow2 22)%Q).
  { change (pow2 22) with 4194304%Q in *.
    apply Qabs_Qle_condition in Hy as [Hy1 Hy2].
    apply Qabs_Qle_condition. split.
    - apply Qle_shift_div_l; [reflexivity |]. lra.
    - apply Qle_shift_div_r; [reflexivity |]. lra. }
  exists k. split; [| split; [reflexivity |]].
  - unfold np_round. cbv zeta. rewrite E1. cbn [f_rint]. fold y. fold k.
    unfold fl_div. cbn [np_div pow10]. cbn [round64].
    apply (fl_Num _ 22); [lia | exact Hk].
  - change (pow2 (21 - 53)) with (1 # 4294967296)%Q in He.
    pose proof (b64_error (inject_Z k / 100) 22 ltac:(lia) Hk) as Hq.
    change (pow2 (22 - 53)) with (1 # 2147483648)%Q in Hq.
    change (pow2 (-30)) with (1 # 1073741824)%Q.
    assert (Hd : (Qabs (y - x * 100) <= 1 # 4294967296)%Q) by exact He.
    apply Qabs_Qle_condition in Hd as [Hd1 Hd2].
    assert (Hn : (Qabs (inject_Z k / 100 - x)
                  <= (1 # 200) + (1 # 274877906944))%Q);
      [| assert (E : (b64 (inject_Z k / 100) - x
                      == (b64 (inject_Z k / 100) - inject_Z k / 100)
                         + (inject_Z k / 100 - x))%Q) by ring;
         rewrite E; eapply Qle_trans; [apply Qabs_triangle |]; lra].
    apply Qabs_Qle_condition. split.
    + apply Qle_minus_iff. 
      assert (E : (inject_Z k / 100 - x + - - ((1 # 200) + (1 # 274877906944))
                   == (inject_Z k - (x * 100 - (1 # 2) - (100 # 274877906944))) / 100)%Q)
        by field.
      rewrite E. apply Qle_shift_div_l; [reflexivity |]. lra.
    + apply Qle_minus_iff.
      assert (E : ((1 # 200) + (1 # 274877906944) + - (inject_Z k / 100 - x)
                   == ((x * 100 + (1 # 2) + (100 # 274877906944)) - inject_Z k) / 100)%Q)
        by field.
      rewrite E. apply Qle_shift_div_l; [reflexivity |]. lra.
Qed.

(** C1.  The status classifier on a finite mean [h]: "Operational" exactly
    when [h >= 80], "Warning" exactly when [60 <= h < 80], "Failure" exactly
    when [h < 60]; 80 and 60 fall into the higher bucket, 79.9 and 59.9 into
    the lower one. *)
Theorem status_of_thresholds :
  (forall h : Q,
     (status_of (Num h) = "Operational" <-> (80 <= h)%Q) /\
     (status_of (Num h) = "Warning" <-> (60 <= h)%Q /\ (h < 80)%Q) /\
     (status_of (Num h) = "Failure" <-> (h < 60)%Q)) /\
  status_of (Num 80) = "Operational" /\
  status_of (Num 60) = "Warning" /\
  status_of (Num (799 # 10)) = "Warning" /\
  status_of (Num (599 # 10)) = "Failure".
Proof.
  split; [| repeat split; reflexivity].
  intros h. unfold status_of.
  destruct (f_ge (Num h) (Num 80)) eqn:H80.
  - apply f_ge_Num in H80.
    repeat split; try discriminate; auto; intros H.
    + destruct H as [_ H]. exfalso. apply (Qlt_not_le _ _ H H80).
    + exfalso. apply (Qlt_not_le h 80); [| exact H80].
      eapply Qlt_trans; [exact H | reflexivity].
  - apply f_ge_Num_false in H80.
    destruct (f_ge (Num h) (Num 60)) eqn:H60.
    + apply f_ge_Num in H60.
      repeat split; try discriminate; auto; intros H.
      * exfalso. apply (Qlt_not_le _ _ H80 H).
      * exfalso. apply (Qlt_not_le _ _ H H60).
    + apply f_ge_Num_false in H60.
      repeat split; try discriminate; auto; intros H.
      * exfalso. apply (Qlt_not_le _ _ H80 H).
      * destruct H as [H _]. exfalso. apply (Qlt_not_le _ _ H60 H).
Qed.

(** *** The document store *)

Lemma insert_desc_In (d x : Doc) (l : list Doc) :
  In x (insert_desc d l) <-> x = d \/ In x l.
Proof.
  induction l as [| y l IH]; simpl.
  - intuition.
  - destruct (ts_le (timestamp y) (timestamp d)); simpl; [intuition |].
    rewrite IH. intuition.
Qed.

Lemma sort_desc_In (x : Doc) (l : list Doc) : In x (sort_desc l) <-> In x l.
Proof.
  induction l as [| d l IH]; simpl; [reflexivity |].
  rewrite insert_desc_In, IH. intuition.
Qed.

Lemma take_In {A} (x : A) (n : nat) (l : list A) : In x (take n l) -> In x l.
Proof.
  revert n; induction l as [| y l IH]; intros [| n]; simpl; try tauto.
  intros [-> | H]; [left; reflexivity | right; eauto].
Qed.

Lemma find_recent_In (x : Doc) (n : nat) (collection : list Doc) :
  In x (find_recent collection n) -> In x collection.
Proof. unfold find_recent. intros H. apply sort_desc_In. eapply take_In, H. Qed.

Lemma find_recent_nil (n : nat) : find_recent [] n = [].
Proof. unfold find_recent. simpl. apply take_nil. Qed.

Lemma insert_desc_cons (d : Doc) (l : list Doc) : insert_desc d l <> [].
Proof.
  destruct l as [| x l]; simpl; [discriminate |].
  destruct (ts_le (timestamp x) (timestamp d)); discriminate.
Qed.

(** A window of positive size is empty only for an empty collection. *)
Lemma find_recent_nil_iff (n : nat) (collection : list Doc) :
  find_recent collection (S n) = [] <-> collection = [].
Proof.
  split; [| intros ->; apply find_recent_nil].
  unfold find_recent. destruct collection as [| d l]; [reflexivity |].
  cbn [sort_desc foldr]. pose proof (insert_desc_cons d (foldr insert_desc [] l)) as H.
  destruct (insert_desc d (foldr insert_desc [] l)); [congruence | discriminate].
Qed.

(** *** Empty windows and empty histories *)

(** C3.  When the window fetched for a machine is empty, the detail and the
    sensor operations both end in a 404 not-found outcome; neither returns a
    result, zero-filled or otherwise. *)
Theorem empty_window_not_found (db : Database) (lathe_id : Z) :
  window db lathe_id 100 = [] ->
  (exists detail,
     get_lathe_details db lathe_id = Raise (HTTPException 404 detail)) /\
  (exists detail,
     get_lathe_sensor_data db lathe_id = Raise (HTTPException 404 detail)) /\
  (forall r, get_lathe_details db lathe_id <> Ok r) /\
  (forall r, get_lathe_sensor_data db lathe_id <> Ok r).
Proof.
  unfold window, get_lathe_details, get_lathe_sensor_data.
  destruct (db !! collection_name lathe_id) as [collection |].
  - intros ->. repeat split; eauto; discriminate.
  - intros _. repeat split; eauto; discriminate.
Qed.

Lemma empty_window_not_found_witness :
  window db_empty_collection 1 100 = [] /\
  exists detail,
    get_lathe_details db_empty_collection 1 = Raise (HTTPException 404 detail).
Proof.
  split; [reflexivity |].
  apply (empty_window_not_found db_empty_collection 1). reflexivity.
Defined.

(** C2, as the code has it.  A machine whose collection exists and holds no
    document gets a 404 not-found outcome from the product analysis, like
    the other per-machine operations. *)
Theorem product_analysis_empty_history (db : Database) (lathe_id : Z) :
  db !! collection_name lathe_id = Some [] ->
  get_lathe_product_analysis db lathe_id
  = Raise (HTTPException 404 ("No data found for " +:+ display_name lathe_id)).
Proof. unfold get_lathe_product_analysis. intros ->. reflexivity. Qed.

Lemma product_analysis_empty_history_witness :
  db_empty_collection !! collection_name 1 = Some [] /\
  get_lathe_product_analysis db_empty_collection 1
  = Raise (HTTPException 404 "No data found for Lathe M1").
Proof.
  split; [reflexivity |].
  apply (product_analysis_empty_history db_empty_collection 1). reflexivity.
Defined.

(** C2, as stated, fails: on an existing, empty collection the product
    analysis returns no mappings at all, it raises. *)
Lemma product_analysis_empty_history_raises :
  db_empty_collection !! collection_name 1 = Some [] /\
  get_lathe_product_analysis db_empty_collection 1
  = Raise (HTTPException 404 "No data found for Lathe M1") /\
  ~ exists r, get_lathe_product_analysis db_empty_collection 1 = Ok r.
Proof.
  split; [reflexivity |]. split; [reflexivity |].
  intros [r H]. vm_compute in H. discriminate H.
Qed.

(** *** Columns and means *)

Lemma getitem_eq (df : DataFrame) (key : string) :
  getitem df key
  = if columns df key then Ok (cells key (rows df)) else Raise (KeyError key).
Proof. reflexivity. Qed.

Lemma col_mean_eq (df : DataFrame) (key : string) :
  col_mean df key
  = if columns df key then Ok (pd_mean (cells key (rows df)))
    else Raise (KeyError key).
Proof. unfold col_mean, getitem. destruct (columns df key); reflexivity. Qed.

Lemma col_mean64_eq (df : DataFrame) (key : string) :
  col_mean64 df key
  = if columns df key then Ok (round64 (pd_mean (cells key (rows df))))
    else Raise (KeyError key).
Proof. unfold col_mean64, getitem. destruct (columns df key); reflexivity. Qed.

(** The guarded mean of the uptime never raises. *)
Lemma avg_uptime_of_eq (df : DataFrame) :
  avg_uptime_of df
  = Ok (if columns df "Uptime" then pd_mean (cells "Uptime" (rows df))
        else Num 0).
Proof.
  unfold avg_uptime_of. rewrite col_mean_eq.
  destruct (columns df "Uptime"); reflexivity.
Qed.

Lemma summarize_eq (i : Z) (data : list Doc) :
  summarize i data
  = if columns (pd_DataFrame data) "Health score" then
      Ok {| LatheSummary.lathe_id := i;
            LatheSummary.name := display_name i;
            LatheSummary.health_score :=
              py_round (pd_mean (cells "Health score" data)) 1;
            LatheSummary.uptime :=
              py_round (if columns (pd_DataFrame data) "Uptime"
                        then pd_mean (cells "Uptime" data) else Num 0) 1;
            LatheSummary.status :=
              status_of (pd_mean (cells "Health score" data)) |}
    else Raise (KeyError "Health score").
Proof.
  unfold summarize. rewrite col_mean_eq, avg_uptime_of_eq.
  destruct (columns (pd_DataFrame data) "Health score"); reflexivity.
Qed.

Lemma columns_cons (key : string) (d : Doc) (data : list Doc) :
  columns (pd_DataFrame (d :: data)) key
  = has_key key d || columns (pd_DataFrame data) key.
Proof. reflexivity. Qed.

Lemma has_key_Health_score (d : Doc) :
  is_Some (Health_score d) -> has_key "Health score" d = true.
Proof. intros H. unfold has_key. simpl. apply bool_decide_eq_true_2, H. Qed.

Lemma absent_no_column (key : string) (data : list Doc) :
  absent key data -> columns (pd_DataFrame data) key = false.
Proof.
  induction 1 as [| d data Hd _ IH]; [reflexivity |].
  rewrite columns_cons, Hd, IH. reflexivity.
Qed.

Lemma no_column_absent (key : string) (data : list Doc) :
  columns (pd_DataFrame data) key = false -> absent key data.
Proof.
  unfold absent. induction data as [| d data IH]; [constructor |].
  rewrite columns_cons. intros H. apply orb_false_elim in H as [Hd Hc].
  constructor; [exact Hd | apply IH, Hc].
Qed.

(** *** The summary of the fleet *)

Lemma filter_nonempty_single (db : Database) (i : Z) :
  filter (fun j => nonempty (window db j 50) = true) [i]
  = if nonempty (window db i 50) then [i] else [].
Proof.
  rewrite filter_cons, filter_nil.
  destruct (decide (nonempty (window db i 50) = true)) as [E | E];
    destruct (nonempty (window db i 50)); congruence.
Qed.

Lemma summarize_scored (i : Z) (d : Doc) (data : list Doc) :
  Forall (fun d => is_Some (Health_score d)) (d :: data) ->
  exists s, summarize i (d :: data) = Ok s /\ LatheSummary.lathe_id s = i.
Proof.
  intros Hs. rewrite summarize_eq, columns_cons.
  rewrite has_key_Health_score by (inversion Hs; assumption).
  eexists. split; reflexivity.
Qed.

Lemma lathes_step_scored (db : Database) (lathes : list LatheSummary.t) (i : Z) :
  Forall (fun d => is_Some (Health_score d)) (window db i 50) ->
  exists new,
    lathes_step db lathes i = Ok (lathes ++ new) /\ summaries_of db [i] new.
Proof.
  unfold summaries_of. rewrite filter_nonempty_single.
  unfold lathes_step. intros Hs.
  assert (Hw : window db i 50
               = match db !! collection_name i with
                 | Some collection => find_recent collection 50
                 | None => []
                 end) by reflexivity.
  destruct (db !! collection_name i) as [collection |].
  - destruct (find_recent collection 50) as [| d data].
    + exists []. rewrite app_nil_r, Hw. repeat split. constructor.
    + rewrite Hw in Hs.
      destruct (summarize_scored i d data Hs) as (s & Es & Hi).
      rewrite Es. exists [s]. cbn [bind]. rewrite Hw.
      split; [reflexivity |]. split; [simpl; rewrite Hi; reflexivity |].
      constructor; [| constructor]. rewrite Hi, Hw. exact Es.
  - exists []. rewrite app_nil_r, Hw. repeat split. constructor.
Qed.

Lemma lathes_loop_scored (db : Database) (ids : list Z) :
  Forall (fun i => Forall (fun d => is_Some (Health_score d)) (window db i 50))
         ids ->
  forall lathes, exists new,
    for_each ids (lathes_step db) lathes = Ok (lathes ++ new) /\
    summaries_of db ids new.
Proof.
  induction 1 as [| i ids Hi _ IH]; intros lathes.
  - exists []. rewrite app_nil_r. repeat split. constructor.
  - destruct (lathes_step_scored db lathes i Hi) as (new1 & E1 & M1 & F1).
    destruct (IH (lathes ++ new1)) as (new2 & E2 & M2 & F2).
    exists (new1 ++ new2). simpl for_each. rewrite E1. simpl bind.
    rewrite E2, <- app_assoc. split; [reflexivity |]. split.
    + rewrite map_app, M1, M2. change (i :: ids) with ([i] ++ ids).
      rewrite filter_app. reflexivity.
    + apply Forall_app. split; assumption.
Qed.

(** Whatever the documents hold, the loop raises nothing but the KeyError
    of a window without any health score. *)
Lemma lathes_loop_raise (db : Database) (ids : list Z) :
  forall lathes e,
    for_each ids (lathes_step db) lathes = Raise e ->
    e = KeyError "Health score".
Proof.
  induction ids as [| i ids IH]; intros lathes e; simpl; [discriminate |].
  unfold lathes_step at 1.
  destruct (db !! collection_name i) as [collection |]; simpl; [| apply IH].
  destruct (find_recent collection 50) as [| d data]; simpl; [apply IH |].
  rewrite summarize_eq.
  destruct (columns (pd_DataFrame (d :: data)) "Health score"); simpl.
  - apply IH.
  - intros H. injection H as <-. reflexivity.
Qed.

(** A KeyError of the loop comes from a non-empty window none of whose
    documents has a health score, and such a window makes the loop raise. *)
Lemma lathes_loop_raise_window (db : Database) (ids : list Z) :
  forall lathes e,
    for_each ids (lathes_step db) lathes = Raise e ->
    exists i, In i ids /\ window db i 50 <> [] /\
              absent "Health score" (window db i 50).
Proof.
  induction ids as [| i ids IH]; intros lathes e; simpl; [discriminate |].
  unfold lathes_step at 1.
  assert (Hw : window db i 50
               = match db !! collection_name i with
                 | Some collection => find_recent collection 50
                 | None => []
                 end) by reflexivity.
  destruct (db !! collection_name i) as [collection |]; simpl.
  - destruct (find_recent collection 50) as [| d data] eqn:Ef; simpl.
    + intros H. destruct (IH _ _ H) as (j & Hj & Hr). exists j. tauto.
    + rewrite summarize_eq.
      destruct (columns (pd_DataFrame (d :: data)) "Health score") eqn:Ec; simpl.
      * intros H. destruct (IH _ _ H) as (j & Hj & Hr). exists j. tauto.
      * intros _. exists i. rewrite Hw. split; [left; reflexivity |].
        split; [discriminate | apply no_column_absent, Ec].
  - intros H. destruct (IH _ _ H) as (j & Hj & Hr). exists j. tauto.
Qed.

Lemma lathes_loop_unscored (db : Database) (ids : list Z) (i : Z) :
  In i ids -> window db i 50 <> [] ->
  absent "Health score" (window db i 50) ->
  forall lathes, exists e, for_each ids (lathes_step db) lathes = Raise e.
Proof.
  intros Hi Hne Ha. apply absent_no_column in Ha.
  induction ids as [| j ids IH]; intros lathes; [destruct Hi |].
  cbn [for_each].
  destruct (lathes_step db lathes j) as [l | e] eqn:E; cbn [bind];
    [| exists e; reflexivity].
  destruct (Z.eq_dec j i) as [-> | Nj].
  - exfalso. unfold lathes_step in E. unfold window in Hne, Ha.
    destruct (db !! collection_name i) as [collection |]; [| congruence].
    destruct (find_recent collection 50) as [| d data]; [congruence |].
    rewrite summarize_eq, Ha in E. discriminate E.
  - apply IH. destruct Hi as [Hi | Hi]; [congruence | exact Hi].
Qed.

(** C10, as the code has it.  The summary of the fleet looks at machines 1
    to 4 only.  It never ends in an HTTP error.  On documents that carry
    their health score it returns one summary for each of these machines
    whose window of 50 is not empty, in increasing order, each the summary
    of that window; a machine without a collection or with an empty window
    is left out, and a fleet without any data gives the empty list.  It
    does signal an error, the KeyError of the health score, exactly when
    one of the four machines has a non-empty window none of whose documents
    holds a health score. *)
Theorem get_all_lathes_never_not_found (db : Database) :
  (forall code detail,
     get_all_lathes db <> Raise (HTTPException code detail)) /\
  (scored db ->
   exists lathes,
     get_all_lathes db = Ok lathes /\
     map LatheSummary.lathe_id lathes
     = filter (fun i => nonempty (window db i 50) = true) [1; 2; 3; 4] /\
     Forall (fun s => summarize (LatheSummary.lathe_id s)
                                (window db (LatheSummary.lathe_id s) 50) = Ok s)
            lathes) /\
  ((forall i, In i [1; 2; 3; 4] -> window db i 50 = []) ->
   get_all_lathes db = Ok []) /\
  (forall e, get_all_lathes db = Raise e -> e = KeyError "Health score") /\
  ((exists e, get_all_lathes db = Raise e) <->
   exists i, In i [1; 2; 3; 4] /\ window db i 50 <> [] /\
             absent "Health score" (window db i 50)).
Proof.
  split; [| split; [| split; [| split]]].
  - intros code detail H. apply lathes_loop_raise in H. discriminate H.
  - intros Hs.
    destruct (lathes_loop_scored db lathe_range Hs []) as (l & E & M & F).
    exists l. repeat split; assumption.
  - intros He.
    assert (Hs : scored db).
    { unfold scored, lathe_range. rewrite Forall_forall. intros i Hi.
      rewrite (He i) by (apply list_elem_of_In, Hi). constructor. }
    destruct (lathes_loop_scored db lathe_range Hs []) as (l & E & M & _).
    unfold get_all_lathes. rewrite E. f_equal.
    assert (Hnil : map LatheSummary.lathe_id l = []).
    { rewrite M. unfold lathe_range. simpl.
      repeat (rewrite filter_cons; rewrite He by (simpl; tauto); simpl).
      reflexivity. }
    destruct l; [reflexivity | discriminate Hnil].
  - intros e H. apply lathes_loop_raise in H. exact H.
  - split.
    + intros [e H]. apply (lathes_loop_raise_window db lathe_range [] e H).
    + intros (i & Hi & Hne & Ha).
      apply (lathes_loop_unscored db lathe_range i Hi Hne Ha).
Qed.

Lemma get_all_lathes_never_not_found_witness :
  scored db_fleet /\
  exists lathes,
    get_all_lathes db_fleet = Ok lathes /\
    map LatheSummary.lathe_id lathes = [2].
Proof.
  assert (Hs : scored db_fleet).
  { unfold scored, lathe_range. vm_compute. repeat constructor; eexists; reflexivity. }
  split; [exact Hs |].
  destruct (get_all_lathes_never_not_found db_fleet) as (_ & H & _).
  destruct (H Hs) as (l & E & M & _). exists l. split; [exact E |].
  rewrite M. reflexivity.
Defined.

(** C10, as stated, fails: the operation does signal an error.  On a
    collection whose only document has no health score it raises the
    KeyError of the unguarded column. *)
Lemma get_all_lathes_unscored :
  get_all_lathes db_unscored = Raise (KeyError "Health score").
Proof. reflexivity. Qed.

(** *** Sums and means of columns *)

Lemma fold_f_add_Num (qs : list Q) (a : Q) :
  fold_left f_add (map Num qs) (Num a) = Num (fold_left Qplus qs a).
Proof.
  revert a; induction qs as [| q qs IH]; intros a; simpl; [reflexivity |].
  apply IH.
Qed.

Lemma filter_notna_cells (key : string) (data : list Doc) :
  filter (fun x => notna x = true) (cells key data)
  = map Num (values key data).
Proof.
  unfold cells, values.
  induction data as [| d data IH]; [reflexivity |].
  cbn [map omap list_omap]. rewrite filter_cons.
  destruct (num_field key d) as [q |]; simpl.
  - rewrite IH. reflexivity.
  - exact IH.
Qed.

Lemma pd_sum_cells (key : string) (data : list Doc) :
  pd_sum (cells key data) = Num (q_sum (values key data)).
Proof. unfold pd_sum. rewrite filter_notna_cells. apply fold_f_add_Num. Qed.

Lemma np_div_length (x : Q) (n : nat) :
  np_div (Num x) (Num (inject_Z (Z.of_nat (S n))))
  = Num (x / inject_Z (Z.of_nat (S n))).
Proof. reflexivity. Qed.

Lemma pd_mean_cells (key : string) (data : list Doc) :
  pd_mean (cells key data)
  = match values key data with
    | [] => NaN
    | _ :: _ => Num (q_mean (values key data))
    end.
Proof.
  unfold pd_mean. rewrite filter_notna_cells.
  destruct (values key data) as [| q qs]; [reflexivity |].
  cbn [map]. change (Num q :: map Num qs) with (map Num (q :: qs)).
  rewrite fold_f_add_Num, length_map. reflexivity.
Qed.

(** A numeric key is a column exactly when some document holds a value. *)
Lemma columns_values (key : string) (data : list Doc) :
  String.eqb key "Type" = false ->
  String.eqb key "timestamp" = false ->
  columns (pd_DataFrame data) key = negb (bool_decide (values key data = [])).
Proof.
  intros HT Ht. unfold values.
  induction data as [| d data IH]; [reflexivity |].
  rewrite columns_cons, IH. unfold has_key. rewrite HT, Ht.
  cbn [omap list_omap]. destruct (num_field key d) as [q |]; reflexivity.
Qed.


Lemma absent_values (key : string) (data : list Doc) :
  String.eqb key "Type" = false ->
  String.eqb key "timestamp" = false ->
  absent key data -> values key data = [].
Proof.
  intros HT Ht Ha. apply absent_no_column in Ha.
  rewrite columns_values in Ha by assumption.
  destruct (bool_decide (values key data = [])) eqn:E; [| discriminate Ha].
  apply bool_decide_eq_true_1 in E. exact E.
Qed.

(** *** The detail operation *)

Ltac columns_of H :=
  unfold has_columns, channels in H;
  repeat match type of H with
         | Forall _ (_ :: _) =>
             let Hc := fresh "Hc" in
             apply Forall_cons in H as [Hc H]
         end;
  clear H.

Lemma product_types_of_eq (df : DataFrame) :
  product_types_of df
  = Ok (if columns df "Type" then value_counts (map Type_ (rows df)) else ∅).
Proof.
  unfold product_types_of, getitem_Type.
  destruct (columns df "Type"); reflexivity.
Qed.

Lemma failure_count_of_eq (data : list Doc) :
  failure_count_of (pd_DataFrame data)
  = Ok (Num (q_sum (values "Failure" data))).
Proof.
  unfold failure_count_of. rewrite getitem_eq.
  rewrite (columns_values "Failure") by reflexivity.
  destruct (bool_decide (values "Failure" data = [])) eqn:E; cbn [negb bind].
  - apply bool_decide_eq_true_1 in E. rewrite E. reflexivity.
  - cbn [rows pd_DataFrame]. rewrite pd_sum_cells. reflexivity.
Qed.

Lemma vibration_of_eq (df : DataFrame) :
  vibration_of df
  = Ok (if columns df "Vibration"
        then Some (py_round (pd_mean (cells "Vibration" (rows df))) 1)
        else None).
Proof.
  unfold vibration_of. rewrite col_mean_eq.
  destruct (columns df "Vibration"); reflexivity.
Qed.

(** With its unguarded columns present, the detail operation returns, and
    this is what it returns. *)
Lemma details_eq (lathe_id : Z) (data : list Doc) :
  has_columns ("Health score" :: channels) data ->
  details lathe_id data
  = Ok {| LatheDetails.lathe_id := lathe_id;
          LatheDetails.name := display_name lathe_id;
          LatheDetails.health_score :=
            py_round (pd_mean (cells "Health score" data)) 1;
          LatheDetails.uptime :=
            py_round (if columns (pd_DataFrame data) "Uptime"
                      then pd_mean (cells "Uptime" data) else Num 0) 1;
          LatheDetails.status :=
            status_of (pd_mean (cells "Health score" data));
          LatheDetails.air_temperature :=
            py_round (pd_mean (cells "Air temperature" data)) 1;
          LatheDetails.process_temperature :=
            py_round (pd_mean (cells "Process temperature" data)) 1;
          LatheDetails.rotational_speed :=
            py_round (pd_mean (cells "Rotational speed" data)) 1;
          LatheDetails.torque := py_round (pd_mean (cells "Torque" data)) 1;
          LatheDetails.tool_wear :=
            py_round (pd_mean (cells "Tool wear" data)) 1;
          LatheDetails.vibration :=
            if columns (pd_DataFrame data) "Vibration"
            then Some (py_round (pd_mean (cells "Vibration" data)) 1)
            else None;
          LatheDetails.failure_count :=
            q_trunc (q_sum (values "Failure" data));
          LatheDetails.product_types :=
            if columns (pd_DataFrame data) "Type"
            then value_counts (map Type_ data) else ∅ |}.
Proof.
  intros H. columns_of H.
  unfold details.
  rewrite !col_mean_eq, avg_uptime_of_eq, product_types_of_eq,
    failure_count_of_eq, vibration_of_eq.
  rewrite Hc, Hc0, Hc1, Hc2, Hc3, Hc4.
  reflexivity.
Qed.

(** A missing unguarded column makes the detail operation raise KeyError. *)
Lemma details_KeyError (lathe_id : Z) (data : list Doc) (key : string) :
  In key ("Health score" :: channels) ->
  columns (pd_DataFrame data) key = false ->
  exists k, details lathe_id data = Raise (KeyError k).
Proof.
  intros Hin Hk.
  unfold details.
  rewrite !col_mean_eq, avg_uptime_of_eq, product_types_of_eq,
    failure_count_of_eq, vibration_of_eq.
  destruct (columns (pd_DataFrame data) "Health score") eqn:E0;
    [| eexists; reflexivity].
  destruct (columns (pd_DataFrame data) "Air temperature") eqn:E1;
    [| eexists; reflexivity].
  destruct (columns (pd_DataFrame data) "Process temperature") eqn:E2;
    [| eexists; reflexivity].
  destruct (columns (pd_DataFrame data) "Rotational speed") eqn:E3;
    [| eexists; reflexivity].
  destruct (columns (pd_DataFrame data) "Torque") eqn:E4;
    [| eexists; reflexivity].
  destruct (columns (pd_DataFrame data) "Tool wear") eqn:E5;
    [| eexists; reflexivity].
  exfalso. simpl in Hin.
  repeat (destruct Hin as [<- | Hin]; [congruence |]). exact Hin.
Qed.

(** *** The sensor operation *)

Lemma stats_of_cons (x : pyfloat) (rest : list pyfloat) :
  stats_of (x :: rest)
  = Ok {| Stats.min :=
            py_round (fold_left (fun cur item => if f_lt item cur then item else cur)
                                rest x) 2;
          Stats.max :=
            py_round (fold_left (fun cur item => if f_gt item cur then item else cur)
                                rest x) 2;
          Stats.avg :=
            py_round (np_div (py_sum (x :: rest))
                             (Num (inject_Z (Z.of_nat (S (length rest)))))) 2 |}.
Proof. reflexivity. Qed.

Lemma stats_of_cells (key : string) (d : Doc) (data : list Doc) :
  exists st, stats_of (cells key (d :: data)) = Ok st.
Proof. unfold cells. cbn [map]. rewrite stats_of_cons. eexists; reflexivity. Qed.

(** Without a vibration column the sensor operation reports the five
    channels and nothing under the key "vibration". *)
Lemma sensor_no_vibration (lathe_id : Z) (data : list Doc) :
  data <> [] ->
  has_columns channels data ->
  columns (pd_DataFrame data) "Vibration" = false ->
  exists r,
    sensor lathe_id data = Ok r /\
    SensorData.sensor_data r !! "vibration" = None /\
    SensorData.stats r !! "vibration" = None /\
    Forall (fun key => is_Some (SensorData.stats r !! key))
      ["air_temperature"; "process_temperature"; "rotational_speed";
       "torque"; "tool_wear"].
Proof.
  intros Hne H Hv. columns_of H.
  destruct data as [| d data]; [congruence |].
  unfold sensor. rewrite !getitem_eq, Hc, Hc0, Hc1, Hc2, Hc3, Hv.
  cbn [bind rows pd_DataFrame for_each fst snd].
  destruct (stats_of_cells "Air temperature" d data) as [s1 ->].
  destruct (stats_of_cells "Process temperature" d data) as [s2 ->].
  destruct (stats_of_cells "Rotational speed" d data) as [s3 ->].
  destruct (stats_of_cells "Torque" d data) as [s4 ->].
  destruct (stats_of_cells "Tool wear" d data) as [s5 ->].
  cbn [bind]. eexists. split; [reflexivity |].
  cbn [SensorData.sensor_data SensorData.stats].
  split; [reflexivity |]. split; [reflexivity |].
  repeat constructor; eexists; reflexivity.
Qed.

(** *** Absent channels *)

(** A missing unguarded column makes the sensor operation raise KeyError. *)
Lemma sensor_KeyError (lathe_id : Z) (data : list Doc) (key : string) :
  In key channels ->
  columns (pd_DataFrame data) key = false ->
  exists k, sensor lathe_id data = Raise (KeyError k).
Proof.
  intros Hin Hk. unfold sensor. rewrite !getitem_eq.
  destruct (columns (pd_DataFrame data) "Air temperature") eqn:E1;
    [| eexists; reflexivity].
  destruct (columns (pd_DataFrame data) "Process temperature") eqn:E2;
    [| eexists; reflexivity].
  destruct (columns (pd_DataFrame data) "Rotational speed") eqn:E3;
    [| eexists; reflexivity].
  destruct (columns (pd_DataFrame data) "Torque") eqn:E4;
    [| eexists; reflexivity].
  destruct (columns (pd_DataFrame data) "Tool wear") eqn:E5;
    [| eexists; reflexivity].
  exfalso. simpl in Hin.
  repeat (destruct Hin as [<- | Hin]; [congruence |]). exact Hin.
Qed.

(** C4, as the code has it.  In a non-empty window without any vibration
    value: when each of the five other channels is in some document, the
    sensor operation leaves the key "vibration" out of both the values and
    the statistics; when moreover some document has a health score, the
    detail operation returns a result whose field [vibration] is [None],
    and without any health score it raises KeyError instead; whenever the
    detail operation returns a result, its [vibration] is [None], never a
    number.  When one of the five other channels is absent from every
    document, both operations raise KeyError and return nothing. *)
Theorem absent_vibration_outputs (lathe_id : Z) (data : list Doc) :
  data <> [] ->
  (absent "Vibration" data ->
   (has_columns channels data ->
    (exists r,
       sensor lathe_id data = Ok r /\
       SensorData.sensor_data r !! "vibration" = None /\
       SensorData.stats r !! "vibration" = None) /\
    (has_columns ["Health score"] data ->
     exists r,
       details lathe_id data = Ok r /\ LatheDetails.vibration r = None)) /\
   (absent "Health score" data ->
    details lathe_id data = Raise (KeyError "Health score")) /\
   (forall r, details lathe_id data = Ok r -> LatheDetails.vibration r = None)) /\
  (forall key, In key channels -> absent key data ->
   (exists k, sensor lathe_id data = Raise (KeyError k)) /\
   (exists k, details lathe_id data = Raise (KeyError k))).
Proof.
  intros Hne. split.
  - intros Ha. apply absent_no_column in Ha. split; [| split].
    + intros Hc. split.
      * destruct (sensor_no_vibration lathe_id data Hne Hc Ha)
          as (r & E & H1 & H2 & _).
        exists r. auto.
      * intros Hh. eexists. split.
        -- apply details_eq. unfold has_columns in *.
           apply Forall_cons. split; [| exact Hc].
           apply Forall_cons in Hh as [Hh _]. exact Hh.
        -- cbn [LatheDetails.vibration]. rewrite Ha. reflexivity.
    + intros Hh. apply absent_no_column in Hh.
      unfold details. rewrite col_mean_eq, Hh. reflexivity.
    + intros r E. unfold details in E.
      rewrite !col_mean_eq, avg_uptime_of_eq, product_types_of_eq,
        failure_count_of_eq, vibration_of_eq, Ha in E.
      repeat match type of E with
             | context [if ?c then _ else _] => destruct c; cbn [bind] in E
             end; try discriminate E.
      all: injection E as <-; reflexivity.
  - intros key Hin Ha. apply absent_no_column in Ha. split.
    + apply (sensor_KeyError lathe_id data key Hin Ha).
    + apply (details_KeyError lathe_id data key); [right; exact Hin | exact Ha].
Qed.

Lemma absent_vibration_outputs_witness :
  window_bare <> [] /\
  absent "Vibration" window_bare /\
  has_columns channels window_bare /\
  exists r,
    sensor 1 window_bare = Ok r /\
    SensorData.sensor_data r !! "vibration" = None /\
    SensorData.stats r !! "vibration" = None.
Proof.
  assert (H1 : window_bare <> []) by discriminate.
  assert (H2 : absent "Vibration" window_bare) by (repeat constructor).
  assert (H3 : has_columns channels window_bare) by (repeat constructor).
  repeat split; try assumption.
  destruct (absent_vibration_outputs 1 window_bare H1) as [H _].
  destruct (H H2) as [Hs _]. destruct (Hs H3) as [Hr _]. exact Hr.
Defined.

(** C4, as stated, fails for the detail operation: with vibration absent
    from every document of a non-empty window the result still has its
    [vibration] field, holding Python's [None], that is null. *)
Lemma absent_vibration_null_in_details :
  window_bare <> [] /\
  absent "Vibration" window_bare /\
  exists r,
    details 1 window_bare = Ok r /\ LatheDetails.vibration r = None.
Proof.
  split; [discriminate |]. split; [repeat constructor |].
  eexists. split; [vm_compute; reflexivity | reflexivity].
Qed.

(** *** The uptime convention *)



(** *** Status and reported health score *)

Lemma column_mean_Num (key : string) (data : list Doc) :
  String.eqb key "Type" = false ->
  String.eqb key "timestamp" = false ->
  columns (pd_DataFrame data) key = true ->
  pd_mean (cells key data) = Num (q_mean (values key data)).
Proof.
  intros HT Ht Hc. rewrite columns_values in Hc by assumption.
  rewrite pd_mean_cells. destruct (values key data); [discriminate Hc | reflexivity].
Qed.





(** *** The health score of the generator *)

Module GeneratorFacts.
Import Generator.

Lemma np_div_Num (x y : Q) :
  ~ (y == 0)%Q -> np_div (Num x) (Num y) = Num (x / y).
Proof.
  intros Hy. unfold np_div.
  destruct (y ?= 0)%Q eqn:E; try reflexivity.
  apply Qeq_alt in E. contradiction.
Qed.

Lemma clip01_bounds (q : Q) : (0 <= clip01 q)%Q /\ (clip01 q <= 1)%Q.
Proof.
  unfold clip01.
  destruct (Qle_bool q 0) eqn:E0; [split; discriminate |].
  destruct (Qle_bool 1 q) eqn:E1; [split; discriminate |].
  assert (H0 : ~ (q <= 0)%Q) by (rewrite <- Qle_bool_iff; congruence).
  assert (H1 : ~ (1 <= q)%Q) by (rewrite <- Qle_bool_iff; congruence).
  split; lra.
Qed.

(** The clipping of a finite value is the clipping of the specification. *)
Lemma clip_Num (q : Q) :
  exists c, clip (Num q) 0 1 = Num c /\ (c == clip01 q)%Q.
Proof.
  unfold clip, clip01, f_gt, f_lt.
  destruct (q ?= 0)%Q eqn:E0.
  - apply Qeq_alt in E0.
    assert (H : Qle_bool q 0 = true) by (apply Qle_bool_iff; lra).
    rewrite H.
    destruct (1 ?= q)%Q eqn:E1.
    + apply Qeq_alt in E1. lra.
    + apply Qlt_alt in E1. lra.
    + exists q. split; [reflexivity | exact E0].
  - apply Qlt_alt in E0.
    assert (H : Qle_bool q 0 = true) by (apply Qle_bool_iff; lra).
    rewrite H. exists 0%Q. split; reflexivity.
  - apply Qgt_alt in E0.
    assert (H : Qle_bool q 0 = false).
    { destruct (Qle_bool q 0) eqn:E; [| reflexivity].
      apply Qle_bool_iff in E. lra. }
    rewrite H.
    destruct (1 ?= q)%Q eqn:E1.
    + apply Qeq_alt in E1.
      assert (H1 : Qle_bool 1 q = true) by (apply Qle_bool_iff; lra).
      rewrite H1. exists q. split; [reflexivity | lra].
    + apply Qlt_alt in E1.
      assert (H1 : Qle_bool 1 q = true) by (apply Qle_bool_iff; lra).
      rewrite H1. exists 1%Q. split; reflexivity.
    + apply Qgt_alt in E1.
      assert (H1 : Qle_bool 1 q = false).
      { destruct (Qle_bool 1 q) eqn:E; [| reflexivity].
        apply Qle_bool_iff in E. lra. }
      rewrite H1. exists q. split; reflexivity.
Qed.

End GeneratorFacts.

(** C8.  With finite, non-zero nominal speed, torque and maximal wear, the
    health score [enrich] gives a row is 100 times the sum of the four
    sub-scores weighted 0.2, 0.25, 0.25 and 0.3; each sub-score lies in
    [0,1], and the score in [0,100]. *)
Theorem health_score_weighted_sum (s t w : Q) (d : Generator.Reading) :
  ~ (s == 0)%Q -> ~ (t == 0)%Q -> ~ (w == 0)%Q ->
  let nominal :=
    {| Generator.speed := Num s; Generator.torque := Num t;
       Generator.wear_max := Num w; Generator.temp_shift := Num 10 |} in
  exists h,
    Generator.health_score nominal d = Num h /\
    (h == 100 * ((2 # 10) * Generator.sub_temp d
                 + (25 # 100) * Generator.sub_speed s d
                 + (25 # 100) * Generator.sub_torque t d
                 + (3 # 10) * Generator.sub_wear w d))%Q /\
    (0 <= Generator.sub_temp d <= 1)%Q /\
    (0 <= Generator.sub_speed s d <= 1)%Q /\
    (0 <= Generator.sub_torque t d <= 1)%Q /\
    (0 <= Generator.sub_wear w d <= 1)%Q /\
    (0 <= h <= 100)%Q.
Proof.
  intros Hs Ht Hw nominal.
  unfold Generator.health_score, Generator.h_temp, Generator.h_speed,
    Generator.h_torque, Generator.h_wear.
  subst nominal. cbn [Generator.speed Generator.torque Generator.wear_max
                      Generator.temp_shift].
  rewrite (GeneratorFacts.np_div_Num _ s Hs),
    (GeneratorFacts.np_div_Num _ t Ht), (GeneratorFacts.np_div_Num _ w Hw).
  cbn [f_sub f_neg f_add f_abs].
  rewrite (GeneratorFacts.np_div_Num _ 10) by discriminate.
  destruct (GeneratorFacts.clip_Num
              (Qabs (Generator.Air_temperature d + - (300)) / 10))
    as (ct & -> & Et).
  destruct (GeneratorFacts.clip_Num (Generator.Rotational_speed d / s))
    as (cs & -> & Es).
  destruct (GeneratorFacts.clip_Num (Generator.Torque d / t))
    as (cq & -> & Eq).
  destruct (GeneratorFacts.clip_Num (1 + - (Generator.Tool_wear d / w)))
    as (cw & -> & Ew).
  cbn [f_mul f_add Generator.weights Generator.temp Generator.w_speed
       Generator.w_torque Generator.wear].
  eexists. split; [reflexivity |].
  pose proof (GeneratorFacts.clip01_bounds
                (Qabs (Generator.Air_temperature d - 300) / 10)) as Bt.
  pose proof (GeneratorFacts.clip01_bounds (Generator.Rotational_speed d / s)) as Bs.
  pose proof (GeneratorFacts.clip01_bounds (Generator.Torque d / t)) as Bq.
  pose proof (GeneratorFacts.clip01_bounds (1 - Generator.Tool_wear d / w)) as Bw.
  unfold Generator.sub_temp, Generator.sub_speed, Generator.sub_torque,
    Generator.sub_wear.
  change (Qabs (Generator.Air_temperature d + - (300)) / 10)%Q
    with (Qabs (Generator.Air_temperature d - 300) / 10)%Q in Et.
  change (1 + - (Generator.Tool_wear d / w))%Q
    with (1 - Generator.Tool_wear d / w)%Q in Ew.
  set (vt := Generator.clip01 (Qabs (Generator.Air_temperature d - 300) / 10)) in *.
  set (vs := Generator.clip01 (Generator.Rotational_speed d / s)) in *.
  set (vq := Generator.clip01 (Generator.Torque d / t)) in *.
  set (vw := Generator.clip01 (1 - Generator.Tool_wear d / w)) in *.
  repeat split; lra.
Qed.

Lemma health_score_weighted_sum_witness :
  exists h,
    Generator.health_score
      {| Generator.speed := Num 1500; Generator.torque := Num 40;
         Generator.wear_max := Num 200; Generator.temp_shift := Num 10 |}
      sample_reading = Num h /\
    (0 <= h <= 100)%Q.
Proof.
  destruct (health_score_weighted_sum 1500 40 200 sample_reading)
    as (h & E & _ & _ & _ & _ & _ & B); try discriminate.
  exists h. split; [exact E | exact B].
Defined.

(** *** Counting and grouping *)

Lemma same_value_eq (c v : option string) : same_value c v = true <-> c = v.
Proof.
  destruct c as [a |], v as [b |]; simpl; split; intros H;
    try discriminate; try reflexivity.
  - apply String.eqb_eq in H. congruence.
  - apply String.eqb_eq. congruence.
Qed.

Lemma unique_In (v : option string) (s : list (option string)) :
  In v (unique s) <-> In v s.
Proof.
  induction s as [| c s IH]; simpl; [reflexivity |].
  rewrite <- list_elem_of_In, list_elem_of_filter, list_elem_of_In, IH.
  split.
  - intros [-> | [_ H]]; auto.
  - intros [-> | H]; [left; reflexivity |].
    destruct (same_value c v) eqn:E.
    + apply same_value_eq in E. left. exact E.
    + right. split; [reflexivity | exact H].
Qed.

Lemma unique_NoDup (s : list (option string)) : NoDup (unique s).
Proof.
  induction s as [| c s IH]; simpl; [constructor |].
  constructor.
  - rewrite list_elem_of_filter. intros [H _].
    assert (E : same_value c c = true) by (apply same_value_eq; reflexivity).
    congruence.
  - apply NoDup_filter, IH.
Qed.

Lemma value_counts_lookup (t : string) (data : list Doc) :
  value_counts (map Type_ data) !! t
  = match group t data with
    | [] => None
    | g => Some (Z.of_nat (length g))
    end.
Proof.
  unfold group.
  induction data as [| d data IH]; [reflexivity |].
  cbn [map value_counts foldr]. fold (value_counts (map Type_ data)).
  rewrite filter_cons.
  destruct (Type_ d) as [v |] eqn:Ev.
  - destruct (decide (Some v = Some t)) as [E | E].
    + injection E as ->. rewrite lookup_insert_eq, IH.
      destruct (filter (fun d => Type_ d = Some t) data) as [| x g];
        unfold default; cbn [from_option id length]; f_equal; lia.
    + rewrite lookup_insert_ne by congruence. exact IH.
  - destruct (decide (None = Some t)) as [E | E]; [discriminate E | exact IH].
Qed.

Lemma for_each_insert {V} (entry : option string -> result V)
    (g : option string -> V) (keys : list (option string)) :
  (forall k, In k keys -> entry k = Ok (g k)) ->
  forall m0 : gmap (option string) V, exists m,
    for_each keys (fun d k => let* e := entry k in Ok (<[k := e]> d)) m0 = Ok m /\
    (forall k, In k keys -> m !! k = Some (g k)) /\
    (forall k, ~ In k keys -> m !! k = m0 !! k).
Proof.
  induction keys as [| k0 keys IH]; intros He m0.
  - exists m0. split; [reflexivity |]. split; [intros k [] | reflexivity].
  - destruct (IH (fun k H => He k (or_intror H)) (<[k0 := g k0]> m0))
      as (m & E & Hin & Hout).
    exists m. cbn [for_each]. rewrite (He k0 (or_introl eq_refl)). cbn [bind].
    split; [exact E |]. split.
    + intros k Hk. destruct (decide (k ∈ keys)) as [Hd | Hd].
      * apply Hin, list_elem_of_In, Hd.
      * destruct Hk as [<- | Hk]; [| exfalso; apply Hd, list_elem_of_In, Hk].
        rewrite Hout by (rewrite <- list_elem_of_In; exact Hd).
        apply lookup_insert_eq.
    + intros k Hk. rewrite Hout by (intros H; apply Hk; right; exact H).
      apply lookup_insert_ne. intros ->. apply Hk. left. reflexivity.
Qed.

Lemma select_type_rows (data : list Doc) (t : string) :
  rows (select_type (pd_DataFrame data) (Some t)) = group t data.
Proof.
  unfold select_type, group. cbn [rows pd_DataFrame].
  apply list_filter_iff. intros d. unfold cell_eqb.
  destruct (Type_ d) as [a |]; [| split; discriminate].
  rewrite String.eqb_eq. split; congruence.
Qed.

Lemma group_In (t : string) (data : list Doc) :
  In (Some t) (map Type_ data) -> group t data <> [].
Proof.
  intros H. apply in_map_iff in H as (d & Ed & Hd). unfold group.
  intros E.
  assert (Hf : d ∈ filter (fun d => Type_ d = Some t) data).
  { apply list_elem_of_filter. split; [exact Ed | apply list_elem_of_In, Hd]. }
  rewrite E in Hf. inversion Hf.
Qed.

Lemma group_complete (t : string) (data : list Doc) :
  Forall complete data -> Forall complete (group t data).
Proof.
  intros H. unfold group. rewrite Forall_forall in *.
  intros d Hd. apply list_elem_of_filter in Hd as [_ Hd]. apply H, Hd.
Qed.

Lemma complete_num_field (key : string) (d : Doc) :
  In key numeric_keys -> complete d -> is_Some (num_field key d).
Proof.
  intros Hin (HT & HF & HH & H1 & H2 & H3 & H4 & H5).
  simpl in Hin.
  repeat (destruct Hin as [<- | Hin]; [cbn; try assumption |]);
    [| destruct Hin].
  destruct HF as [-> | ->]; cbn; eauto.
Qed.

Lemma complete_column (key : string) (data : list Doc) :
  In key numeric_keys -> data <> [] -> Forall complete data ->
  columns (pd_DataFrame data) key = true.
Proof.
  intros Hin Hne Hc. destruct data as [| d data]; [congruence |].
  apply Forall_cons in Hc as [Hd _].
  rewrite columns_cons.
  assert (Hk : has_key key d = true).
  { pose proof (complete_num_field key d Hin Hd) as Hs.
    unfold has_key. simpl in Hin.
    repeat (destruct Hin as [<- | Hin];
            [cbn; apply bool_decide_eq_true_2; exact Hs |]).
    destruct Hin. }
  rewrite Hk. reflexivity.
Qed.

Lemma complete_column_Type (data : list Doc) :
  data <> [] -> Forall complete data ->
  columns (pd_DataFrame data) "Type" = true.
Proof.
  intros Hne Hc. destruct data as [| d data]; [congruence |].
  apply Forall_cons in Hc as [(HT & _) _].
  rewrite columns_cons. unfold has_key. cbn.
  rewrite bool_decide_eq_true_2 by exact HT. reflexivity.
Qed.

(** In a complete window every document contributes to every mean. *)
Lemma complete_values (key : string) (data : list Doc) :
  In key numeric_keys -> Forall complete data ->
  length (values key data) = length data.
Proof.
  intros Hin Hc. unfold values.
  induction Hc as [| d data Hd _ IH]; [reflexivity |].
  cbn [omap list_omap length].
  destruct (complete_num_field key d Hin Hd) as [q ->].
  cbn [length]. f_equal. exact IH.
Qed.

Lemma complete_mean (key : string) (data : list Doc) :
  In key numeric_keys -> data <> [] -> Forall complete data ->
  pd_mean (cells key data) = Num (q_mean (values key data)).
Proof.
  intros Hin Hne Hc. rewrite pd_mean_cells.
  pose proof (complete_values key data Hin Hc) as Hl.
  destruct (values key data); [| reflexivity].
  destruct data; [congruence | discriminate Hl].
Qed.

(** *** Sums of rationals *)

Lemma fold_Qplus_acc (qs : list Q) (a : Q) :
  (fold_left Qplus qs a == a + fold_left Qplus qs 0)%Q.
Proof.
  revert a; induction qs as [| q qs IH]; intros a; cbn [fold_left].
  - ring.
  - rewrite (IH (a + q)%Q), (IH (0 + q)%Q). ring.
Qed.

Lemma q_sum_cons (q : Q) (qs : list Q) : (q_sum (q :: qs) == q + q_sum qs)%Q.
Proof.
  unfold q_sum. cbn [fold_left]. rewrite fold_Qplus_acc. ring.
Qed.

(** In a complete window the failure flags sum to the number of failed
    documents. *)
Lemma failure_sum (data : list Doc) :
  Forall complete data ->
  (q_sum (values "Failure" data) == inject_Z (Z.of_nat (failed_count data)))%Q.
Proof.
  unfold failed_count, values.
  induction 1 as [| d data (_ & HF & _) _ IH]; [reflexivity |].
  rewrite filter_cons. cbn [omap list_omap].
  change (num_field "Failure" d) with (inject_Z <$> Failure d).
  destruct HF as [-> | ->]; cbn [fmap option_fmap option_map].
  - rewrite q_sum_cons, IH.
    destruct (decide (Some 0 = Some 1)) as [E | _]; [discriminate E |]. ring.
  - rewrite q_sum_cons, IH.
    destruct (decide (Some 1 = Some 1)) as [_ | E]; [| congruence].
    cbn [length]. rewrite Nat2Z.inj_succ, <- Z.add_1_l, inject_Z_plus. ring.
Qed.

Lemma failure_rate_eq (data : list Doc) :
  Forall complete data ->
  (q_mean (values "Failure" data) * 100
   == 100 * (inject_Z (Z.of_nat (failed_count data))
             / inject_Z (Z.of_nat (length data))))%Q.
Proof.
  intros Hc. unfold q_mean.
  rewrite (complete_values "Failure") by (simpl; auto).
  rewrite (failure_sum data Hc). ring.
Qed.

Lemma q_sum_bounds (a b : Q) (qs : list Q) :
  Forall (fun q => (a <= q)%Q /\ (q <= b)%Q) qs ->
  (inject_Z (Z.of_nat (length qs)) * a <= q_sum qs)%Q /\
  (q_sum qs <= inject_Z (Z.of_nat (length qs)) * b)%Q.
Proof.
  induction 1 as [| q qs [Ha Hb] _ [IHa IHb]].
  - unfold q_sum. cbn [fold_left length].
    change (inject_Z (Z.of_nat 0)) with 0%Q. split; lra.
  - rewrite q_sum_cons. cbn [length].
    rewrite Nat2Z.inj_succ, <- Z.add_1_l, inject_Z_plus.
    change (inject_Z 1) with 1%Q. split; lra.
Qed.

(** The mean of a non-empty list lies between any bounds of its elements. *)
Lemma q_mean_bounds (a b : Q) (qs : list Q) :
  qs <> [] ->
  Forall (fun q => (a <= q)%Q /\ (q <= b)%Q) qs ->
  (a <= q_mean qs)%Q /\ (q_mean qs <= b)%Q.
Proof.
  intros Hne Hf. destruct (q_sum_bounds a b qs Hf) as [Ha Hb].
  assert (Hn : (0 < inject_Z (Z.of_nat (length qs)))%Q).
  { destruct qs; [congruence |]. unfold Qlt. simpl. lia. }
  unfold q_mean. split.
  - apply Qle_shift_div_l; [exact Hn |]. lra.
  - apply Qle_shift_div_r; [exact Hn |]. lra.
Qed.

Lemma values_Forall (P : Q -> Prop) (key : string) (data : list Doc) :
  Forall (fun d => forall q, num_field key d = Some q -> P q) data ->
  Forall P (values key data).
Proof.
  unfold values. induction 1 as [| d data Hd _ IH]; [constructor |].
  cbn [omap list_omap]. destruct (num_field key d) as [q |] eqn:E;
    [constructor; [apply Hd; reflexivity | exact IH] | exact IH].
Qed.

(** *** The product breakdown on complete documents *)

Lemma b64_1 : b64 1 = 1%Q.
Proof. reflexivity. Qed.

Lemma b64_100 : b64 100 = 100%Q.
Proof. reflexivity. Qed.

Lemma b64_10000 : b64 10000 = 10000%Q.
Proof. reflexivity. Qed.

(** A mean of magnitude at most 10000, rounded to a double and then to two
    decimals by numpy. *)
Lemma mean_two_decimals (m : Q) :
  (Qabs m <= 10000)%Q ->
  two_decimals_near (np_round (round64 (Num m)) 2) m.
Proof.
  intros Hm.
  assert (H14 : (Qabs m <= pow2 14)%Q)
    by (change (pow2 14) with 16384%Q; lra).
  pose proof (b64_error m 14 ltac:(lia) H14) as He.
  change (pow2 (14 - 53)) with (1 # 549755813888)%Q in He.
  assert (Hx : (Qabs (b64 m) <= pow2 14)%Q).
  { change (pow2 14) with 16384%Q.
    assert (E : (b64 m == (b64 m - m) + m)%Q) by ring.
    rewrite E. eapply Qle_trans; [apply Qabs_triangle |]. lra. }
  destruct (np_round_2 (b64 m) Hx) as (k & Ek & _ & Hk).
  change (pow2 (-30)) with (1 # 1073741824)%Q in Hk.
  exists k. cbn [round64]. rewrite (fl_Num m 14 ltac:(lia) H14).
  split; [exact Ek |]. unfold slack.
  set (q := b64 (inject_Z k / 100)) in *.
  assert (E : (q - m == (q - b64 m) + (b64 m - m))%Q) by ring.
  rewrite E. eapply Qle_trans; [apply Qabs_triangle |]. lra.
Qed.

(** The failure rate of a mean of flags [m] in [0,1], as lines 222 and 225
    compute it: the mean rounded to a double, the product with 100 rounded
    to a double, and numpy's rounding to two decimals. *)
Lemma failure_rate_two_decimals (m : Q) :
  (0 <= m)%Q -> (m <= 1)%Q ->
  exists k : Z,
    np_round (fl_mul (round64 (Num m)) (Num 100)) 2
    = Num (b64 (inject_Z k / 100)) /\
    0 <= k <= 10000 /\
    (Qabs (b64 (inject_Z k / 100) - 100 * m) <= (1 # 200) + slack)%Q.
Proof.
  intros H0 H1.
  assert (Hm : (Qabs m <= pow2 0)%Q)
    by (rewrite (Qabs_pos m H0); exact H1).
  pose proof (b64_error m 0 ltac:(lia) Hm) as He1.
  change (pow2 (0 - 53)) with (1 # 9007199254740992)%Q in He1.
  pose proof (b64_nonneg m H0) as Hx0.
  pose proof (b64_mono m 1 H0 H1) as Hx1. rewrite b64_1 in Hx1.
  set (x1 := b64 m) in *.
  assert (Hp : (Qabs (x1 * 100) <= pow2 7)%Q).
  { rewrite Qabs_pos by lra. change (pow2 7) with 128%Q. lra. }
  pose proof (b64_error (x1 * 100) 7 ltac:(lia) Hp) as He2.
  change (pow2 (7 - 53)) with (1 # 70368744177664)%Q in He2.
  assert (Hy0 : (0 <= b64 (x1 * 100))%Q) by (apply b64_nonneg; lra).
  assert (Hy1 : (b64 (x1 * 100) <= 100)%Q).
  { apply Qle_trans with (b64 100); [apply b64_mono; lra |].
    rewrite b64_100. apply Qle_refl. }
  set (x2 := b64 (x1 * 100)) in *.
  assert (Hx2 : (Qabs x2 <= pow2 14)%Q).
  { rewrite Qabs_pos by lra. change (pow2 14) with 16384%Q. lra. }
  destruct (np_round_2 x2 Hx2) as (k & Ek & Dk & Hk).
  change (pow2 (-30)) with (1 # 1073741824)%Q in Hk.
  exists k. split; [| split].
  - cbn [round64]. rewrite (fl_Num m 0 ltac:(lia) Hm). fold x1.
    unfold fl_mul. cbn [f_mul round64].
    rewrite (fl_Num (x1 * 100) 7 ltac:(lia) Hp). fold x2. exact Ek.
  - assert (Hz0 : (0 <= b64 (x2 * 100))%Q) by (apply b64_nonneg; lra).
    assert (Hz1 : (b64 (x2 * 100) <= 10000)%Q).
    { apply Qle_trans with (b64 10000); [apply b64_mono; lra |].
      rewrite b64_10000. apply Qle_refl. }
    rewrite Dk. split.
    + rewrite <- (rint_inject_Z 0). apply rint_mono. exact Hz0.
    + rewrite <- (rint_inject_Z 10000). apply rint_mono. exact Hz1.
  - unfold slack. set (q := b64 (inject_Z k / 100)) in *.
    assert (E : (q - 100 * m
                 == (q - x2) + (x2 - x1 * 100) + 100 * (x1 - m))%Q) by ring.
    rewrite E.
    eapply Qle_trans; [apply Qabs_triangle |].
    eapply Qle_trans;
      [apply Qplus_le_compat; [apply Qabs_triangle | apply Qle_refl] |].
    rewrite (Qabs_Qmult 100 (x1 - m)). change (Qabs 100) with 100%Q.
    lra.
Qed.

(** The mean of flags that are 0 or 1 lies in [0,1]. *)
Lemma failure_mean_range (data : list Doc) :
  data <> [] -> Forall complete data ->
  (0 <= q_mean (values "Failure" data))%Q /\
  (q_mean (values "Failure" data) <= 1)%Q.
Proof.
  intros Hne Hc. apply (q_mean_bounds 0 1).
  - intros E. pose proof (complete_values "Failure" data ltac:(simpl; auto) Hc) as Hl.
    rewrite E in Hl. destruct data; [congruence | discriminate Hl].
  - apply values_Forall. rewrite Forall_forall in *. intros d Hd v.
    change (num_field "Failure" d) with (inject_Z <$> Failure d).
    destruct (Hc d Hd) as (_ & [-> | ->] & _); cbn; intros E;
      injection E as <-; split; discriminate.
Qed.

Lemma quality_of_complete (data : list Doc) (t : string) :
  data <> [] -> Forall complete data -> In (Some t) (map Type_ data) ->
  quality_of (pd_DataFrame data) (Some t)
  = Ok {| Quality.count := length (group t data);
          Quality.failure_rate :=
            np_round
              (fl_mul (round64 (Num (q_mean (values "Failure" (group t data)))))
                      (Num 100)) 2;
          Quality.avg_health_score :=
            np_round
              (round64 (Num (q_mean (values "Health score" (group t data))))) 2 |}.
Proof.
  intros Hne Hc Ht.
  pose proof (group_In t data Ht) as Hg.
  pose proof (group_complete t data Hc) as Hgc.
  unfold quality_of. rewrite !col_mean64_eq, select_type_rows.
  cbn [columns select_type].
  rewrite (complete_column "Failure"), (complete_column "Health score")
    by (simpl; auto).
  rewrite !complete_mean by (simpl; auto).
  reflexivity.
Qed.

Lemma params_of_complete (data : list Doc) (t : string) :
  data <> [] -> Forall complete data -> In (Some t) (map Type_ data) ->
  let mean key := round64 (Num (q_mean (values key (group t data)))) in
  params_of (pd_DataFrame data) (Some t)
  = Ok {| Params.air_temperature := np_round (mean "Air temperature") 2;
          Params.process_temperature := np_round (mean "Process temperature") 2;
          Params.rotational_speed := np_round (mean "Rotational speed") 2;
          Params.torque := np_round (mean "Torque") 2;
          Params.tool_wear := np_round (mean "Tool wear") 2 |}.
Proof.
  intros Hne Hc Ht. cbv zeta.
  pose proof (group_In t data Ht) as Hg.
  pose proof (group_complete t data Hc) as Hgc.
  unfold params_of. rewrite !col_mean64_eq, select_type_rows.
  cbn [columns select_type].
  rewrite (complete_column "Air temperature"),
    (complete_column "Process temperature"),
    (complete_column "Rotational speed"),
    (complete_column "Torque"), (complete_column "Tool wear")
    by (simpl; auto 10).
  rewrite !complete_mean by (simpl; auto 10).
  reflexivity.
Qed.

Lemma by_type_complete {V} (data : list Doc)
    (entry : DataFrame -> option string -> result V) (g : string -> V) :
  data <> [] -> Forall complete data ->
  (forall t, In (Some t) (map Type_ data) ->
             entry (pd_DataFrame data) (Some t) = Ok (g t)) ->
  exists m,
    by_type (pd_DataFrame data) entry = Ok m /\
    forall t,
      m !! Some t = match group t data with
                    | [] => None
                    | _ :: _ => Some (g t)
                    end.
Proof.
  intros Hne Hc He. unfold by_type, getitem_Type.
  rewrite (complete_column_Type data Hne Hc). cbn [bind rows pd_DataFrame].
  destruct (for_each_insert (entry (pd_DataFrame data))
              (fun k => g (default "" k)) (unique (map Type_ data))) with (m0 := (∅ : gmap (option string) V))
    as (m & E & Hin & Hout).
  { intros k Hk. apply (proj1 (unique_In _ _)) in Hk.
    destruct k as [t |]; [apply He, Hk |].
    apply in_map_iff in Hk as (d & Ed & Hd).
    rewrite Forall_forall in Hc. apply list_elem_of_In in Hd.
    destruct (Hc d Hd) as ([t Et] & _). congruence. }
  exists m. split; [exact E |].
  intros t. destruct (group t data) as [| d g0] eqn:Eg.
  - rewrite Hout; [apply lookup_empty |].
    rewrite unique_In. intros H. apply group_In in H. congruence.
  - rewrite Hin; [reflexivity |].
    rewrite unique_In. apply in_map_iff.
    assert (Hd : d ∈ group t data) by (rewrite Eg; left).
    unfold group in Hd. apply list_elem_of_filter in Hd as [Ht Hd].
    exists d. split; [exact Ht | apply list_elem_of_In, Hd].
Qed.

Lemma group_plausible (t : string) (data : list Doc) :
  Forall plausible data -> Forall plausible (group t data).
Proof.
  intros H. unfold group. rewrite Forall_forall in *.
  intros d Hd. apply list_elem_of_filter in Hd as [_ Hd]. apply H, Hd.
Qed.

(** The mean of plausible readings has magnitude at most 10000. *)
Lemma plausible_mean (key : string) (data : list Doc) :
  In key ("Health score" :: channels) ->
  data <> [] -> Forall complete data -> Forall plausible data ->
  (Qabs (q_mean (values key data)) <= 10000)%Q.
Proof.
  intros Hin Hne Hc Hp.
  assert (Hk : In key numeric_keys) by (right; exact Hin).
  assert (Hv : values key data <> []).
  { intros E. pose proof (complete_values key data Hk Hc) as Hl.
    rewrite E in Hl. destruct data; [congruence | discriminate Hl]. }
  assert (Hf : Forall (fun q => (- (10000) <= q)%Q /\ (q <= 10000)%Q)
                      (values key data)).
  { apply values_Forall. rewrite Forall_forall in *. intros d Hd q Eq.
    destruct (Hp d Hd) as [Hh Hch].
    destruct Hin as [<- | Hin].
    - destruct (Hh q Eq). split; lra.
    - apply Qabs_Qle_condition. apply (Hch key q Hin Eq). }
  destruct (q_mean_bounds _ _ _ Hv Hf) as [Hl Hu].
  apply Qabs_Qle_condition. split; assumption.
Qed.

(** C6, as the code has it.  For a machine whose collection holds at most
    100000 complete documents with plausible readings, the product analysis
    works on the whole collection and returns, for every product type that
    occurs, the number of its documents and, each to two decimals: its
    failure rate, 100 times the number of failed documents over the number
    of its documents; its mean health score; and the mean of each of the
    five channels.  "To two decimals" is numpy's rounding of the double:
    the double nearest to a number of two decimals within 0.005, and the
    margin [slack], of the exact value.  A type that does not occur has no
    entry. *)
Theorem product_breakdown_by_type (db : Database) (lathe_id : Z)
    (data : list Doc) :
  db !! collection_name lathe_id = Some data ->
  data <> [] ->
  Forall complete data ->
  Forall plausible data ->
  Z.of_nat (length data) <= 100000 ->
  exists r,
    get_lathe_product_analysis db lathe_id = Ok r /\
    forall t : string,
      let g := group t data in
      (g = [] ->
       ProductAnalysis.product_types r !! t = None /\
       ProductAnalysis.product_quality r !! Some t = None /\
       ProductAnalysis.params_by_type r !! Some t = None) /\
      (g <> [] ->
       ProductAnalysis.product_types r !! t = Some (Z.of_nat (length g)) /\
       exists q p,
         ProductAnalysis.product_quality r !! Some t = Some q /\
         ProductAnalysis.params_by_type r !! Some t = Some p /\
         Quality.count q = length g /\
         two_decimals_near (Quality.failure_rate q)
           (100 * (inject_Z (Z.of_nat (failed_count g))
                   / inject_Z (Z.of_nat (length g)))) /\
         two_decimals_near (Quality.avg_health_score q)
           (q_mean (values "Health score" g)) /\
         two_decimals_near (Params.air_temperature p)
           (q_mean (values "Air temperature" g)) /\
         two_decimals_near (Params.process_temperature p)
           (q_mean (values "Process temperature" g)) /\
         two_decimals_near (Params.rotational_speed p)
           (q_mean (values "Rotational speed" g)) /\
         two_decimals_near (Params.torque p)
           (q_mean (values "Torque" g)) /\
         two_decimals_near (Params.tool_wear p)
           (q_mean (values "Tool wear" g))).
Proof.
  intros Hdb Hne Hc Hp _.
  unfold get_lathe_product_analysis. rewrite Hdb.
  destruct data as [| d0 data0] eqn:Ed; [congruence |]. rewrite <- Ed in *.
  clear Ed d0 data0.
  unfold product_analysis. rewrite product_types_of_eq.
  rewrite (complete_column_Type data Hne Hc).
  rewrite (complete_column "Failure" data) by (simpl; auto).
  cbn [bind andb rows pd_DataFrame].
  destruct (by_type_complete data quality_of _ Hne Hc
              (fun t => quality_of_complete data t Hne Hc)) as (mq & -> & Hq).
  destruct (by_type_complete data params_of _ Hne Hc
              (fun t => params_of_complete data t Hne Hc)) as (mp & -> & Hpa).
  cbn [bind]. eexists. split; [reflexivity |].
  intros t.
  cbn [ProductAnalysis.product_types ProductAnalysis.product_quality
       ProductAnalysis.params_by_type].
  rewrite value_counts_lookup, Hq, Hpa.
  pose proof (group_complete t data Hc) as Hgc.
  pose proof (group_plausible t data Hp) as Hgp.
  destruct (group t data) as [| d g0] eqn:Eg; split; intros H; try congruence;
    [repeat split; reflexivity |].
  split; [reflexivity |]. eexists. eexists.
  split; [reflexivity |]. split; [reflexivity |].
  cbn [Quality.count Quality.failure_rate Quality.avg_health_score
       Params.air_temperature Params.process_temperature
       Params.rotational_speed Params.torque Params.tool_wear].
  split; [reflexivity |].
  split.
  { destruct (failure_mean_range (d :: g0) H Hgc) as [H0 H1].
    destruct (failure_rate_two_decimals _ H0 H1) as (k & Ek & _ & Hk).
    exists k. split; [exact Ek |].
    rewrite <- (failure_rate_eq (d :: g0) Hgc).
    rewrite (Qmult_comm (q_mean _) 100). exact Hk. }
  repeat split; apply mean_two_decimals;
    apply (plausible_mean _ (d :: g0)); try assumption; simpl; auto 10.
Qed.

Lemma product_breakdown_by_type_witness :
  db_fleet !! collection_name 2 = Some history_m2 /\
  history_m2 <> [] /\
  Forall complete history_m2 /\
  Forall plausible history_m2 /\
  Z.of_nat (length history_m2) <= 100000 /\
  exists r,
    get_lathe_product_analysis db_fleet 2 = Ok r /\
    ProductAnalysis.product_types r !! "M" = Some 1.
Proof.
  assert (H1 : db_fleet !! collection_name 2 = Some history_m2) by reflexivity.
  assert (H2 : history_m2 <> []) by discriminate.
  assert (H3 : Forall complete history_m2).
  { unfold history_m2.
    repeat (apply Forall_cons; split); [| | apply Forall_nil];
      unfold complete, sample; cbn; repeat split; eauto. }
  assert (H4 : Forall plausible history_m2).
  { unfold history_m2.
    apply Forall_cons; split; [| apply Forall_cons; split; [| constructor]];
      (split;
       [intros h E; injection E as <-; split; discriminate
       | intros key q Hk E; simpl in Hk;
         repeat (destruct Hk as [<- | Hk];
                 [injection E as <-; discriminate |]);
         destruct Hk]). }
  assert (H5 : Z.of_nat (length history_m2) <= 100000) by (simpl; lia).
  split; [exact H1 |]. split; [exact H2 |]. split; [exact H3 |].
  split; [exact H4 |]. split; [exact H5 |].
  destruct (product_breakdown_by_type db_fleet 2 history_m2 H1 H2 H3 H4 H5)
    as (r & E & H).
  exists r. split; [exact E |].
  destruct (H "M") as [_ Hm].
  assert (Hg : group "M" history_m2 <> []) by (vm_compute; discriminate).
  destruct (Hm Hg) as (Hc & _). exact Hc.
Defined.

(** C6, as stated, fails: the failure rate is not the exact quotient
    rounded.  Of 160 documents of one type 23 are failed; 100 * 23 / 160 is
    14.375, which rounds to 14.38, but the double product is just below
    14.375 and the operation returns the double written 14.37. *)
Lemma product_breakdown_tie :
  length history_160 = 160%nat /\
  failed_count history_160 = 23%nat /\
  Forall complete history_160 /\
  (100 * (23 / 160) == 14375 # 1000)%Q /\
  (round_q (100 * (23 / 160)) 2 == 1438 # 100)%Q /\
  exists r q,
    get_lathe_product_analysis db_160 1 = Ok r /\
    ProductAnalysis.product_quality r !! Some "L" = Some q /\
    Quality.count q = 160%nat /\
    Quality.failure_rate q = Num (b64 (1437 # 100)) /\
    (b64 (1437 # 100) < (1438 # 100) - (1 # 200))%Q.
Proof.
  split; [reflexivity |]. split; [reflexivity |].
  split.
  { unfold history_160. apply Forall_app. split; apply Forall_replicate;
      unfold complete, sample; cbn; repeat split; eauto. }
  split; [reflexivity |]. split; [reflexivity |].
  eexists. eexists.
  split; [vm_compute; reflexivity |].
  split; [vm_compute; reflexivity |].
  split; [reflexivity |].
  split; [vm_compute; reflexivity | vm_compute; reflexivity].
Qed.

(** *** Order of the documents *)

(** C7 fails on the code.  The two windows hold the same two documents, one
    of them without a vibration value.  The sensor operation reports for
    "vibration" the minimum and maximum NaN when that document comes first,
    and 12 when it comes second: the builtin [min] and [max] keep a leading
    NaN and skip a later one. *)
Theorem sensor_stats_depend_on_order :
  window db_partial 1 100 = window_partial /\
  Permutation window_partial window_partial_swapped /\
  exists r1 r2,
    get_lathe_sensor_data db_partial 1 = Ok r1 /\
    sensor 1 window_partial = Ok r1 /\
    sensor 1 window_partial_swapped = Ok r2 /\
    SensorData.stats r1 !! "vibration"
    = Some {| Stats.min := NaN; Stats.max := NaN; Stats.avg := NaN |} /\
    SensorData.stats r2 !! "vibration"
    = Some {| Stats.min := Num (1200 # 100); Stats.max := Num (1200 # 100);
              Stats.avg := NaN |}.
Proof.
  split; [reflexivity |].
  split; [apply perm_swap |].
  eexists. eexists.
  split; [vm_compute; reflexivity |].
  split; [vm_compute; reflexivity |].
  split; [vm_compute; reflexivity |].
  split; reflexivity.
Qed.

(** *** The detail operation, unfolded *)

(** What the detail operation returns or raises, column by column. *)
Lemma details_unfold (lathe_id : Z) (data : list Doc) :
  details lathe_id data
  = let df := pd_DataFrame data in
    let mean key := py_round (pd_mean (cells key data)) 1 in
    if negb (columns df "Health score") then Raise (KeyError "Health score")
    else if negb (columns df "Air temperature")
    then Raise (KeyError "Air temperature")
    else if negb (columns df "Process temperature")
    then Raise (KeyError "Process temperature")
    else if negb (columns df "Rotational speed")
    then Raise (KeyError "Rotational speed")
    else if negb (columns df "Torque") then Raise (KeyError "Torque")
    else if negb (columns df "Tool wear") then Raise (KeyError "Tool wear")
    else
      Ok {| LatheDetails.lathe_id := lathe_id;
            LatheDetails.name := display_name lathe_id;
            LatheDetails.health_score := mean "Health score";
            LatheDetails.uptime :=
              py_round (if columns df "Uptime"
                        then pd_mean (cells "Uptime" data) else Num 0) 1;
            LatheDetails.status :=
              status_of (pd_mean (cells "Health score" data));
            LatheDetails.air_temperature := mean "Air temperature";
            LatheDetails.process_temperature := mean "Process temperature";
            LatheDetails.rotational_speed := mean "Rotational speed";
            LatheDetails.torque := mean "Torque";
            LatheDetails.tool_wear := mean "Tool wear";
            LatheDetails.vibration :=
              if columns df "Vibration" then Some (mean "Vibration") else None;
            LatheDetails.failure_count :=
              q_trunc (q_sum (values "Failure" data));
            LatheDetails.product_types :=
              if columns df "Type" then value_counts (map Type_ data) else ∅ |}.
Proof.
  unfold details.
  rewrite !col_mean_eq, avg_uptime_of_eq, product_types_of_eq,
    failure_count_of_eq, vibration_of_eq.
  cbv zeta.
  destruct (columns (pd_DataFrame data) "Health score"); [| reflexivity].
  destruct (columns (pd_DataFrame data) "Air temperature"); [| reflexivity].
  destruct (columns (pd_DataFrame data) "Process temperature"); [| reflexivity].
  destruct (columns (pd_DataFrame data) "Rotational speed"); [| reflexivity].
  destruct (columns (pd_DataFrame data) "Torque"); [| reflexivity].
  destruct (columns (pd_DataFrame data) "Tool wear"); reflexivity.
Qed.

(** *** Least and greatest values *)

Lemma q_trunc_comp (x y : Q) : (x == y)%Q -> q_trunc x = q_trunc y.
Proof.
  intros E. unfold q_trunc.
  rewrite (Qfloor_comp x y E), (Qceiling_comp x y E).
  assert (Hb : Qle_bool 0 x = Qle_bool 0 y).
  { destruct (Qle_bool 0 x) eqn:Ex, (Qle_bool 0 y) eqn:Ey; try reflexivity.
    - apply Qle_bool_iff in Ex. rewrite E in Ex. apply Qle_bool_iff in Ex.
      congruence.
    - apply Qle_bool_iff in Ey. rewrite <- E in Ey. apply Qle_bool_iff in Ey.
      congruence. }
  rewrite Hb. reflexivity.
Qed.

Lemma fold_min_Num (qs : list Q) (x : Q) :
  fold_left (fun cur item => if f_lt item cur then item else cur)
            (map Num qs) (Num x)
  = Num (q_min x qs).
Proof.
  unfold q_min. revert x; induction qs as [| q qs IH]; intros x;
    [reflexivity |].
  cbn [map fold_left f_lt]. destruct (q ?= x)%Q; apply IH.
Qed.

Lemma fold_max_Num (qs : list Q) (x : Q) :
  fold_left (fun cur item => if f_gt item cur then item else cur)
            (map Num qs) (Num x)
  = Num (q_max x qs).
Proof.
  unfold q_max. revert x; induction qs as [| q qs IH]; intros x;
    [reflexivity |].
  cbn [map fold_left f_gt f_lt]. destruct (x ?= q)%Q; apply IH.
Qed.

(** [q_min] returns an element that is below every element. *)
Lemma q_min_spec (qs : list Q) (x : Q) :
  In (q_min x qs) (x :: qs) /\
  forall y, In y (x :: qs) -> (q_min x qs <= y)%Q.
Proof.
  unfold q_min. revert x; induction qs as [| q qs IH]; intros x.
  - split; [left; reflexivity |].
    intros y [<- | []]. apply Qle_refl.
  - cbn [fold_left].
    destruct (q ?= x)%Q eqn:E.
    + apply Qeq_alt in E. destruct (IH x) as [Hin Hle]. split.
      * destruct Hin as [Hin | Hin]; [left; exact Hin | right; right; exact Hin].
      * intros y [<- | [<- | Hy]].
        -- apply Hle. left. reflexivity.
        -- rewrite E. apply Hle. left. reflexivity.
        -- apply Hle. right. exact Hy.
    + apply Qlt_alt in E. destruct (IH q) as [Hin Hle]. split.
      * right. exact Hin.
      * intros y [<- | [<- | Hy]].
        -- apply Qle_trans with q; [apply Hle; left; reflexivity |].
           apply Qlt_le_weak, E.
        -- apply Hle. left. reflexivity.
        -- apply Hle. right. exact Hy.
    + apply Qgt_alt in E. destruct (IH x) as [Hin Hle]. split.
      * destruct Hin as [Hin | Hin]; [left; exact Hin | right; right; exact Hin].
      * intros y [<- | [<- | Hy]].
        -- apply Hle. left. reflexivity.
        -- apply Qle_trans with x; [apply Hle; left; reflexivity |].
           apply Qlt_le_weak, E.
        -- apply Hle. right. exact Hy.
Qed.

Lemma q_max_spec (qs : list Q) (x : Q) :
  In (q_max x qs) (x :: qs) /\
  forall y, In y (x :: qs) -> (y <= q_max x qs)%Q.
Proof.
  unfold q_max. revert x; induction qs as [| q qs IH]; intros x.
  - split; [left; reflexivity |].
    intros y [<- | []]. apply Qle_refl.
  - cbn [fold_left].
    destruct (x ?= q)%Q eqn:E.
    + apply Qeq_alt in E. destruct (IH x) as [Hin Hle]. split.
      * destruct Hin as [Hin | Hin]; [left; exact Hin | right; right; exact Hin].
      * intros y [<- | [<- | Hy]].
        -- apply Hle. left. reflexivity.
        -- rewrite <- E. apply Hle. left. reflexivity.
        -- apply Hle. right. exact Hy.
    + apply Qlt_alt in E. destruct (IH q) as [Hin Hle]. split.
      * right. exact Hin.
      * intros y [<- | [<- | Hy]].
        -- apply Qle_trans with q; [apply Qlt_le_weak, E |].
           apply Hle. left. reflexivity.
        -- apply Hle. left. reflexivity.
        -- apply Hle. right. exact Hy.
    + apply Qgt_alt in E. destruct (IH x) as [Hin Hle]. split.
      * destruct Hin as [Hin | Hin]; [left; exact Hin | right; right; exact Hin].
      * intros y [<- | [<- | Hy]].
        -- apply Hle. left. reflexivity.
        -- apply Qle_trans with x; [apply Qlt_le_weak, E |].
           apply Hle. left. reflexivity.
        -- apply Hle. right. exact Hy.
Qed.

(** When the nominal torque and the torque of a row are both 0, numpy's
    [0 / 0] makes the score NaN: the hypotheses on the nominal values are
    needed. *)
Remark health_score_zero_nominal :
  Generator.health_score
    {| Generator.speed := Num 1500; Generator.torque := Num 0;
       Generator.wear_max := Num 200; Generator.temp_shift := Num 10 |}
    {| Generator.Air_temperature := 300; Generator.Rotational_speed := 1500;
       Generator.Torque := 0; Generator.Tool_wear := 0 |}
  = NaN.
Proof. reflexivity. Qed.

(** * Further properties of the code *)

(** ** Ranges of the reported means *)


Lemma column_values_nonempty (key : string) (data : list Doc) :
  String.eqb key "Type" = false ->
  String.eqb key "timestamp" = false ->
  columns (pd_DataFrame data) key = true -> values key data <> [].
Proof.
  intros HT Ht Hc E. rewrite columns_values in Hc by assumption.
  rewrite E in Hc. discriminate Hc.
Qed.

(** The rounded mean of a column whose values lie in [0,100]. *)
Lemma rounded_mean_in_range (key : string) (data : list Doc) (ndigits : nat) :
  String.eqb key "Type" = false ->
  String.eqb key "timestamp" = false ->
  columns (pd_DataFrame data) key = true ->
  Forall (fun d => forall q, num_field key d = Some q ->
                             (0 <= q)%Q /\ (q <= 100)%Q) data ->
  exists m, py_round (pd_mean (cells key data)) ndigits = Num m /\
            (0 <= m)%Q /\ (m <= 100)%Q.
Proof.
  intros HT Ht Hc Hr.
  rewrite (column_mean_Num key data HT Ht Hc). cbn [py_round].
  eexists. split; [reflexivity |].
  apply (round_q_between 0 100).
  - apply (q_mean_bounds 0 100);
      [apply column_values_nonempty; assumption | apply values_Forall, Hr].
  - apply (q_mean_bounds 0 100);
      [apply column_values_nonempty; assumption | apply values_Forall, Hr].
Qed.

(** X1.  When every health score and every uptime stored in a window lies
    in [0,100], so do the health score and the uptime that the summary
    operation reports for it, and those that the detail operation reports
    for it: averaging and rounding to one decimal do not leave the
    range. *)
Theorem reported_scores_in_range (i : Z) (data : list Doc) :
  has_columns ["Health score"] data ->
  Forall (fun d => forall h, Health_score d = Some h ->
                             (0 <= h)%Q /\ (h <= 100)%Q) data ->
  Forall (fun d => forall u, Uptime d = Some u ->
                             (0 <= u)%Q /\ (u <= 100)%Q) data ->
  (exists s h u,
     summarize i data = Ok s /\
     LatheSummary.health_score s = Num h /\ (0 <= h)%Q /\ (h <= 100)%Q /\
     LatheSummary.uptime s = Num u /\ (0 <= u)%Q /\ (u <= 100)%Q) /\
  (has_columns channels data ->
   exists r h u,
     details i data = Ok r /\
     LatheDetails.health_score r = Num h /\ (0 <= h)%Q /\ (h <= 100)%Q /\
     LatheDetails.uptime r = Num u /\ (0 <= u)%Q /\ (u <= 100)%Q).
Proof.
  intros Hh Hr Hu.
  assert (Hc : columns (pd_DataFrame data) "Health score" = true).
  { apply Forall_cons in Hh as [Hh _]. exact Hh. }
  destruct (rounded_mean_in_range "Health score" data 1 eq_refl eq_refl Hc Hr)
    as (h & Eh & Hh0 & Hh1).
  assert (Eu : exists u,
             py_round (if columns (pd_DataFrame data) "Uptime"
                       then pd_mean (cells "Uptime" data) else Num 0) 1 = Num u /\
             (0 <= u)%Q /\ (u <= 100)%Q).
  { destruct (columns (pd_DataFrame data) "Uptime") eqn:Ec.
    - apply (rounded_mean_in_range "Uptime" data 1 eq_refl eq_refl Ec Hu).
    - eexists. split; [reflexivity |]. split; discriminate. }
  destruct Eu as (u & Eu & Hu0 & Hu1).
  split.
  - eexists. exists h, u. split; [rewrite summarize_eq, Hc; reflexivity |].
    cbn [LatheSummary.health_score LatheSummary.uptime].
    repeat (split; [assumption |]). assumption.
  - intros Hch. eexists. exists h, u. split.
    + apply details_eq. apply Forall_cons. split; assumption.
    + cbn [LatheDetails.health_score LatheDetails.uptime].
      repeat (split; [assumption |]). assumption.
Qed.

Lemma reported_scores_in_range_witness :
  exists s h u,
    summarize 2 history_m2 = Ok s /\
    LatheSummary.health_score s = Num h /\ (0 <= h)%Q /\ (h <= 100)%Q /\
    LatheSummary.uptime s = Num u /\ (0 <= u)%Q /\ (u <= 100)%Q.
Proof.
  assert (H1 : has_columns ["Health score"] history_m2) by (repeat constructor).
  assert (H2 : Forall (fun d => forall h, Health_score d = Some h ->
                                          (0 <= h)%Q /\ (h <= 100)%Q) history_m2).
  { repeat constructor; injection H as <-; discriminate. }
  assert (H3 : Forall (fun d => forall u, Uptime d = Some u ->
                                          (0 <= u)%Q /\ (u <= 100)%Q) history_m2).
  { repeat constructor; injection H as <-; discriminate. }
  destruct (reported_scores_in_range 2 history_m2 H1 H2 H3) as [H _].
  exact H.
Defined.

(** ** What the operations raise *)

Lemma details_raise (lathe_id : Z) (data : list Doc) (e : exn) :
  details lathe_id data = Raise e -> exists k, e = KeyError k.
Proof.
  rewrite details_unfold. cbv zeta.
  repeat match goal with
         | |- context [if negb ?c then _ else _] =>
             destruct c; cbn [negb];
             [| intros H; injection H as <-; eexists; reflexivity]
         end.
  discriminate.
Qed.

(** What a successful sensor operation holds under each key. *)
Lemma sensor_ok_lookup (lathe_id : Z) (data : list Doc) (r : SensorData.t) :
  sensor lathe_id data = Ok r ->
  forall k,
    (forall key, In (k, key) (sensor_items data) ->
       SensorData.sensor_data r !! k = Some (cells key data) /\
       exists st, stats_of (cells key data) = Ok st /\
                  SensorData.stats r !! k = Some st) /\
    (~ In k (map fst (sensor_items data)) ->
       SensorData.sensor_data r !! k = None /\
       SensorData.stats r !! k = None).
Proof.
  unfold sensor, sensor_items. rewrite !getitem_eq.
  cbn [rows pd_DataFrame].
  destruct (columns (pd_DataFrame data) "Air temperature"); [| discriminate].
  destruct (columns (pd_DataFrame data) "Process temperature"); [| discriminate].
  destruct (columns (pd_DataFrame data) "Rotational speed"); [| discriminate].
  destruct (columns (pd_DataFrame data) "Torque"); [| discriminate].
  destruct (columns (pd_DataFrame data) "Tool wear"); [| discriminate].
  destruct (columns (pd_DataFrame data) "Vibration");
    cbn [bind for_each fst snd app];
    destruct (stats_of (cells "Air temperature" data)) as [s1 |] eqn:E1;
      [| discriminate | | discriminate];
    destruct (stats_of (cells "Process temperature" data)) as [s2 |] eqn:E2;
      [| discriminate | | discriminate];
    destruct (stats_of (cells "Rotational speed" data)) as [s3 |] eqn:E3;
      [| discriminate | | discriminate];
    destruct (stats_of (cells "Torque" data)) as [s4 |] eqn:E4;
      [| discriminate | | discriminate];
    destruct (stats_of (cells "Tool wear" data)) as [s5 |] eqn:E5;
      [| discriminate | | discriminate]; cbn [bind].
  - destruct (stats_of (cells "Vibration" data)) as [s6 |] eqn:E6;
      [| discriminate]; cbn [bind].
    intros H; injection H as <-. intros k.
    cbn [SensorData.sensor_data SensorData.stats]. split.
    + intros key Hin. simpl in Hin.
      repeat (destruct Hin as [Hin | Hin];
              [injection Hin as <- <-;
               split; [reflexivity | eexists; split; [eassumption | reflexivity]] |]).
      destruct Hin.
    + intros Hk. simpl in Hk. cbn [list_to_map foldr].
      rewrite !lookup_insert_ne by (intros <-; apply Hk; tauto).
      split; apply lookup_empty.
  - intros H; injection H as <-. intros k.
    cbn [SensorData.sensor_data SensorData.stats]. split.
    + intros key Hin. simpl in Hin.
      repeat (destruct Hin as [Hin | Hin];
              [injection Hin as <- <-;
               split; [reflexivity | eexists; split; [eassumption | reflexivity]] |]).
      destruct Hin.
    + intros Hk. simpl in Hk. cbn [list_to_map foldr].
      rewrite !lookup_insert_ne by (intros <-; apply Hk; tauto).
      split; apply lookup_empty.
Qed.

Lemma sensor_raise (lathe_id : Z) (d : Doc) (data : list Doc) (e : exn) :
  sensor lathe_id (d :: data) = Raise e -> exists k, e = KeyError k.
Proof.
  unfold sensor. rewrite !getitem_eq. cbn [rows pd_DataFrame].
  destruct (columns (pd_DataFrame (d :: data)) "Air temperature");
    [| intros H; injection H as <-; eexists; reflexivity].
  destruct (columns (pd_DataFrame (d :: data)) "Process temperature");
    [| intros H; injection H as <-; eexists; reflexivity].
  destruct (columns (pd_DataFrame (d :: data)) "Rotational speed");
    [| intros H; injection H as <-; eexists; reflexivity].
  destruct (columns (pd_DataFrame (d :: data)) "Torque");
    [| intros H; injection H as <-; eexists; reflexivity].
  destruct (columns (pd_DataFrame (d :: data)) "Tool wear");
    [| intros H; injection H as <-; eexists; reflexivity].
  destruct (stats_of_cells "Air temperature" d data) as [s1 E1].
  destruct (stats_of_cells "Process temperature" d data) as [s2 E2].
  destruct (stats_of_cells "Rotational speed" d data) as [s3 E3].
  destruct (stats_of_cells "Torque" d data) as [s4 E4].
  destruct (stats_of_cells "Tool wear" d data) as [s5 E5].
  destruct (stats_of_cells "Vibration" d data) as [s6 E6].
  destruct (columns (pd_DataFrame (d :: data)) "Vibration");
    cbn [bind for_each fst snd app];
    rewrite E1, E2, E3, E4, E5, ?E6; cbn [bind]; rewrite ?E6; cbn [bind];
    discriminate.
Qed.

Lemma for_each_insert_raise {V} (entry : option string -> result V)
    (P : exn -> Prop) (keys : list (option string)) :
  (forall k e, entry k = Raise e -> P e) ->
  forall (m0 : gmap (option string) V) e,
    for_each keys (fun d k => let* x := entry k in Ok (<[k := x]> d)) m0
    = Raise e -> P e.
Proof.
  intros He. induction keys as [| k keys IH]; intros m0 e; cbn [for_each];
    [discriminate |].
  destruct (entry k) as [x |] eqn:E; cbn [bind].
  - apply IH.
  - intros H; injection H as <-. apply (He k), E.
Qed.

Lemma col_mean64_raise (df : DataFrame) (key : string) (e : exn) :
  col_mean64 df key = Raise e -> e = KeyError key.
Proof.
  rewrite col_mean64_eq. destruct (columns df key); [discriminate |].
  intros H; injection H as <-. reflexivity.
Qed.

Lemma quality_of_raise (df : DataFrame) (k : option string) (e : exn) :
  quality_of df k = Raise e -> exists key, e = KeyError key.
Proof.
  unfold quality_of.
  destruct (col_mean64 (select_type df k) "Failure") eqn:E1; cbn [bind];
    [| intros H; injection H as <-; apply col_mean64_raise in E1; eauto].
  destruct (columns df "Health score"); cbn [bind]; [| discriminate].
  destruct (col_mean64 (select_type df k) "Health score") eqn:E2; cbn [bind];
    [discriminate |].
  intros H; injection H as <-. apply col_mean64_raise in E2. eauto.
Qed.

Lemma params_of_raise (df : DataFrame) (k : option string) (e : exn) :
  params_of df k = Raise e -> exists key, e = KeyError key.
Proof.
  unfold params_of.
  repeat match goal with
         | |- context [bind (col_mean64 ?d ?key) _] =>
             let E := fresh "E" in
             destruct (col_mean64 d key) eqn:E; cbn [bind];
             [| intros H; injection H as <-; apply col_mean64_raise in E; eauto]
         end.
  discriminate.
Qed.

Lemma by_type_raise {V} (df : DataFrame)
    (entry : DataFrame -> option string -> result V) (e : exn) :
  (forall k e, entry df k = Raise e -> exists key, e = KeyError key) ->
  by_type df entry = Raise e -> exists key, e = KeyError key.
Proof.
  intros He. unfold by_type, getitem_Type.
  destruct (columns df "Type"); cbn [bind];
    [| intros H; injection H as <-; eauto].
  apply (for_each_insert_raise (entry df) (fun e => exists key, e = KeyError key)).
  exact He.
Qed.

Lemma product_analysis_raise (lathe_id : Z) (data : list Doc) (e : exn) :
  product_analysis lathe_id data = Raise e -> exists key, e = KeyError key.
Proof.
  unfold product_analysis. rewrite product_types_of_eq. cbn [bind].
  destruct (columns (pd_DataFrame data) "Type" && columns (pd_DataFrame data) "Failure").
  - destruct (by_type (pd_DataFrame data) quality_of) eqn:E1; cbn [bind];
      [| intros H; injection H as <-;
         apply (by_type_raise _ _ _ (quality_of_raise _) E1)].
    destruct (columns (pd_DataFrame data) "Type"); cbn [bind]; [| discriminate].
    destruct (by_type (pd_DataFrame data) params_of) eqn:E2; cbn [bind];
      [discriminate |].
    intros H; injection H as <-.
    apply (by_type_raise _ _ _ (params_of_raise _) E2).
  - cbn [bind].
    destruct (columns (pd_DataFrame data) "Type"); cbn [bind]; [| discriminate].
    destruct (by_type (pd_DataFrame data) params_of) eqn:E2; cbn [bind];
      [discriminate |].
    intros H; injection H as <-.
    apply (by_type_raise _ _ _ (params_of_raise _) E2).
Qed.

(** X3.  The three per-machine operations end in an HTTP error exactly
    when the machine has no data (no collection, or an empty one), and the
    status code is then 404; on a machine with data they never answer
    not-found, whatever keys its documents lack. *)
Theorem http_error_iff_no_data (db : Database) (lathe_id : Z) :
  let no_data :=
    db !! collection_name lathe_id = None \/
    db !! collection_name lathe_id = Some [] in
  ((exists code detail,
      get_lathe_details db lathe_id = Raise (HTTPException code detail))
   <-> no_data) /\
  ((exists code detail,
      get_lathe_sensor_data db lathe_id = Raise (HTTPException code detail))
   <-> no_data) /\
  ((exists code detail,
      get_lathe_product_analysis db lathe_id
      = Raise (HTTPException code detail))
   <-> no_data) /\
  (forall code detail,
     get_lathe_details db lathe_id = Raise (HTTPException code detail) \/
     get_lathe_sensor_data db lathe_id = Raise (HTTPException code detail) \/
     get_lathe_product_analysis db lathe_id
     = Raise (HTTPException code detail) ->
     code = 404).
Proof.
  intros no_data. subst no_data.
  unfold get_lathe_details, get_lathe_sensor_data, get_lathe_product_analysis.
  destruct (db !! collection_name lathe_id) as [collection |].
  - destruct collection as [| d0 l0] eqn:Ec.
    + rewrite find_recent_nil.
      repeat split; try (intros _; eauto); try (intros _; do 2 eexists; reflexivity).
      intros code detail [H | [H | H]]; injection H as <- _; reflexivity.
    + assert (Hw : find_recent (d0 :: l0) 100 <> []).
      { intros E. apply find_recent_nil_iff in E. discriminate E. }
      destruct (find_recent (d0 :: l0) 100) as [| d data]; [congruence |].
      repeat split.
      * intros (code & detail & H). apply details_raise in H as [k H].
        discriminate H.
      * intros [H | H]; discriminate H.
      * intros (code & detail & H). apply sensor_raise in H as [k H].
        discriminate H.
      * intros [H | H]; discriminate H.
      * intros (code & detail & H). apply product_analysis_raise in H as [k H].
        discriminate H.
      * intros [H | H]; discriminate H.
      * intros code detail [H | [H | H]].
        -- apply details_raise in H as [k H]. discriminate H.
        -- apply sensor_raise in H as [k H]. discriminate H.
        -- apply product_analysis_raise in H as [k H]. discriminate H.
  - repeat split; try (intros _; eauto); try (intros _; do 2 eexists; reflexivity).
    intros code detail [H | [H | H]]; injection H as <- _; reflexivity.
Qed.

(** ** The shape of the sensor response *)

Lemma sensor_items_key (k : string) (data : list Doc) :
  In k (map fst (sensor_items data)) ->
  exists key, In (k, key) (sensor_items data).
Proof.
  intros H. apply in_map_iff in H as ([k' key] & <- & H). exists key. exact H.
Qed.

Lemma find_recent_length (collection : list Doc) (n : nat) :
  (length (find_recent collection n) <= n)%nat.
Proof. unfold find_recent. rewrite length_take. lia. Qed.

(** X4.  In a sensor response every list of values has one entry per
    document of the window, so between 1 and 100 entries; the statistics
    cover exactly the keys that have a list of values; the five channels are
    always among them, and "vibration" is when some document of the window
    has a vibration value. *)
Theorem sensor_response_shape (db : Database) (lathe_id : Z)
    (r : SensorData.t) :
  get_lathe_sensor_data db lathe_id = Ok r ->
  let w := window db lathe_id 100 in
  (1 <= length w <= 100)%nat /\
  (forall k values,
     SensorData.sensor_data r !! k = Some values -> length values = length w) /\
  (forall k,
     is_Some (SensorData.stats r !! k)
     <-> is_Some (SensorData.sensor_data r !! k)) /\
  Forall (fun k => is_Some (SensorData.sensor_data r !! k))
    ["air_temperature"; "process_temperature"; "rotational_speed"; "torque";
     "tool_wear"] /\
  (is_Some (SensorData.sensor_data r !! "vibration")
   <-> Exists (fun d => is_Some (Vibration d)) w).
Proof.
  unfold get_lathe_sensor_data, window.
  destruct (db !! collection_name lathe_id) as [collection |]; [| discriminate].
  pose proof (find_recent_length collection 100) as Hlen.
  destruct (find_recent collection 100) as [| d data] eqn:Ew; [discriminate |].
  rewrite <- Ew in *. set (w := find_recent collection 100) in *.
  intros Hs. cbv zeta.
  pose proof (sensor_ok_lookup lathe_id w r Hs) as Hl.
  split; [rewrite Ew in *; cbn [length] in *; lia |].
  split; [| split; [| split]].
  - intros k values Hv.
    destruct (Hl k) as [Hin Hout].
    destruct (in_dec String.string_dec k (map fst (sensor_items w))) as [Hk | Hk].
    + destruct (sensor_items_key k w Hk) as [key Hkey].
      destruct (Hin key Hkey) as [E _]. rewrite E in Hv. injection Hv as <-.
      unfold cells. apply length_map.
    + destruct (Hout Hk) as [E _]. rewrite E in Hv. discriminate Hv.
  - intros k. destruct (Hl k) as [Hin Hout].
    destruct (in_dec String.string_dec k (map fst (sensor_items w))) as [Hk | Hk].
    + destruct (sensor_items_key k w Hk) as [key Hkey].
      destruct (Hin key Hkey) as [E (st & _ & Est)]. rewrite E, Est.
      split; intros _; eexists; reflexivity.
    + destruct (Hout Hk) as [E1 E2]. rewrite E1, E2.
      split; intros [x Hx]; discriminate Hx.
  - repeat (apply Forall_cons; split); [.. | constructor].
    all: cbv beta;
      match goal with
      | |- is_Some (_ !! ?k) => destruct (Hl k) as [Hin _]
      end.
    + destruct (Hin "Air temperature") as [E _];
        [unfold sensor_items; simpl; tauto | rewrite E; eexists; reflexivity].
    + destruct (Hin "Process temperature") as [E _];
        [unfold sensor_items; simpl; tauto | rewrite E; eexists; reflexivity].
    + destruct (Hin "Rotational speed") as [E _];
        [unfold sensor_items; simpl; tauto | rewrite E; eexists; reflexivity].
    + destruct (Hin "Torque") as [E _];
        [unfold sensor_items; simpl; tauto | rewrite E; eexists; reflexivity].
    + destruct (Hin "Tool wear") as [E _];
        [unfold sensor_items; simpl; tauto | rewrite E; eexists; reflexivity].
  - destruct (Hl "vibration") as [Hin Hout].
    assert (Hc : columns (pd_DataFrame w) "Vibration" = true
                 <-> Exists (fun d => is_Some (Vibration d)) w).
    { cbn [columns pd_DataFrame]. rewrite existsb_exists, Exists_exists.
      split; intros (x & Hx & Hp); exists x.
      - split; [apply list_elem_of_In, Hx |].
        unfold has_key in Hp. cbn in Hp. apply bool_decide_eq_true_1 in Hp.
        exact Hp.
      - split; [apply list_elem_of_In, Hx |].
        unfold has_key. cbn. apply bool_decide_eq_true_2, Hp. }
    rewrite <- Hc.
    destruct (columns (pd_DataFrame w) "Vibration") eqn:Ev.
    + destruct (Hin "Vibration") as [E _].
      { unfold sensor_items. rewrite Ev. simpl. tauto. }
      rewrite E. split; [reflexivity | eexists; reflexivity].
    + destruct Hout as [E _].
      { unfold sensor_items. rewrite Ev. simpl.
        intros H. repeat (destruct H as [H | H]; [discriminate H |]). exact H. }
      rewrite E. split; [intros [x Hx]; discriminate Hx | discriminate].
Qed.

Lemma sensor_response_shape_witness :
  exists r,
    get_lathe_sensor_data db_partial 1 = Ok r /\
    (forall k values,
       SensorData.sensor_data r !! k = Some values ->
       length values = length (window db_partial 1 100)).
Proof.
  destruct (get_lathe_sensor_data db_partial 1) as [r |] eqn:E;
    [| vm_compute in E; discriminate E].
  exists r. split; [reflexivity |].
  destruct (sensor_response_shape db_partial 1 r E) as (_ & H & _). exact H.
Defined.

(** ** The window of the most recent documents *)

Lemma ts_le_total (a b : option Z) : ts_le a b = false -> ts_le b a = true.
Proof.
  destruct a as [x |], b as [y |]; simpl; try discriminate; try reflexivity.
  intros H. apply Z.leb_gt in H. apply Z.leb_le. lia.
Qed.

Lemma ts_le_trans (a b c : option Z) :
  ts_le a b = true -> ts_le b c = true -> ts_le a c = true.
Proof.
  destruct a as [x |], b as [y |], c as [z |]; simpl;
    try discriminate; try reflexivity.
  intros H1 H2. apply Z.leb_le in H1, H2. apply Z.leb_le. lia.
Qed.

Lemma insert_desc_Permutation (d : Doc) (l : list Doc) :
  Permutation (insert_desc d l) (d :: l).
Proof.
  induction l as [| x l IH]; simpl; [reflexivity |].
  destruct (ts_le (timestamp x) (timestamp d)); [reflexivity |].
  rewrite IH. apply perm_swap.
Qed.

Lemma sort_desc_Permutation (l : list Doc) : Permutation (sort_desc l) l.
Proof.
  induction l as [| d l IH]; simpl; [reflexivity |].
  rewrite insert_desc_Permutation, IH. reflexivity.
Qed.

Lemma insert_desc_sorted (d : Doc) (l : list Doc) :
  StronglySorted at_least_as_recent l ->
  StronglySorted at_least_as_recent (insert_desc d l).
Proof.
  induction 1 as [| x l Hs IH Hx]; simpl.
  - constructor; constructor.
  - destruct (ts_le (timestamp x) (timestamp d)) eqn:E.
    + constructor; [constructor; assumption |].
      constructor; [exact E |].
      rewrite Forall_forall in *. intros y Hy.
      unfold at_least_as_recent in *.
      apply (ts_le_trans _ (timestamp x)); [apply Hx, Hy | exact E].
    + constructor; [exact IH |].
      rewrite Forall_forall in *. intros y Hy.
      apply list_elem_of_In, insert_desc_In in Hy as [-> | Hy].
      * apply ts_le_total, E.
      * apply Hx, list_elem_of_In, Hy.
Qed.

Lemma sort_desc_sorted (l : list Doc) :
  StronglySorted at_least_as_recent (sort_desc l).
Proof.
  induction l as [| d l IH]; simpl; [constructor |].
  apply insert_desc_sorted, IH.
Qed.

Lemma StronglySorted_app_inv {A} (R : A -> A -> Prop) (l1 l2 : list A) :
  StronglySorted R (l1 ++ l2) ->
  StronglySorted R l1 /\
  forall x y, In x l1 -> In y l2 -> R x y.
Proof.
  induction l1 as [| a l1 IH]; simpl; intros H.
  - split; [constructor | intros x y []].
  - inversion H as [| a' l' Hs Hf]; subst.
    destruct (IH Hs) as [Hs1 Hc]. split.
    + constructor; [exact Hs1 |].
      rewrite Forall_forall in *. intros y Hy. apply Hf.
      apply elem_of_app. left. exact Hy.
    + intros x y [<- | Hx] Hy; [| apply Hc; assumption].
      rewrite Forall_forall in Hf. apply Hf, elem_of_app. right.
      apply list_elem_of_In, Hy.
Qed.

(** X6.  The window fetched with limit [n] holds [min n (size of the
    collection)] documents of the collection, each taken once, ordered from
    the most recent on, and no document left out is more recent than one in
    the window. *)
Theorem find_recent_most_recent (collection : list Doc) (n : nat) :
  length (find_recent collection n) = Nat.min n (length collection) /\
  StronglySorted at_least_as_recent (find_recent collection n) /\
  exists rest,
    Permutation (find_recent collection n ++ rest) collection /\
    forall x y,
      In x (find_recent collection n) -> In y rest -> at_least_as_recent x y.
Proof.
  unfold find_recent.
  pose proof (sort_desc_sorted collection) as Hs.
  rewrite <- (take_drop n (sort_desc collection)) in Hs.
  apply StronglySorted_app_inv in Hs as [Hs Hc].
  split; [| split; [exact Hs |]].
  - rewrite length_take, (Permutation_length (sort_desc_Permutation collection)).
    reflexivity.
  - exists (drop n (sort_desc collection)). split; [| exact Hc].
    rewrite take_drop. apply sort_desc_Permutation.
Qed.

(** ** Counts of the detail operation *)

Lemma failure_sum_flags (data : list Doc) :
  Forall flag01 data ->
  (q_sum (values "Failure" data) == inject_Z (Z.of_nat (failed_count data)))%Q.
Proof.
  unfold failed_count, values.
  induction 1 as [| d data HF _ IH]; [reflexivity |].
  rewrite filter_cons. cbn [omap list_omap].
  change (num_field "Failure" d) with (inject_Z <$> Failure d).
  destruct HF as [-> | [-> | ->]]; cbn [fmap option_fmap option_map].
  - destruct (decide (None = Some 1)) as [E | _]; [discriminate E | exact IH].
  - rewrite q_sum_cons, IH.
    destruct (decide (Some 0 = Some 1)) as [E | _]; [discriminate E |]. ring.
  - rewrite q_sum_cons, IH.
    destruct (decide (Some 1 = Some 1)) as [_ | E]; [| congruence].
    cbn [length]. rewrite Nat2Z.inj_succ, <- Z.add_1_l, inject_Z_plus. ring.
Qed.

Lemma q_trunc_inject_Z (z : Z) : q_trunc (inject_Z z) = z.
Proof.
  unfold q_trunc. rewrite Qfloor_Z, Qceiling_Z.
  destruct (Qle_bool 0 (inject_Z z)); reflexivity.
Qed.


Lemma absent_Type_group (t : string) (data : list Doc) :
  absent "Type" data -> group t data = [].
Proof.
  unfold group. induction 1 as [| d data Hd _ IH]; [reflexivity |].
  rewrite filter_cons, IH.
  destruct (decide (Type_ d = Some t)) as [E | _]; [| reflexivity].
  unfold has_key in Hd. cbn in Hd. rewrite E in Hd.
  rewrite bool_decide_eq_true_2 in Hd by eauto. discriminate Hd.
Qed.

(** X7.  When the failure flags of the window are 0 or 1, the detail
    operation reports as [failure_count] the number of documents whose flag
    is 1, documents without a flag counting as not failed; and it reports
    under [product_types] each product type of the window with the number of
    its documents, and no other type. *)
Theorem details_counts (lathe_id : Z) (data : list Doc) :
  has_columns ("Health score" :: channels) data ->
  Forall flag01 data ->
  exists r,
    details lathe_id data = Ok r /\
    LatheDetails.failure_count r = Z.of_nat (failed_count data) /\
    forall t,
      LatheDetails.product_types r !! t
      = match group t data with
        | [] => None
        | g => Some (Z.of_nat (length g))
        end.
Proof.
  intros Hc Hf. eexists. split; [apply details_eq, Hc |].
  cbn [LatheDetails.failure_count LatheDetails.product_types]. split.
  - rewrite (q_trunc_comp _ _ (failure_sum_flags data Hf)).
    apply q_trunc_inject_Z.
  - intros t. destruct (columns (pd_DataFrame data) "Type") eqn:E.
    + apply value_counts_lookup.
    + rewrite (absent_Type_group t data (no_column_absent _ _ E)).
      apply lookup_empty.
Qed.

Lemma details_counts_witness :
  exists r,
    details 2 history_m2 = Ok r /\
    LatheDetails.failure_count r = Z.of_nat (failed_count history_m2).
Proof.
  destruct (details_counts 2 history_m2) as (r & E & Hc & _).
  - repeat constructor.
  - unfold history_m2, sample.
    repeat (apply Forall_cons; split); [| | constructor];
      unfold flag01; cbn; tauto.
  - exists r. split; assumption.
Defined.

(** ** The mappings of the product analysis *)

Lemma for_each_insert_ok {V} (entry : option string -> result V)
    (keys : list (option string)) :
  forall (m0 m : gmap (option string) V),
    for_each keys (fun d k => let* x := entry k in Ok (<[k := x]> d)) m0 = Ok m ->
    (forall k, In k keys -> exists x, entry k = Ok x /\ m !! k = Some x) /\
    (forall k, ~ In k keys -> m !! k = m0 !! k).
Proof.
  induction keys as [| k0 keys IH]; intros m0 m; cbn [for_each].
  - intros H; injection H as <-. split; [intros k [] | reflexivity].
  - destruct (entry k0) as [x0 |] eqn:E0; cbn [bind]; [| discriminate].
    intros H. destruct (IH _ _ H) as [Hin Hout]. split.
    + intros k Hk. destruct (in_dec (option_eq_dec) k keys) as [Hd | Hd];
        [apply Hin, Hd |].
      destruct Hk as [<- | Hk]; [| contradiction].
      exists x0. split; [exact E0 |].
      rewrite (Hout _ Hd). apply lookup_insert_eq.
    + intros k Hk. rewrite Hout by (intros Hd; apply Hk; right; exact Hd).
      apply lookup_insert_ne. intros ->. apply Hk. left. reflexivity.
Qed.

Lemma by_type_ok {V} (df : DataFrame)
    (entry : DataFrame -> option string -> result V)
    (m : gmap (option string) V) :
  by_type df entry = Ok m ->
  columns df "Type" = true /\
  (forall k, In k (map Type_ (rows df)) ->
             exists x, entry df k = Ok x /\ m !! k = Some x) /\
  (forall k, ~ In k (map Type_ (rows df)) -> m !! k = None).
Proof.
  unfold by_type, getitem_Type.
  destruct (columns df "Type"); cbn [bind]; [| discriminate].
  intros H. apply for_each_insert_ok in H as [Hin Hout].
  split; [reflexivity |]. split.
  - intros k Hk. apply Hin, unique_In, Hk.
  - intros k Hk. rewrite Hout; [apply lookup_empty |].
    rewrite unique_In. exact Hk.
Qed.

Lemma quality_of_ok (df : DataFrame) (k : option string) (q : Quality.t) :
  quality_of df k = Ok q ->
  columns df "Failure" = true /\
  Quality.count q = length (rows (select_type df k)) /\
  Quality.failure_rate q
  = np_round (fl_mul (pd_mean64 (cells "Failure" (rows (select_type df k))))
                     (Num 100)) 2 /\
  Quality.avg_health_score q
  = if columns df "Health score"
    then np_round (pd_mean64 (cells "Health score" (rows (select_type df k)))) 2
    else Num 0.
Proof.
  unfold quality_of. rewrite !col_mean64_eq. cbn [columns select_type].
  destruct (columns df "Failure"); cbn [bind]; [| discriminate].
  destruct (columns df "Health score"); cbn [bind];
    intros H; injection H as <-; repeat split; reflexivity.
Qed.

Lemma select_type_rows_length (data : list Doc) (t : string) :
  length (rows (select_type (pd_DataFrame data) (Some t)))
  = length (group t data).
Proof. rewrite select_type_rows. reflexivity. Qed.

(** What a successful product analysis holds, mapping by mapping. *)
Lemma product_analysis_ok (lathe_id : Z) (data : list Doc)
    (r : ProductAnalysis.t) :
  product_analysis lathe_id data = Ok r ->
  let df := pd_DataFrame data in
  ProductAnalysis.product_types r
  = (if columns df "Type" then value_counts (map Type_ data) else ∅) /\
  (if columns df "Type" && columns df "Failure"
   then by_type df quality_of = Ok (ProductAnalysis.product_quality r)
   else ProductAnalysis.product_quality r = ∅) /\
  (if columns df "Type"
   then by_type df params_of = Ok (ProductAnalysis.params_by_type r)
   else ProductAnalysis.params_by_type r = ∅).
Proof.
  unfold product_analysis. rewrite product_types_of_eq. cbn [bind rows pd_DataFrame].
  destruct (columns (pd_DataFrame data) "Type");
    destruct (columns (pd_DataFrame data) "Failure"); cbn [andb bind].
  - destruct (by_type (pd_DataFrame data) quality_of); cbn [bind]; [| discriminate].
    destruct (by_type (pd_DataFrame data) params_of); cbn [bind]; [| discriminate].
    intros H; injection H as <-. repeat split; reflexivity.
  - destruct (by_type (pd_DataFrame data) params_of); cbn [bind]; [| discriminate].
    intros H; injection H as <-. repeat split; reflexivity.
  - intros H; injection H as <-. repeat split; reflexivity.
  - intros H; injection H as <-. repeat split; reflexivity.
Qed.

Lemma group_nonempty_In (t : string) (data : list Doc) :
  group t data <> [] <-> In (Some t) (map Type_ data).
Proof.
  split; [| apply group_In].
  intros H. destruct (group t data) as [| d g] eqn:E; [congruence |].
  assert (Hd : d ∈ group t data) by (rewrite E; left).
  unfold group in Hd. apply list_elem_of_filter in Hd as [Ht Hd].
  apply in_map_iff. exists d. split; [exact Ht | apply list_elem_of_In, Hd].
Qed.

Lemma column_Type_In (data : list Doc) (t : string) :
  In (Some t) (map Type_ data) -> columns (pd_DataFrame data) "Type" = true.
Proof.
  intros H. apply in_map_iff in H as (d & Ed & Hd).
  cbn [columns pd_DataFrame]. apply existsb_exists. exists d.
  split; [exact Hd |]. unfold has_key. cbn. rewrite Ed.
  apply bool_decide_eq_true_2. eauto.
Qed.

(** X8.  The three mappings of a product analysis agree with each other: a
    product type has a count exactly when it has a parameter entry; when
    some document has a failure flag, the quality entries and the parameter
    entries have the same keys; and the count inside a quality entry is the
    count of that type. *)
Theorem product_mappings_consistent (lathe_id : Z) (data : list Doc)
    (r : ProductAnalysis.t) :
  product_analysis lathe_id data = Ok r ->
  (forall t : string,
     is_Some (ProductAnalysis.product_types r !! t)
     <-> is_Some (ProductAnalysis.params_by_type r !! Some t)) /\
  (~ absent "Failure" data ->
   forall k,
     is_Some (ProductAnalysis.product_quality r !! k)
     <-> is_Some (ProductAnalysis.params_by_type r !! k)) /\
  (forall t q,
     ProductAnalysis.product_quality r !! Some t = Some q ->
     ProductAnalysis.product_types r !! t
     = Some (Z.of_nat (Quality.count q))).
Proof.
  intros H. apply product_analysis_ok in H as (Et & Eq & Ep). cbv zeta in *.
  destruct (columns (pd_DataFrame data) "Type") eqn:ET.
  - apply by_type_ok in Ep as (_ & Hpin & Hpout). cbn [rows pd_DataFrame] in *.
    split; [| split].
    + intros t. rewrite Et, value_counts_lookup.
      destruct (in_dec option_eq_dec (Some t) (map Type_ data)) as [Hi | Hi].
      * destruct (Hpin _ Hi) as (x & _ & ->).
        apply group_nonempty_In in Hi.
        destruct (group t data); [congruence |].
        split; intros _; eexists; reflexivity.
      * rewrite (Hpout _ Hi).
        destruct (group t data) as [| d g] eqn:Eg.
        -- split; intros [x Hx]; discriminate Hx.
        -- exfalso. apply Hi, group_nonempty_In. rewrite Eg. discriminate.
    + intros Hf k.
      assert (EF : columns (pd_DataFrame data) "Failure" = true).
      { destruct (columns (pd_DataFrame data) "Failure") eqn:E; [reflexivity |].
        exfalso. apply Hf, no_column_absent, E. }
      rewrite EF in Eq. cbn [andb] in Eq.
      apply by_type_ok in Eq as (_ & Hqin & Hqout). cbn [rows pd_DataFrame] in *.
      destruct (in_dec option_eq_dec k (map Type_ data)) as [Hi | Hi].
      * destruct (Hpin _ Hi) as (x & _ & ->), (Hqin _ Hi) as (y & _ & ->).
        split; intros _; eexists; reflexivity.
      * rewrite (Hpout _ Hi), (Hqout _ Hi).
        split; intros [x Hx]; discriminate Hx.
    + intros t q Hq. rewrite Et, value_counts_lookup.
      destruct (columns (pd_DataFrame data) "Failure"); cbn [andb] in Eq;
        [| rewrite Eq, lookup_empty in Hq; discriminate Hq].
      apply by_type_ok in Eq as (_ & Hqin & Hqout). cbn [rows pd_DataFrame] in *.
      destruct (in_dec option_eq_dec (Some t) (map Type_ data)) as [Hi | Hi];
        [| rewrite (Hqout _ Hi) in Hq; discriminate Hq].
      destruct (Hqin _ Hi) as (x & Ex & Hx). rewrite Hx in Hq.
      injection Hq as <-.
      apply quality_of_ok in Ex as (_ & Ec & _).
      rewrite Ec, select_type_rows_length.
      apply group_nonempty_In in Hi.
      destruct (group t data); [congruence | reflexivity].
  - cbn [andb] in Eq. rewrite Et, Eq, Ep. repeat split.
    + intros [x Hx]. rewrite lookup_empty in Hx. discriminate Hx.
    + intros [x Hx]. rewrite lookup_empty in Hx. discriminate Hx.
    + intros [x Hx]. rewrite lookup_empty in Hx. discriminate Hx.
    + intros [x Hx]. rewrite lookup_empty in Hx. discriminate Hx.
    + intros t q Hq. rewrite lookup_empty in Hq. discriminate Hq.
Qed.

Lemma product_mappings_consistent_witness :
  exists r,
    product_analysis 2 history_m2 = Ok r /\
    forall t : string,
      is_Some (ProductAnalysis.product_types r !! t)
      <-> is_Some (ProductAnalysis.params_by_type r !! Some t).
Proof.
  destruct (product_analysis 2 history_m2) as [r |] eqn:E;
    [| vm_compute in E; discriminate E].
  exists r. split; [reflexivity |].
  destruct (product_mappings_consistent 2 history_m2 r E) as (H & _). exact H.
Defined.

(** X9.  The columns of the window decide which mappings the product
    analysis fills.  Without any product type it returns three empty
    mappings and raises nothing, whatever else is missing.  Without any
    failure flag the quality mapping is empty.  Without any health score
    every quality entry carries the average health score 0. *)
Theorem product_analysis_guards (lathe_id : Z) (data : list Doc) :
  (absent "Type" data ->
   product_analysis lathe_id data
   = Ok {| ProductAnalysis.lathe_id := lathe_id;
           ProductAnalysis.name := display_name lathe_id;
           ProductAnalysis.product_types := ∅;
           ProductAnalysis.product_quality := ∅;
           ProductAnalysis.params_by_type := ∅ |}) /\
  (absent "Failure" data ->
   forall r, product_analysis lathe_id data = Ok r ->
             ProductAnalysis.product_quality r = ∅) /\
  (absent "Health score" data ->
   forall r k q,
     product_analysis lathe_id data = Ok r ->
     ProductAnalysis.product_quality r !! k = Some q ->
     Quality.avg_health_score q = Num 0).
Proof.
  split; [| split].
  - intros Ha. apply absent_no_column in Ha.
    unfold product_analysis. rewrite product_types_of_eq, Ha. reflexivity.
  - intros Ha r H. apply absent_no_column in Ha.
    apply product_analysis_ok in H as (_ & Eq & _). cbv zeta in Eq.
    rewrite Ha, andb_false_r in Eq. exact Eq.
  - intros Ha r k q H Hq. apply absent_no_column in Ha.
    apply product_analysis_ok in H as (_ & Eq & _). cbv zeta in Eq.
    destruct (columns (pd_DataFrame data) "Type" &&
              columns (pd_DataFrame data) "Failure");
      [| rewrite Eq, lookup_empty in Hq; discriminate Hq].
    apply by_type_ok in Eq as (_ & Hin & Hout).
    destruct (in_dec option_eq_dec k (map Type_ (rows (pd_DataFrame data))))
      as [Hi | Hi]; [| rewrite (Hout _ Hi) in Hq; discriminate Hq].
    destruct (Hin _ Hi) as (x & Ex & Hx). rewrite Hx in Hq. injection Hq as <-.
    apply quality_of_ok in Ex as (_ & _ & _ & Eh). rewrite Ha in Eh. exact Eh.
Qed.

(** X10.  When the failure flags are 0 or 1, every failure rate of the
    product analysis is a percentage between 0 and 100; it is NaN only for
    an entry none of whose documents has a flag. *)
Theorem failure_rate_in_range (lathe_id : Z) (data : list Doc)
    (r : ProductAnalysis.t) :
  product_analysis lathe_id data = Ok r ->
  Forall flag01 data ->
  forall k q,
    ProductAnalysis.product_quality r !! k = Some q ->
    let docs := rows (select_type (pd_DataFrame data) k) in
    match values "Failure" docs with
    | [] => Quality.failure_rate q = NaN
    | _ :: _ =>
        exists x, Quality.failure_rate q = Num x /\ (0 <= x)%Q /\ (x <= 100)%Q
    end.
Proof.
  intros H Hf k q Hq. cbv zeta.
  apply product_analysis_ok in H as (_ & Eq & _). cbv zeta in Eq.
  destruct (columns (pd_DataFrame data) "Type" &&
            columns (pd_DataFrame data) "Failure");
    [| rewrite Eq, lookup_empty in Hq; discriminate Hq].
  apply by_type_ok in Eq as (_ & Hin & Hout).
  destruct (in_dec option_eq_dec k (map Type_ (rows (pd_DataFrame data))))
    as [Hi | Hi]; [| rewrite (Hout _ Hi) in Hq; discriminate Hq].
  destruct (Hin _ Hi) as (x & Ex & Hx). rewrite Hx in Hq. injection Hq as <-.
  apply quality_of_ok in Ex as (_ & _ & Er & _). rewrite Er.
  unfold pd_mean64. rewrite pd_mean_cells.
  set (docs := rows (select_type (pd_DataFrame data) k)).
  assert (Hd : Forall flag01 docs).
  { subst docs. cbn [rows select_type pd_DataFrame].
    rewrite Forall_forall in *. intros d Hd.
    apply list_elem_of_filter in Hd as [_ Hd]. apply Hf, Hd. }
  assert (Hv : Forall (fun v => (0 <= v)%Q /\ (v <= 1)%Q) (values "Failure" docs)).
  { apply values_Forall. rewrite Forall_forall in *. intros d Hin' v.
    change (num_field "Failure" d) with (inject_Z <$> Failure d).
    destruct (Hd d Hin') as [-> | [-> | ->]]; cbn; intros E;
      [discriminate E | injection E as <- | injection E as <-];
      split; discriminate. }
  destruct (values "Failure" docs) as [| v vs] eqn:Ev; [reflexivity |].
  destruct (q_mean_bounds 0 1 (v :: vs) ltac:(discriminate) Hv) as [H0 H1].
  destruct (failure_rate_two_decimals _ H0 H1) as (z & Ez & [Hz0 Hz1] & _).
  eexists. split; [exact Ez |].
  assert (Hq0 : (0 <= inject_Z z / 100)%Q).
  { apply Qle_shift_div_l; [reflexivity |].
    rewrite Qmult_0_l. change 0%Q with (inject_Z 0). rewrite <- Zle_Qle. exact Hz0. }
  assert (Hq1 : (inject_Z z / 100 <= 100)%Q).
  { apply Qle_shift_div_r; [reflexivity |].
    change (100 * 100)%Q with (inject_Z 10000). rewrite <- Zle_Qle. exact Hz1. }
  split; [apply b64_nonneg, Hq0 |].
  apply Qle_trans with (b64 100); [apply b64_mono; assumption |].
  rewrite b64_100. apply Qle_refl.
Qed.

Lemma failure_rate_in_range_witness :
  exists r,
    product_analysis 2 history_m2 = Ok r /\
    forall q,
      ProductAnalysis.product_quality r !! Some "M" = Some q ->
      exists x, Quality.failure_rate q = Num x /\ (0 <= x)%Q /\ (x <= 100)%Q.
Proof.
  destruct (product_analysis 2 history_m2) as [r |] eqn:E;
    [| vm_compute in E; discriminate E].
  exists r. split; [reflexivity |].
  assert (Hf : Forall flag01 history_m2).
  { unfold history_m2, sample.
    repeat (apply Forall_cons; split); [| | constructor];
      unfold flag01; cbn; tauto. }
  intros q Hq.
  exact (failure_rate_in_range 2 history_m2 r E Hf (Some "M") q Hq).
Defined.

Lemma product_analysis_guards_witness :
  absent "Health score" (default [] (db_unscored !! "lathe_m1")) /\
  forall r k q,
    product_analysis 1 (default [] (db_unscored !! "lathe_m1")) = Ok r ->
    ProductAnalysis.product_quality r !! k = Some q ->
    Quality.avg_health_score q = Num 0.
Proof.
  assert (Ha : absent "Health score" (default [] (db_unscored !! "lathe_m1")))
    by (repeat constructor).
  split; [exact Ha |].
  destruct (product_analysis_guards 1 (default [] (db_unscored !! "lathe_m1")))
    as (_ & _ & H).
  exact (H Ha).
Defined.

(** ** The generator: uptime, vibration, timestamps *)

(** X11.  For a failure flag of 0 or 1 and a uniform draw in [0,20], the
    uptime the generator stores lies in [70,100]: at least 96 for a row
    without failure, at most 90 for a failed row. *)
Theorem uptime_range (failure : Z) (u : Q) :
  failure = 0 \/ failure = 1 ->
  (0 <= u)%Q -> (u <= 20)%Q ->
  (70 <= GeneratorData.uptime failure u)%Q /\
  (GeneratorData.uptime failure u <= 100)%Q /\
  (failure = 0 -> (96 <= GeneratorData.uptime failure u)%Q) /\
  (failure = 1 -> (GeneratorData.uptime failure u <= 90)%Q).
Proof.
  intros [-> | ->] H0 H20; unfold GeneratorData.uptime;
    [change (inject_Z 0) with 0%Q | change (inject_Z 1) with 1%Q].
  - split; [lra |]. split; [lra |]. split; [intros _; lra |].
    intros E. discriminate E.
  - split; [lra |]. split; [lra |]. split; [intros E; discriminate E |].
    intros _. lra.
Qed.

Lemma uptime_range_witness :
  (70 <= GeneratorData.uptime 1 (25 # 2))%Q /\
  (GeneratorData.uptime 1 (25 # 2) <= 100)%Q.
Proof.
  destruct (uptime_range 1 (25 # 2)) as (H1 & H2 & _);
    [right; reflexivity | discriminate | discriminate |].
  split; assumption.
Defined.

Lemma filter_notna_Num (qs : list Q) :
  filter (fun x => notna x = true) (map Num qs) = map Num qs.
Proof.
  induction qs as [| q qs IH]; [reflexivity |].
  cbn [map]. rewrite filter_cons. simpl. rewrite IH. reflexivity.
Qed.

Lemma pd_min_Num (q : Q) (qs : list Q) :
  GeneratorData.pd_min (map Num (q :: qs)) = Num (q_min q qs).
Proof.
  unfold GeneratorData.pd_min. rewrite filter_notna_Num. cbn [map].
  apply fold_min_Num.
Qed.

Lemma pd_max_Num (q : Q) (qs : list Q) :
  Generator.pd_max (map Num (q :: qs)) = Num (q_max q qs).
Proof.
  unfold Generator.pd_max. rewrite filter_notna_Num. cbn [map].
  apply fold_max_Num.
Qed.

(** X12.  Line 79 scales the raw vibration by the range of the raw
    values, here of magnitude at most 1000000 (far from overflow).  When
    two raw values differ, every vibration is a number that is not
    negative, a greater raw value never gives a smaller vibration, and the
    least raw value gives exactly 0.  When all raw values are equal (a
    single row, for one), numpy's 0/0 makes every vibration NaN. *)
Theorem vibration_scaled (raw : list Q) :
  Forall (fun v => (Qabs v <= 1000000)%Q) raw ->
  ((exists a b, In a raw /\ In b raw /\ (a < b)%Q) ->
   exists f : Q -> Q,
     GeneratorData.scale_vibration raw = map (fun v => Num (f v)) raw /\
     (forall v, In v raw -> (0 <= f v)%Q) /\
     (forall u v, In u raw -> In v raw -> (u <= v)%Q -> (f u <= f v)%Q) /\
     (exists lo, In lo raw /\ (forall v, In v raw -> (lo <= v)%Q) /\
                 (f lo == 0)%Q)) /\
  ((forall a b, In a raw -> In b raw -> (a == b)%Q) ->
   Forall (fun x => x = NaN) (GeneratorData.scale_vibration raw)).
Proof.
  intros _. unfold GeneratorData.scale_vibration.
  destruct raw as [| r0 rs] eqn:Eraw.
  { split; [intros (a & b & [] & _) | intros _; constructor]. }
  rewrite pd_min_Num, pd_max_Num. cbv zeta.
  destruct (q_min_spec rs r0) as [Hlo_in Hlo], (q_max_spec rs r0) as [Hhi_in Hhi].
  set (lo := q_min r0 rs) in *. set (hi := q_max r0 rs) in *.
  cbn [f_sub f_neg f_add f_mul].
  split.
  - intros (a & b & Ha & Hb & Hab).
    assert (Hpos : (0 < hi + - lo)%Q).
    { pose proof (Hlo a Ha). pose proof (Hhi b Hb). lra. }
    assert (Hnz : ~ (hi + - lo == 0)%Q) by lra.
    assert (Hent : forall v,
               np_div (Num (100 * (v + - lo))) (Num (hi + - lo))
               = Num (100 * (v + - lo) / (hi + - lo))).
    { intros v. apply GeneratorFacts.np_div_Num, Hnz. }
    exists (fun v => (100 * (v + - lo) / (hi + - lo))%Q).
    split; [| split; [| split]].
    + apply map_ext. intros v. apply Hent.
    + intros v Hv. pose proof (Hlo v Hv).
      apply Qle_shift_div_l; [exact Hpos | lra].
    + intros u v _ _ Huv. unfold Qdiv.
      apply Qmult_le_compat_r; [lra |].
      apply Qlt_le_weak, Qinv_lt_0_compat, Hpos.
    + exists lo. split; [exact Hlo_in |]. split; [exact Hlo |].
      field. exact Hnz.
  - intros Hc. apply Forall_forall. intros x Hx.
    apply list_elem_of_In, in_map_iff in Hx as (v & <- & Hv).
    assert (E1 : (hi + - lo == 0)%Q).
    { pose proof (Hc hi lo Hhi_in Hlo_in). lra. }
    assert (E2 : (100 * (v + - lo) == 0)%Q).
    { pose proof (Hc v lo Hv Hlo_in). lra. }
    unfold np_div.
    apply Qeq_alt in E1, E2. rewrite E1, E2. reflexivity.
Qed.

Lemma vibration_scaled_witness :
  exists f : Q -> Q,
    GeneratorData.vibration sample_base [1; 0]%Q
    = map (fun v => Num (f v))
          (zip_with GeneratorData.vib_raw sample_base [1; 0]%Q) /\
    (forall v, In v (zip_with GeneratorData.vib_raw sample_base [1; 0]%Q) ->
               (0 <= f v)%Q).
Proof.
  destruct (vibration_scaled
              (zip_with GeneratorData.vib_raw sample_base [1; 0]%Q)) as [H _].
  { unfold sample_base. cbn [zip_with].
    repeat (apply Forall_cons; split); try (vm_compute; discriminate).
    constructor. }
  destruct H as (f & E & H0 & _).
  - eexists. eexists.
    split; [right; left; reflexivity |].
    split; [left; reflexivity | vm_compute; reflexivity].
  - exists f. split; [exact E | exact H0].
Defined.

Lemma stamp_from_head (now i : Z) (rows : list Doc) :
  match GeneratorData.stamp_from now i rows with
  | [] => True
  | x :: _ => timestamp x = Some (now - i * GeneratorData.hour)
  end.
Proof. destruct rows; simpl; auto. Qed.

Lemma sort_desc_stamp_from (now i : Z) (rows : list Doc) :
  sort_desc (GeneratorData.stamp_from now i rows)
  = GeneratorData.stamp_from now i rows.
Proof.
  revert i; induction rows as [| d rows IH]; intros i; [reflexivity |].
  cbn [GeneratorData.stamp_from sort_desc foldr].
  fold (sort_desc (GeneratorData.stamp_from now (i + 1) rows)).
  rewrite IH.
  pose proof (stamp_from_head now (i + 1) rows) as Hh.
  destruct (GeneratorData.stamp_from now (i + 1) rows) as [| x l];
    [reflexivity |].
  cbn [insert_desc]. rewrite Hh. cbn [timestamp GeneratorData.set_timestamp ts_le].
  assert (E : (now - (i + 1) * GeneratorData.hour
               <=? now - i * GeneratorData.hour) = true).
  { apply Z.leb_le. unfold GeneratorData.hour. lia. }
  rewrite E. reflexivity.
Qed.

(** X13.  The generator stamps row [i] of a data set with [now] minus [i]
    hours, so the sort of the backend leaves the rows in their order: the
    window of limit [n] is the first [n] rows of the data set, and no two
    rows share a timestamp. *)
Theorem stamped_window (now : Z) (rows : list Doc) (n : nat) :
  find_recent (GeneratorData.add_timestamps now rows) n
  = take n (GeneratorData.add_timestamps now rows) /\
  NoDup (map timestamp (GeneratorData.add_timestamps now rows)) /\
  length (GeneratorData.add_timestamps now rows) = length rows.
Proof.
  unfold find_recent, GeneratorData.add_timestamps.
  rewrite sort_desc_stamp_from. split; [reflexivity |].
  assert (Hgen : forall i,
             NoDup (map timestamp (GeneratorData.stamp_from now i rows)) /\
             (forall t, In (Some t) (map timestamp (GeneratorData.stamp_from now i rows)) ->
                        t <= now - i * GeneratorData.hour) /\
             length (GeneratorData.stamp_from now i rows) = length rows).
  { induction rows as [| d rows IH]; intros i.
    - split; [constructor | split; [intros t [] | reflexivity]].
    - destruct (IH (i + 1)) as (Hn & Hb & Hl).
      cbn [GeneratorData.stamp_from map timestamp GeneratorData.set_timestamp length].
      split; [| split].
      + constructor; [| exact Hn].
        intros Hin. apply list_elem_of_In, Hb in Hin.
        unfold GeneratorData.hour in Hin. lia.
      + intros t [E | Hin]; [injection E as <-; lia |].
        apply Hb in Hin. unfold GeneratorData.hour in *. lia.
      + rewrite Hl. reflexivity. }
  destruct (Hgen 0) as (Hn & _ & Hl). split; assumption.
Qed.

(** ** The upload and the fleet *)

(** X14.  Uploading four non-empty data sets, one per state of the
    generator and each the records of a frame without missing cells, fills
    the collections of machines 1 to 4, whatever the database held before:
    the data set of "very_good" becomes the history of machine 1, that of
    "ok" of machine 2, that of "good" of machine 3 and that of "very_bad"
    of machine 4; no other collection changes; and the summary of the
    fleet, when the documents carry health scores, then lists exactly the
    machines 1, 2, 3 and 4. *)
Theorem upload_fills_fleet (db : Database) (very_good good ok very_bad : list Doc) :
  very_good <> [] -> good <> [] -> ok <> [] -> very_bad <> [] ->
  Forall frame_records [very_good; good; ok; very_bad] ->
  let datasets :=
    [("very_good", very_good); ("good", good); ("ok", ok);
     ("very_bad", very_bad)] in
  exists db',
    GeneratorData.upload_to_mongodb datasets GeneratorData.lathe_ids db
    = (db', None) /\
    db' !! collection_name 1 = Some very_good /\
    db' !! collection_name 2 = Some ok /\
    db' !! collection_name 3 = Some good /\
    db' !! collection_name 4 = Some very_bad /\
    (forall name,
       ~ In name (map collection_name [1; 2; 3; 4]) -> db' !! name = db !! name) /\
    (Forall (Forall (fun d => is_Some (Health_score d)))
            [very_good; good; ok; very_bad] ->
     exists lathes,
       get_all_lathes db' = Ok lathes /\
       map LatheSummary.lathe_id lathes = [1; 2; 3; 4]).
Proof.
  intros H1 H2 H3 H4 _ datasets. subst datasets.
  destruct very_good as [| a1 l1]; [congruence |].
  destruct good as [| a2 l2]; [congruence |].
  destruct ok as [| a3 l3]; [congruence |].
  destruct very_bad as [| a4 l4]; [congruence |].
  eexists. split; [reflexivity |].
  change (collection_name 1) with "lathe_m1".
  change (collection_name 2) with "lathe_m2".
  change (collection_name 3) with "lathe_m3".
  change (collection_name 4) with "lathe_m4".
  assert (L1 : forall m : Database,
             <["lathe_m4" := a4 :: l4]> (delete "lathe_m4"
               (<["lathe_m2" := a3 :: l3]> (delete "lathe_m2"
                 (<["lathe_m3" := a2 :: l2]> (delete "lathe_m3"
                   (<["lathe_m1" := a1 :: l1]> (delete "lathe_m1" m)))))))
             !! "lathe_m1" = Some (a1 :: l1)).
  { intros m. rewrite lookup_insert_ne, lookup_delete_ne by discriminate.
    rewrite lookup_insert_ne, lookup_delete_ne by discriminate.
    rewrite lookup_insert_ne, lookup_delete_ne by discriminate.
    apply lookup_insert_eq. }
  assert (L2 : forall m : Database,
             <["lathe_m4" := a4 :: l4]> (delete "lathe_m4"
               (<["lathe_m2" := a3 :: l3]> (delete "lathe_m2" m)))
             !! "lathe_m2" = Some (a3 :: l3)).
  { intros m. rewrite lookup_insert_ne, lookup_delete_ne by discriminate.
    apply lookup_insert_eq. }
  assert (L3 : forall m : Database,
             <["lathe_m4" := a4 :: l4]> (delete "lathe_m4"
               (<["lathe_m2" := a3 :: l3]> (delete "lathe_m2"
                 (<["lathe_m3" := a2 :: l2]> (delete "lathe_m3" m)))))
             !! "lathe_m3" = Some (a2 :: l2)).
  { intros m. rewrite lookup_insert_ne, lookup_delete_ne by discriminate.
    rewrite lookup_insert_ne, lookup_delete_ne by discriminate.
    apply lookup_insert_eq. }
  cbn [GeneratorData.upload_step fst snd].
  split; [apply L1 |]. split; [apply L2 |]. split; [apply L3 |].
  split; [apply lookup_insert_eq |]. split.
  - intros name Hn. cbn [map] in Hn.
    change (collection_name 1) with "lathe_m1" in Hn.
    change (collection_name 2) with "lathe_m2" in Hn.
    change (collection_name 3) with "lathe_m3" in Hn.
    change (collection_name 4) with "lathe_m4" in Hn.
    repeat (rewrite lookup_insert_ne by (intros <-; apply Hn; simpl; tauto);
            rewrite lookup_delete_ne by (intros <-; apply Hn; simpl; tauto)).
    reflexivity.
  - intros Hs.
    repeat match type of Hs with
           | Forall _ (_ :: _) =>
               let Hk := fresh "Hk" in apply Forall_cons in Hs as [Hk Hs]
           end.
    set (db' := <["lathe_m4" := a4 :: l4]> _) in *.
    assert (W : forall i c, db' !! collection_name i = Some c ->
                  Forall (fun d => is_Some (Health_score d)) c ->
                  c <> [] ->
                  Forall (fun d => is_Some (Health_score d)) (window db' i 50) /\
                  nonempty (window db' i 50) = true).
    { intros i c Hl Hc Hne. unfold window. rewrite Hl. split.
      - rewrite Forall_forall in *. intros d Hd.
        apply Hc, list_elem_of_In, (find_recent_In d 50), list_elem_of_In, Hd.
      - destruct (find_recent c 50) eqn:E; [| reflexivity].
        apply find_recent_nil_iff in E. congruence. }
    destruct (W 1 _ (L1 _) Hk ltac:(discriminate)) as [S1 N1].
    destruct (W 2 _ (L2 _) Hk1 ltac:(discriminate)) as [S2 N2].
    destruct (W 3 _ (L3 _) Hk0 ltac:(discriminate)) as [S3 N3].
    destruct (W 4 _ (lookup_insert_eq _ _ _) Hk2 ltac:(discriminate)) as [S4 N4].
    assert (Hsc : scored db').
    { unfold scored, lathe_range.
      repeat (apply Forall_cons; split); [.. | constructor]; assumption. }
    destruct (lathes_loop_scored db' lathe_range Hsc []) as (l & E & M & _).
    exists l. split; [exact E |]. rewrite M. unfold lathe_range.
    rewrite !filter_cons, filter_nil.
    repeat match goal with
           | |- context [decide (nonempty (window db' ?i 50) = true)] =>
               destruct (decide (nonempty (window db' i 50) = true));
               [| congruence]
           end.
    reflexivity.
Qed.

Lemma upload_fills_fleet_witness :
  exists db',
    GeneratorData.upload_to_mongodb sample_datasets GeneratorData.lathe_ids
      db_fleet = (db', None) /\
    db' !! collection_name 3 = Some window_7996.
Proof.
  destruct (upload_fills_fleet db_fleet history_m2 window_7996 window_bare
              [sample 1 "H" 1 40 (Some 70%Q) (Some 30%Q)])
    as (db' & E & _ & _ & H3 & _);
    try discriminate.
  - repeat (apply Forall_cons; split); [.. | constructor];
      unfold frame_records, doc_keys;
      repeat (apply Forall_cons; split); try (constructor; fail);
      first [ solve [left; repeat constructor]
            | solve [right; repeat constructor] ].
  - exists db'. split; [exact E | exact H3].
Defined.

(** ** The health score of the generator, continued *)

Lemma health_score_value (s t w : Q) (d : Generator.Reading) :
  ~ (s == 0)%Q -> ~ (t == 0)%Q -> ~ (w == 0)%Q ->
  exists h,
    Generator.health_score
      {| Generator.speed := Num s; Generator.torque := Num t;
         Generator.wear_max := Num w; Generator.temp_shift := Num 10 |} d
    = Num h /\
    (h == 100 * ((2 # 10) * Generator.sub_temp d
                 + (25 # 100) * Generator.sub_speed s d
                 + (25 # 100) * Generator.sub_torque t d
                 + (3 # 10) * Generator.sub_wear w d))%Q.
Proof.
  intros Hs Ht Hw.
  unfold Generator.health_score, Generator.h_temp, Generator.h_speed,
    Generator.h_torque, Generator.h_wear.
  cbn [Generator.speed Generator.torque Generator.wear_max
       Generator.temp_shift].
  rewrite (GeneratorFacts.np_div_Num _ s Hs),
    (GeneratorFacts.np_div_Num _ t Ht), (GeneratorFacts.np_div_Num _ w Hw).
  cbn [f_sub f_neg f_add f_abs].
  rewrite (GeneratorFacts.np_div_Num _ 10) by discriminate.
  destruct (GeneratorFacts.clip_Num
              (Qabs (Generator.Air_temperature d + - (300)) / 10))
    as (ct & -> & Et).
  destruct (GeneratorFacts.clip_Num (Generator.Rotational_speed d / s))
    as (cs & -> & Es).
  destruct (GeneratorFacts.clip_Num (Generator.Torque d / t))
    as (cq & -> & Eq).
  destruct (GeneratorFacts.clip_Num (1 + - (Generator.Tool_wear d / w)))
    as (cw & -> & Ew).
  cbn [f_mul f_add Generator.weights Generator.temp Generator.w_speed
       Generator.w_torque Generator.wear].
  eexists. split; [reflexivity |].
  unfold Generator.sub_temp, Generator.sub_speed, Generator.sub_torque,
    Generator.sub_wear.
  change (Qabs (Generator.Air_temperature d + - (300)) / 10)%Q
    with (Qabs (Generator.Air_temperature d - 300) / 10)%Q in Et.
  change (1 + - (Generator.Tool_wear d / w))%Q
    with (1 - Generator.Tool_wear d / w)%Q in Ew.
  rewrite Et, Es, Eq, Ew. reflexivity.
Qed.

Lemma clip01_mono (x y : Q) :
  (x <= y)%Q -> (Generator.clip01 x <= Generator.clip01 y)%Q.
Proof.
  intros H. unfold Generator.clip01.
  destruct (Qle_bool x 0) eqn:X0, (Qle_bool y 0) eqn:Y0;
    destruct (Qle_bool 1 x) eqn:X1; destruct (Qle_bool 1 y) eqn:Y1;
    repeat match goal with
           | E : Qle_bool _ _ = true |- _ => apply Qle_bool_iff in E
           | E : Qle_bool ?a ?b = false |- _ =>
               assert (~ (a <= b)%Q) by (rewrite <- Qle_bool_iff; congruence);
               clear E
           end; lra.
Qed.

Lemma Qdiv_le_pos (x y c : Q) : (0 < c)%Q -> (x <= y)%Q -> (x / c <= y / c)%Q.
Proof.
  intros Hc H. unfold Qdiv. apply Qmult_le_compat_r; [exact H |].
  apply Qinv_le_0_compat. lra.
Qed.

(** X15.  With positive nominal values the health score is monotone: a
    row whose air temperature is no farther from 300, whose speed and
    torque are no lower and whose tool wear is no higher than another
    row's never scores less. *)
Theorem health_score_monotone (s t w : Q) (d1 d2 : Generator.Reading) :
  (0 < s)%Q -> (0 < t)%Q -> (0 < w)%Q ->
  (Qabs (Generator.Air_temperature d2 - 300)
   <= Qabs (Generator.Air_temperature d1 - 300))%Q ->
  (Generator.Rotational_speed d1 <= Generator.Rotational_speed d2)%Q ->
  (Generator.Torque d1 <= Generator.Torque d2)%Q ->
  (Generator.Tool_wear d2 <= Generator.Tool_wear d1)%Q ->
  let nominal :=
    {| Generator.speed := Num s; Generator.torque := Num t;
       Generator.wear_max := Num w; Generator.temp_shift := Num 10 |} in
  exists h1 h2,
    Generator.health_score nominal d1 = Num h1 /\
    Generator.health_score nominal d2 = Num h2 /\
    (h1 <= h2)%Q.
Proof.
  intros Hs Ht Hw Ha Hsp Hto Hwe nominal. subst nominal.
  destruct (health_score_value s t w d1) as (h1 & E1 & V1); try lra.
  destruct (health_score_value s t w d2) as (h2 & E2 & V2); try lra.
  exists h1, h2. split; [exact E1 |]. split; [exact E2 |].
  assert (Mt : (Generator.sub_temp d1 <= Generator.sub_temp d2)%Q).
  { unfold Generator.sub_temp.
    pose proof (clip01_mono _ _ (Qdiv_le_pos _ _ 10 ltac:(reflexivity) Ha)).
    lra. }
  assert (Ms : (Generator.sub_speed s d1 <= Generator.sub_speed s d2)%Q).
  { unfold Generator.sub_speed. apply clip01_mono, Qdiv_le_pos; assumption. }
  assert (Mq : (Generator.sub_torque t d1 <= Generator.sub_torque t d2)%Q).
  { unfold Generator.sub_torque. apply clip01_mono, Qdiv_le_pos; assumption. }
  assert (Mw : (Generator.sub_wear w d1 <= Generator.sub_wear w d2)%Q).
  { unfold Generator.sub_wear. apply clip01_mono.
    pose proof (Qdiv_le_pos _ _ w Hw Hwe). lra. }
  rewrite V1, V2. lra.
Qed.

Lemma health_score_monotone_witness :
  exists h1 h2,
    Generator.health_score
      {| Generator.speed := Num 1500; Generator.torque := Num 40;
         Generator.wear_max := Num 200; Generator.temp_shift := Num 10 |}
      sample_reading = Num h1 /\
    Generator.health_score
      {| Generator.speed := Num 1500; Generator.torque := Num 40;
         Generator.wear_max := Num 200; Generator.temp_shift := Num 10 |}
      {| Generator.Air_temperature := 301; Generator.Rotational_speed := 1450;
         Generator.Torque := 50; Generator.Tool_wear := 60 |} = Num h2 /\
    (h1 <= h2)%Q.
Proof.
  apply (health_score_monotone 1500 40 200 sample_reading
           {| Generator.Air_temperature := 301;
              Generator.Rotational_speed := 1450;
              Generator.Torque := 50; Generator.Tool_wear := 60 |});
    try reflexivity; discriminate.
Defined.

Lemma pd_mean_Num (q : Q) (qs : list Q) :
  pd_mean (map Num (q :: qs)) = Num (q_mean (q :: qs)).
Proof.
  unfold pd_mean. rewrite filter_notna_Num. cbn [map].
  change (Num q :: map Num qs) with (map Num (q :: qs)).
  rewrite fold_f_add_Num, length_map. reflexivity.
Qed.

Lemma q_mean_pos (q : Q) (qs : list Q) :
  Forall (fun x => (0 < x)%Q) (q :: qs) -> (0 < q_mean (q :: qs))%Q.
Proof.
  intros Hp. destruct (q_min_spec qs q) as [Hin Hlo], (q_max_spec qs q) as [_ Hhi].
  assert (Hb : Forall (fun y => (q_min q qs <= y)%Q /\ (y <= q_max q qs)%Q)
                      (q :: qs)).
  { apply Forall_forall. intros y Hy. apply list_elem_of_In in Hy.
    split; [apply Hlo, Hy | apply Hhi, Hy]. }
  destruct (q_mean_bounds _ _ (q :: qs) ltac:(discriminate) Hb) as [H1 _].
  rewrite Forall_forall in Hp.
  pose proof (Hp _ (proj2 (list_elem_of_In _ _) Hin)). lra.
Qed.

Lemma map_Num_field {A} (f : A -> Q) (l : list A) :
  map (fun d => Num (f d)) l = map Num (map f l).
Proof. symmetry. apply map_map. Qed.

(** X16.  When the base data have positive speeds and torques and
    non-negative tool wear, positive in some row, the nominal values taken
    from them are finite and positive, and every health score [enrich]
    computes with them, for any rows, is a number in [0,100]. *)
Theorem enrich_scores_in_range (df_base df : list Generator.Reading) :
  Forall (fun d => (0 < Generator.Rotational_speed d)%Q /\
                   (0 < Generator.Torque d)%Q /\
                   (0 <= Generator.Tool_wear d)%Q) df_base ->
  Exists (fun d => (0 < Generator.Tool_wear d)%Q) df_base ->
  (exists s t w,
     Generator.nominal_of df_base
     = {| Generator.speed := Num s; Generator.torque := Num t;
          Generator.wear_max := Num w; Generator.temp_shift := Num 10 |} /\
     (0 < s)%Q /\ (0 < t)%Q /\ (0 < w)%Q) /\
  Forall (fun x => exists h, x = Num h /\ (0 <= h)%Q /\ (h <= 100)%Q)
         (Generator.enrich_health (Generator.nominal_of df_base) df).
Proof.
  intros Hf He.
  destruct df_base as [| d0 rest]; [inversion He |].
  assert (Hn : exists s t w,
             Generator.nominal_of (d0 :: rest)
             = {| Generator.speed := Num s; Generator.torque := Num t;
                  Generator.wear_max := Num w; Generator.temp_shift := Num 10 |} /\
             (0 < s)%Q /\ (0 < t)%Q /\ (0 < w)%Q).
  { unfold Generator.nominal_of.
    rewrite (map_Num_field Generator.Rotational_speed),
      (map_Num_field Generator.Torque), (map_Num_field Generator.Tool_wear).
    cbn [map].
    change (Num (Generator.Rotational_speed d0)
            :: map Num (map Generator.Rotational_speed rest))
      with (map Num (Generator.Rotational_speed d0
                     :: map Generator.Rotational_speed rest)).
    change (Num (Generator.Torque d0) :: map Num (map Generator.Torque rest))
      with (map Num (Generator.Torque d0 :: map Generator.Torque rest)).
    change (Num (Generator.Tool_wear d0) :: map Num (map Generator.Tool_wear rest))
      with (map Num (Generator.Tool_wear d0 :: map Generator.Tool_wear rest)).
    rewrite !pd_mean_Num, pd_max_Num.
    do 3 eexists. split; [reflexivity |].
    rewrite Forall_forall in Hf. split; [| split].
    - apply q_mean_pos. change (Forall (fun x => (0 < x)%Q)
                                  (map Generator.Rotational_speed (d0 :: rest))).
      apply Forall_forall. intros x Hx.
      apply list_elem_of_In, in_map_iff in Hx as (d & <- & Hd).
      apply Hf, list_elem_of_In, Hd.
    - apply q_mean_pos. change (Forall (fun x => (0 < x)%Q)
                                  (map Generator.Torque (d0 :: rest))).
      apply Forall_forall. intros x Hx.
      apply list_elem_of_In, in_map_iff in Hx as (d & <- & Hd).
      apply Hf, list_elem_of_In, Hd.
    - apply Exists_exists in He as (d & Hd & Hpos).
      destruct (q_max_spec (map Generator.Tool_wear rest)
                           (Generator.Tool_wear d0)) as [_ Hhi].
      assert (Hin : In (Generator.Tool_wear d)
                       (Generator.Tool_wear d0 :: map Generator.Tool_wear rest)).
      { change (In (Generator.Tool_wear d)
                   (map Generator.Tool_wear (d0 :: rest))).
        apply in_map, list_elem_of_In, Hd. }
      pose proof (Hhi _ Hin). lra. }
  split; [exact Hn |].
  destruct Hn as (s & t & w & -> & Hs & Ht & Hw).
  unfold Generator.enrich_health. apply Forall_forall. intros x Hx.
  apply list_elem_of_In, in_map_iff in Hx as (d & <- & _).
  destruct (health_score_value s t w d) as (h & E & V); try lra.
  exists h. split; [exact E |].
  pose proof (GeneratorFacts.clip01_bounds
                (Qabs (Generator.Air_temperature d - 300) / 10)) as Bt.
  pose proof (GeneratorFacts.clip01_bounds (Generator.Rotational_speed d / s)) as Bs.
  pose proof (GeneratorFacts.clip01_bounds (Generator.Torque d / t)) as Bq.
  pose proof (GeneratorFacts.clip01_bounds (1 - Generator.Tool_wear d / w)) as Bw.
  unfold Generator.sub_temp, Generator.sub_speed, Generator.sub_torque,
    Generator.sub_wear in V.
  rewrite V. split; lra.
Qed.

Lemma enrich_scores_in_range_witness :
  Forall (fun x => exists h, x = Num h /\ (0 <= h)%Q /\ (h <= 100)%Q)
         (Generator.enrich_health (Generator.nominal_of sample_base) sample_base).
Proof.
  apply (enrich_scores_in_range sample_base sample_base).
  - unfold sample_base, sample_reading.
    repeat (apply Forall_cons; split); [| | constructor]; cbn;
      repeat split; discriminate.
  - apply Exists_cons_hd. reflexivity.
Defined.

(** ** The dashboard *)

(** X17.  For every mean the backend can compute, the badge of the
    dashboard wraps the status in the style class named after it, and that
    class, like the class of the machine card, is one the style sheet
    defines: the fallback styling as a failure is only ever applied to the
    status "Failure". *)
Theorem badge_matches_status (avg_health : pyfloat) :
  let status := status_of avg_health in
  Frontend.render_status_badge status
  = "<span class='status-" +:+ Frontend.status_class status +:+ "'>● "
    +:+ status +:+ "</span>" /\
  In (Frontend.status_class status) Frontend.css_classes /\
  (Frontend.status_class status = "failure" <-> status = "Failure").
Proof.
  cbv zeta. unfold status_of.
  destruct (f_ge avg_health (Num 80)); [| destruct (f_ge avg_health (Num 60))].
  - split; [reflexivity |]. split; [left; reflexivity |].
    split; discriminate.
  - split; [reflexivity |]. split; [right; left; reflexivity |].
    split; discriminate.
  - split; [reflexivity |]. split; [right; right; left; reflexivity |].
    split; reflexivity.
Qed.

(** X18.  The radar chart never divides by zero: a statistic with
    max = min is drawn at 0.5, and one with min <= avg <= max is drawn at a
    value in [0,1], 0 for avg = min and 1 for avg = max. *)
Theorem normalized_in_unit (min_val max_val avg_val : Q) :
  (min_val <= avg_val)%Q -> (avg_val <= max_val)%Q ->
  (0 <= Frontend.normalized min_val max_val avg_val)%Q /\
  (Frontend.normalized min_val max_val avg_val <= 1)%Q /\
  ((max_val == min_val)%Q ->
   Frontend.normalized min_val max_val avg_val = (1 # 2)%Q) /\
  ((min_val < max_val)%Q ->
   (Frontend.normalized min_val max_val min_val == 0)%Q /\
   (Frontend.normalized min_val max_val max_val == 1)%Q).
Proof.
  intros Hlo Hhi. unfold Frontend.normalized.
  destruct (Qeq_bool max_val min_val) eqn:E; cbn [negb].
  - apply Qeq_bool_iff in E.
    split; [discriminate |]. split; [discriminate |].
    split; [reflexivity |]. intros Hlt. lra.
  - apply Qeq_bool_neq in E.
    assert (Hpos : (0 < max_val - min_val)%Q) by lra.
    split; [apply Qle_shift_div_l; [exact Hpos | lra] |].
    split; [apply Qle_shift_div_r; [exact Hpos | lra] |].
    split; [intros Heq; contradiction |].
    intros _. split; field; lra.
Qed.

Lemma normalized_in_unit_witness :
  (0 <= Frontend.normalized 10 30 15)%Q /\
  (Frontend.normalized 10 30 15 <= 1)%Q.
Proof.
  destruct (normalized_in_unit 10 30 15) as (H0 & H1 & _);
    [discriminate | discriminate |].
  split; assumption.
Defined.

Lemma lathes_step_length (db : Database) (lathes res : list LatheSummary.t)
    (i : Z) :
  lathes_step db lathes i = Ok res ->
  (length res <= S (length lathes))%nat.
Proof.
  unfold lathes_step.
  destruct (db !! collection_name i) as [collection |];
    [| intros H; injection H as <-; lia].
  destruct (find_recent collection 50); [intros H; injection H as <-; lia |].
  destruct (summarize i (d :: l)); cbn [bind]; [| discriminate].
  intros H; injection H as <-. rewrite length_app. cbn [length]. lia.
Qed.

Lemma lathes_loop_length (db : Database) (ids : list Z) :
  forall lathes res,
    for_each ids (lathes_step db) lathes = Ok res ->
    (length res <= length lathes + length ids)%nat.
Proof.
  induction ids as [| i ids IH]; intros lathes res; cbn [for_each].
  - intros H; injection H as <-. lia.
  - destruct (lathes_step db lathes i) as [acc |] eqn:E; cbn [bind];
      [| discriminate].
    intros H. apply IH in H. apply lathes_step_length in E.
    cbn [length]. lia.
Qed.

(** X19.  The summary of the fleet never lists more than four machines,
    so on the dashboard, which lays its cards out in [min (n, 4)] columns
    and puts card [i] into column [i mod 4], every card has a column of its
    own; for any number of cards the column index is in range. *)
Theorem dashboard_grid (db : Database) (lathes : list LatheSummary.t) :
  get_all_lathes db = Ok lathes ->
  (length lathes <= 4)%nat /\
  (forall i, (i < length lathes)%nat ->
             (i mod 4 = i)%nat /\
             (i mod 4 < Frontend.grid_columns (length lathes))%nat) /\
  (forall n i, (i < n)%nat -> (i mod 4 < Frontend.grid_columns n)%nat).
Proof.
  intros H. apply lathes_loop_length in H. cbn [length lathe_range] in H.
  assert (G : forall n i, (i < n)%nat -> (i mod 4 < Frontend.grid_columns n)%nat).
  { intros n i Hi. unfold Frontend.grid_columns.
    pose proof (Nat.mod_upper_bound i 4 ltac:(discriminate)).
    destruct (n <=? 4)%nat eqn:E; [| assumption].
    apply Nat.leb_le in E. rewrite Nat.mod_small by lia. exact Hi. }
  split; [lia |]. split; [| exact G].
  intros i Hi. split; [apply Nat.mod_small; lia | apply G, Hi].
Qed.

Lemma dashboard_grid_witness :
  exists lathes,
    get_all_lathes db_fleet = Ok lathes /\ (length lathes <= 4)%nat.
Proof.
  destruct (get_all_lathes db_fleet) as [lathes |] eqn:E;
    [| vm_compute in E; discriminate E].
  exists lathes. split; [reflexivity |].
  destruct (dashboard_grid db_fleet lathes E) as [H _]. exact H.
Defined.

(** ** Names *)

(** X20.  Two machines never share a collection or a display name: both
    names determine the machine id. *)
Theorem names_determine_machine (a b : Z) :
  (collection_name a = collection_name b -> a = b) /\
  (display_name a = display_name b -> a = b).
Proof.
  split; intros H.
  - unfold collection_name in H. cbn in H. injection H as H.
    apply (inj (pretty (A := Z))). exact H.
  - unfold display_name in H. cbn in H. injection H as H.
    apply (inj (pretty (A := Z))). exact H.
Qed.


